(** * Hyper-V sockets (af_hvsock.c): a shallow embedding and its properties

    The development follows hv-rhel7.x/hv/af_hvsock.c.  Kernel objects are
    records, the two global lists and the sockets they link are an explicit
    [world], blocking calls consume a trace of wake-ups, and a NULL
    dereference is the outcome [Oops]. *)

From Stdlib Require Import ZArith List Lia Bool Btauto.
From stdpp Require Import base numbers list.

Open Scope Z_scope.

(** ** Constants of the kernel headers *)

Module Linux.
(* include/uapi/asm-generic/errno-base.h and errno.h *)
Definition EPERM : Z := 1.
Definition EINTR : Z := 4.
Definition EIO : Z := 5.
Definition ENXIO : Z := 6.
Definition EAGAIN : Z := 11.
Definition ENOMEM : Z := 12.
Definition EFAULT : Z := 14.
Definition EINVAL : Z := 22.
Definition EMFILE : Z := 24.
Definition EPIPE : Z := 32.
Definition EDESTADDRREQ : Z := 89.
Definition EPROTONOSUPPORT : Z := 93.
Definition ESOCKTNOSUPPORT : Z := 94.
Definition EOPNOTSUPP : Z := 95.
Definition EADDRINUSE : Z := 98.
Definition ENOTCONN : Z := 107.
Definition ERESTARTSYS : Z := 512.

(* include/net/sock.h *)
Definition RCV_SHUTDOWN : Z := 1.
Definition SEND_SHUTDOWN : Z := 2.
Definition SHUTDOWN_MASK : Z := 3.

(* include/linux/net.h, include/linux/socket.h, include/linux/fcntl.h *)
Definition SHUT_RD : Z := 0.
Definition SHUT_RDWR : Z := 2.
Definition SOCK_STREAM : Z := 1.
Definition MSG_DONTWAIT : Z := 64.
Definition O_NONBLOCK : Z := 2048.

Definition INT_MAX : Z := 2147483647.
(* LONG_MAX on the 64-bit kernels the driver is built for *)
Definition MAX_SCHEDULE_TIMEOUT : Z := 9223372036854775807.
End Linux.
Import Linux.

(** ** Machine integers *)

(** Conversion to [int] (two's complement, 32 bits), as in [ret = total_written]. *)
Definition sint32 (z : Z) : Z := (z + 2 ^ 31) mod 2 ^ 32 - 2 ^ 31.

(** Conversion to [unsigned short], the type of [sk_ack_backlog] and
    [sk_max_ack_backlog] in this kernel's [struct sock]. *)
Definition u16 (z : Z) : Z := z mod 2 ^ 16.

(** [x & mask] is non-zero. *)
Definition has_bits (x mask : Z) : bool := negb (Z.land x mask =? 0).

(** ** Addresses *)

(** A [uuid_le] is 16 bytes; it is kept as the 128-bit number they spell. *)
Abbreviation uuid_le := Z (only parsing).

Definition NULL_UUID_LE : uuid_le := 0.

(** Modelled from the spec: [SHV_SERVICE_ID_ANY] of the header
    include/linux/af_hvsock.h (not under src), the reserved all-zero service
    identifier of a wildcard address. *)
Definition SHV_SERVICE_ID_ANY : uuid_le := NULL_UUID_LE.

(** Modelled from the spec: the family tag of an address, [AF_HYPERV] (a
    number of the same header) for this protocol. *)
Inductive sa_family : Type :=
| AF_HYPERV
| AF_other (tag : Z).

Record sockaddr_hv : Type := Build_sockaddr_hv {
  shv_family : sa_family;
  reserved : Z;
  shv_vm_id : uuid_le;
  shv_service_id : uuid_le
}.

Definition uuid_equals (u1 u2 : uuid_le) : bool := u1 =? u2.

(** The address is zeroed, then family and service identifier are set. *)
Definition hvsock_addr_init (service_id : uuid_le) : sockaddr_hv :=
  {| shv_family := AF_HYPERV; reserved := 0;
     shv_vm_id := NULL_UUID_LE; shv_service_id := service_id |}.

Definition hvsock_addr_bound (addr : sockaddr_hv) : bool :=
  negb (uuid_equals (shv_service_id addr) SHV_SERVICE_ID_ANY).

(** ** Sockets *)

(** [socket_state] of linux/net.h, with the driver's own [SS_LISTEN] (255),
    which only [sk_state] takes. *)
Inductive socket_state : Type :=
| SS_FREE | SS_UNCONNECTED | SS_CONNECTING | SS_CONNECTED | SS_DISCONNECTING
| SS_LISTEN.

Definition socket_state_eqb (a b : socket_state) : bool :=
  match a, b with
  | SS_FREE, SS_FREE | SS_UNCONNECTED, SS_UNCONNECTED
  | SS_CONNECTING, SS_CONNECTING | SS_CONNECTED, SS_CONNECTED
  | SS_DISCONNECTING, SS_DISCONNECTING | SS_LISTEN, SS_LISTEN => true
  | _, _ => false
  end.

(** [struct socket]: the fields the driver reads and writes. *)
Record socket : Type := Build_socket {
  state : socket_state;
  type : Z
}.

Definition set_state (v : socket_state) (s : socket) : socket :=
  {| state := v; type := type s |}.

(** Calls of the wake-up callbacks of a sock, kept in the order they were made. *)
Inductive wakeup : Type :=
| StateChange | DataReady | WriteSpace | ErrorReport.

(** A sock lives in an arena and is named by its index there. *)
Abbreviation sk_id := nat (only parsing).
Abbreviation channel_id := nat (only parsing).

(** [struct vmpipe_proto_header] *)
Record vmpipe_proto_header : Type := Build_vmpipe_proto_header {
  pkt_type : Z;
  data_size : Z
}.

(** The receive side of [struct hvsock_sock]: the last packet pulled and the
    cursor into it. *)
Record hvsock_recv : Type := Build_hvsock_recv {
  recv_hdr : vmpipe_proto_header;
  recv_buf : list Z;
  data_len : Z;
  data_offset : Z
}.

Record hvsock_send : Type := Build_hvsock_send {
  send_hdr : vmpipe_proto_header;
  send_buf : list Z
}.

(** [struct hvsock_sock], with the [struct sock] it starts with laid out
    flat.  A [struct socket] and the sock it owns are in one-to-one
    correspondence while both exist, so [sk_socket] holds the socket itself;
    [None] is the NULL of a sock that no [struct socket] is attached to. *)
Record hvsock_sock : Type := Build_hvsock_sock {
  sk_socket : option socket;
  sk_state : socket_state;
  sk_type : Z;
  sk_err : Z;
  sk_shutdown : Z;
  sock_done : bool;                (* sock_flag(sk, SOCK_DONE) *)
  sock_dead : bool;                (* sock_flag(sk, SOCK_DEAD) *)
  sk_ack_backlog : Z;
  sk_max_ack_backlog : Z;
  sk_sndtimeo : Z;
  sk_rcvtimeo : Z;
  sk_refcnt : Z;
  sk_wq : list wakeup;
  local_addr : sockaddr_hv;
  remote_addr : sockaddr_hv;
  channel : option channel_id;
  peer_shutdown : Z;
  accept_queue : list sk_id;
  recv : hvsock_recv;
  send : hvsock_send
}.

Definition set_sk_socket (v : option socket) (s : hvsock_sock) : hvsock_sock :=
  Build_hvsock_sock v (sk_state s) (sk_type s) (sk_err s) (sk_shutdown s)
    (sock_done s) (sock_dead s) (sk_ack_backlog s) (sk_max_ack_backlog s)
    (sk_sndtimeo s) (sk_rcvtimeo s) (sk_refcnt s) (sk_wq s) (local_addr s)
    (remote_addr s) (channel s) (peer_shutdown s) (accept_queue s) (recv s)
    (send s).

Definition set_sk_state (v : socket_state) (s : hvsock_sock) : hvsock_sock :=
  Build_hvsock_sock (sk_socket s) v (sk_type s) (sk_err s) (sk_shutdown s)
    (sock_done s) (sock_dead s) (sk_ack_backlog s) (sk_max_ack_backlog s)
    (sk_sndtimeo s) (sk_rcvtimeo s) (sk_refcnt s) (sk_wq s) (local_addr s)
    (remote_addr s) (channel s) (peer_shutdown s) (accept_queue s) (recv s)
    (send s).

Definition set_sk_shutdown (v : Z) (s : hvsock_sock) : hvsock_sock :=
  Build_hvsock_sock (sk_socket s) (sk_state s) (sk_type s) (sk_err s) v
    (sock_done s) (sock_dead s) (sk_ack_backlog s) (sk_max_ack_backlog s)
    (sk_sndtimeo s) (sk_rcvtimeo s) (sk_refcnt s) (sk_wq s) (local_addr s)
    (remote_addr s) (channel s) (peer_shutdown s) (accept_queue s) (recv s)
    (send s).

Definition set_sock_done (v : bool) (s : hvsock_sock) : hvsock_sock :=
  Build_hvsock_sock (sk_socket s) (sk_state s) (sk_type s) (sk_err s)
    (sk_shutdown s) v (sock_dead s) (sk_ack_backlog s) (sk_max_ack_backlog s)
    (sk_sndtimeo s) (sk_rcvtimeo s) (sk_refcnt s) (sk_wq s) (local_addr s)
    (remote_addr s) (channel s) (peer_shutdown s) (accept_queue s) (recv s)
    (send s).

Definition set_sock_dead (v : bool) (s : hvsock_sock) : hvsock_sock :=
  Build_hvsock_sock (sk_socket s) (sk_state s) (sk_type s) (sk_err s)
    (sk_shutdown s) (sock_done s) v (sk_ack_backlog s) (sk_max_ack_backlog s)
    (sk_sndtimeo s) (sk_rcvtimeo s) (sk_refcnt s) (sk_wq s) (local_addr s)
    (remote_addr s) (channel s) (peer_shutdown s) (accept_queue s) (recv s)
    (send s).

Definition set_sk_ack_backlog (v : Z) (s : hvsock_sock) : hvsock_sock :=
  Build_hvsock_sock (sk_socket s) (sk_state s) (sk_type s) (sk_err s)
    (sk_shutdown s) (sock_done s) (sock_dead s) v (sk_max_ack_backlog s)
    (sk_sndtimeo s) (sk_rcvtimeo s) (sk_refcnt s) (sk_wq s) (local_addr s)
    (remote_addr s) (channel s) (peer_shutdown s) (accept_queue s) (recv s)
    (send s).

Definition set_sk_max_ack_backlog (v : Z) (s : hvsock_sock) : hvsock_sock :=
  Build_hvsock_sock (sk_socket s) (sk_state s) (sk_type s) (sk_err s)
    (sk_shutdown s) (sock_done s) (sock_dead s) (sk_ack_backlog s) v
    (sk_sndtimeo s) (sk_rcvtimeo s) (sk_refcnt s) (sk_wq s) (local_addr s)
    (remote_addr s) (channel s) (peer_shutdown s) (accept_queue s) (recv s)
    (send s).

Definition set_sk_refcnt (v : Z) (s : hvsock_sock) : hvsock_sock :=
  Build_hvsock_sock (sk_socket s) (sk_state s) (sk_type s) (sk_err s)
    (sk_shutdown s) (sock_done s) (sock_dead s) (sk_ack_backlog s)
    (sk_max_ack_backlog s) (sk_sndtimeo s) (sk_rcvtimeo s) v (sk_wq s)
    (local_addr s) (remote_addr s) (channel s) (peer_shutdown s)
    (accept_queue s) (recv s) (send s).

Definition set_sk_wq (v : list wakeup) (s : hvsock_sock) : hvsock_sock :=
  Build_hvsock_sock (sk_socket s) (sk_state s) (sk_type s) (sk_err s)
    (sk_shutdown s) (sock_done s) (sock_dead s) (sk_ack_backlog s)
    (sk_max_ack_backlog s) (sk_sndtimeo s) (sk_rcvtimeo s) (sk_refcnt s) v
    (local_addr s) (remote_addr s) (channel s) (peer_shutdown s)
    (accept_queue s) (recv s) (send s).

Definition set_local_addr (v : sockaddr_hv) (s : hvsock_sock) : hvsock_sock :=
  Build_hvsock_sock (sk_socket s) (sk_state s) (sk_type s) (sk_err s)
    (sk_shutdown s) (sock_done s) (sock_dead s) (sk_ack_backlog s)
    (sk_max_ack_backlog s) (sk_sndtimeo s) (sk_rcvtimeo s) (sk_refcnt s)
    (sk_wq s) v (remote_addr s) (channel s) (peer_shutdown s)
    (accept_queue s) (recv s) (send s).

Definition set_remote_addr (v : sockaddr_hv) (s : hvsock_sock) : hvsock_sock :=
  Build_hvsock_sock (sk_socket s) (sk_state s) (sk_type s) (sk_err s)
    (sk_shutdown s) (sock_done s) (sock_dead s) (sk_ack_backlog s)
    (sk_max_ack_backlog s) (sk_sndtimeo s) (sk_rcvtimeo s) (sk_refcnt s)
    (sk_wq s) (local_addr s) v (channel s) (peer_shutdown s)
    (accept_queue s) (recv s) (send s).

Definition set_channel (v : option channel_id) (s : hvsock_sock) : hvsock_sock :=
  Build_hvsock_sock (sk_socket s) (sk_state s) (sk_type s) (sk_err s)
    (sk_shutdown s) (sock_done s) (sock_dead s) (sk_ack_backlog s)
    (sk_max_ack_backlog s) (sk_sndtimeo s) (sk_rcvtimeo s) (sk_refcnt s)
    (sk_wq s) (local_addr s) (remote_addr s) v (peer_shutdown s)
    (accept_queue s) (recv s) (send s).

Definition set_peer_shutdown (v : Z) (s : hvsock_sock) : hvsock_sock :=
  Build_hvsock_sock (sk_socket s) (sk_state s) (sk_type s) (sk_err s)
    (sk_shutdown s) (sock_done s) (sock_dead s) (sk_ack_backlog s)
    (sk_max_ack_backlog s) (sk_sndtimeo s) (sk_rcvtimeo s) (sk_refcnt s)
    (sk_wq s) (local_addr s) (remote_addr s) (channel s) v
    (accept_queue s) (recv s) (send s).

Definition set_accept_queue (v : list sk_id) (s : hvsock_sock) : hvsock_sock :=
  Build_hvsock_sock (sk_socket s) (sk_state s) (sk_type s) (sk_err s)
    (sk_shutdown s) (sock_done s) (sock_dead s) (sk_ack_backlog s)
    (sk_max_ack_backlog s) (sk_sndtimeo s) (sk_rcvtimeo s) (sk_refcnt s)
    (sk_wq s) (local_addr s) (remote_addr s) (channel s) (peer_shutdown s)
    v (recv s) (send s).

Definition set_recv (v : hvsock_recv) (s : hvsock_sock) : hvsock_sock :=
  Build_hvsock_sock (sk_socket s) (sk_state s) (sk_type s) (sk_err s)
    (sk_shutdown s) (sock_done s) (sock_dead s) (sk_ack_backlog s)
    (sk_max_ack_backlog s) (sk_sndtimeo s) (sk_rcvtimeo s) (sk_refcnt s)
    (sk_wq s) (local_addr s) (remote_addr s) (channel s) (peer_shutdown s)
    (accept_queue s) v (send s).

Definition set_send (v : hvsock_send) (s : hvsock_sock) : hvsock_sock :=
  Build_hvsock_sock (sk_socket s) (sk_state s) (sk_type s) (sk_err s)
    (sk_shutdown s) (sock_done s) (sock_dead s) (sk_ack_backlog s)
    (sk_max_ack_backlog s) (sk_sndtimeo s) (sk_rcvtimeo s) (sk_refcnt s)
    (sk_wq s) (local_addr s) (remote_addr s) (channel s) (peer_shutdown s)
    (accept_queue s) (recv s) v.

(** [sk->sk_state_change(sk)] and its siblings: the waiters of the sock are
    woken; the call is appended to the sock's wake-up log. *)
Definition wake (k : wakeup) (s : hvsock_sock) : hvsock_sock :=
  set_sk_wq (sk_wq s ++ [k]) s.

(** [sock_hold] and [sock_put].  Freeing the object when the count reaches
    zero is the work of the generic socket layer; the arena keeps the cell. *)
Definition sock_hold (s : hvsock_sock) : hvsock_sock :=
  set_sk_refcnt (sk_refcnt s + 1) s.

Definition sock_put (s : hvsock_sock) : hvsock_sock :=
  set_sk_refcnt (sk_refcnt s - 1) s.

(** ** Outcomes of calls that may loop, sleep or fault *)

Inductive outcome (A : Type) : Type :=
| Returned (a : A)   (* the call returned [a] *)
| InProgress         (* the environment trace ends while the call is in a loop *)
| OutOfFuel          (* the iteration bound of the model is exhausted *)
| Oops.              (* NULL pointer dereference *)

Arguments Returned {A} a.
Arguments InProgress {A}.
Arguments OutOfFuel {A}.
Arguments Oops {A}.

(** ** listen and shutdown *)

(** [hvsock_listen(sock, backlog)] with [sk = sock->sk]; the socket itself is
    only read. *)
Definition hvsock_listen (sock : socket) (sk : hvsock_sock) (backlog : Z)
  : Z * hvsock_sock :=
  if negb (type sock =? SOCK_STREAM) then (- EOPNOTSUPP, sk)
  else if negb (socket_state_eqb (state sock) SS_UNCONNECTED) then (- EINVAL, sk)
  else if backlog <=? 0 then (- EINVAL, sk)
  else
    (* This is an artificial limit *)
    let backlog := if backlog >? 128 then 128 else backlog in
    if negb (hvsock_addr_bound (local_addr sk)) then (- EINVAL, sk)
    else
      let sk := set_sk_ack_backlog 0 sk in
      let sk := set_sk_max_ack_backlog (u16 backlog) sk in
      let sk := set_sk_state SS_LISTEN sk in
      (0, sk).

(** [hvsock_shutdown(sock, mode)] with [sk = sock->sk].  [sk->sk_socket] is
    [sock] itself, so the assignment to [sock->state] is seen through the
    sock as well: the socket the returned sock is attached to is the socket
    returned. *)
Definition hvsock_shutdown (sock : socket) (sk : hvsock_sock) (mode : Z)
  : Z * socket * hvsock_sock :=
  if (mode <? SHUT_RD) || (mode >? SHUT_RDWR) then (- EINVAL, sock, sk)
  else
    (* SHUT_RD (0) -> RCV_SHUTDOWN (1), SHUT_WR (1) -> SEND_SHUTDOWN (2),
       SHUT_RDWR (2) -> SHUTDOWN_MASK (3) *)
    let mode := mode + 1 in
    if socket_state_eqb (state sock) SS_UNCONNECTED then (- ENOTCONN, sock, sk)
    else
      let sock := set_state SS_DISCONNECTING sock in
      let sk := set_sk_socket (Some sock) sk in
      let sk := set_sk_shutdown (Z.lor (sk_shutdown sk) mode) sk in
      let sk := wake StateChange sk in
      (0, sock, sk).

(** ** The global state *)

(** Calls into the channel transport (vmbus), in the order they were made. *)
Inductive chan_call : Type :=
| SetChannelReadMode (ch : channel_id)
| SetRescindCallback (ch : channel_id)
| VmbusOpen (ch : channel_id) (ctx : sk_id) (ret : Z)
| SetPendingSendSize (ch : channel_id).

(** The arena of socks, [hvsock_bound_list] and [hvsock_connected_list]
    (the two lists are guarded by [hvsock_mutex] in the source), and the
    calls made into the channel transport.  The kernel lists are intrusive;
    here a list holds the indices of its members, first element first. *)
Record world : Type := Build_world {
  socks : list hvsock_sock;
  hvsock_bound_list : list sk_id;
  hvsock_connected_list : list sk_id;
  chan_calls : list chan_call
}.

Definition set_socks (v : list hvsock_sock) (w : world) : world :=
  Build_world v (hvsock_bound_list w) (hvsock_connected_list w) (chan_calls w).

Definition set_bound_list (v : list sk_id) (w : world) : world :=
  Build_world (socks w) v (hvsock_connected_list w) (chan_calls w).

Definition set_connected_list (v : list sk_id) (w : world) : world :=
  Build_world (socks w) (hvsock_bound_list w) v (chan_calls w).

Definition call_chan (c : chan_call) (w : world) : world :=
  Build_world (socks w) (hvsock_bound_list w) (hvsock_connected_list w)
    (chan_calls w ++ [c]).

(** An assignment through a pointer to the sock [id]. *)
Definition upd (id : sk_id) (f : hvsock_sock → hvsock_sock) (w : world) : world :=
  set_socks (alter f id (socks w)) w.

(** [list_del_init]: the node leaves the list it is on. *)
Definition list_del (id : sk_id) (l : list sk_id) : list sk_id :=
  filter (λ x, x ≠ id) l.

(** ** Registry helpers (callers hold [hvsock_mutex]) *)

(** [__hvsock_insert_bound] and [__hvsock_insert_connected] are [list_add]
    of the node of a sock that is not on the list yet.  Every caller in the
    source but one inserts a sock that cannot be on the list: bind tests
    [hvsock_addr_bound] first, and the passive handshake inserts the sock it
    has just allocated.  The active handshake inserts the CONNECTING sock it
    found without such a test; [list_add] of a node that is still linked
    corrupts the kernel's list, which a list of identifiers does not
    represent, so the properties of that path are stated for a sock that is
    not on the connected list. *)
Definition __hvsock_insert_bound (hvsk : sk_id) (w : world) : world :=
  let w := upd hvsk sock_hold w in
  set_bound_list (hvsk :: hvsock_bound_list w) w.

Definition __hvsock_insert_connected (hvsk : sk_id) (w : world) : world :=
  let w := upd hvsk sock_hold w in
  set_connected_list (hvsk :: hvsock_connected_list w) w.

Definition __hvsock_remove_bound (hvsk : sk_id) (w : world) : world :=
  let w := set_bound_list (list_del hvsk (hvsock_bound_list w)) w in
  upd hvsk sock_put w.

Definition __hvsock_remove_connected (hvsk : sk_id) (w : world) : world :=
  let w := set_connected_list (list_del hvsk (hvsock_connected_list w)) w in
  upd hvsk sock_put w.

(** The scan of [list_for_each_entry]; an index without a cell is not a
    member of a list and is passed over. *)
Fixpoint find_bound_in (ss : list hvsock_sock) (addr : sockaddr_hv)
    (l : list sk_id) : option sk_id :=
  match l with
  | [] => None
  | hvsk :: l' =>
      match ss !! hvsk with
      | Some s =>
          if uuid_equals (shv_service_id addr) (shv_service_id (local_addr s))
          then Some hvsk
          else find_bound_in ss addr l'
      | None => find_bound_in ss addr l'
      end
  end.

Definition __hvsock_find_bound_socket (addr : sockaddr_hv) (w : world)
  : option sk_id :=
  find_bound_in (socks w) addr (hvsock_bound_list w).

Definition channel_eqb (a b : option channel_id) : bool :=
  match a, b with
  | Some x, Some y => Nat.eqb x y
  | None, None => true
  | _, _ => false
  end.

Fixpoint find_connected_in (ss : list hvsock_sock) (ch : channel_id)
    (l : list sk_id) : option sk_id :=
  match l with
  | [] => None
  | hvsk :: l' =>
      match ss !! hvsk with
      | Some s =>
          if channel_eqb (channel s) (Some ch) then Some hvsk
          else find_connected_in ss ch l'
      | None => find_connected_in ss ch l'
      end
  end.

Definition __hvsock_find_connected_socket_by_channel (ch : channel_id)
    (w : world) : option sk_id :=
  find_connected_in (socks w) ch (hvsock_connected_list w).

Definition __hvsock_in_bound_list (hvsk : sk_id) (w : world) : bool :=
  bool_decide (hvsk ∈ hvsock_bound_list w).

Definition __hvsock_in_connected_list (hvsk : sk_id) (w : world) : bool :=
  bool_decide (hvsk ∈ hvsock_connected_list w).

Definition hvsock_insert_connected (hvsk : sk_id) (w : world) : world :=
  __hvsock_insert_connected hvsk w.

(** ** The accept queue *)

Definition hvsock_enqueue_accept (listener connected : sk_id) (w : world)
  : world :=
  let w := upd connected sock_hold w in
  let w := upd listener sock_hold w in
  let w := upd listener
             (λ l, set_accept_queue (accept_queue l ++ [connected]) l) w in
  upd listener (λ l, set_sk_ack_backlog (u16 (sk_ack_backlog l + 1)) l) w.

Definition hvsock_dequeue_accept (listener : sk_id) (w : world)
  : option sk_id * world :=
  match socks w !! listener with
  | None => (None, w)
  | Some l =>
      match accept_queue l with
      | [] => (None, w)
      | hvconnected :: rest =>
          let w := upd listener (set_accept_queue rest) w in
          let w := upd listener
                     (λ l, set_sk_ack_backlog (u16 (sk_ack_backlog l - 1)) l) w in
          let w := upd listener sock_put w in
          (Some hvconnected, w)
      end
  end.

Definition hvsock_is_accept_queue_empty (sk : hvsock_sock) : bool :=
  match accept_queue sk with [] => true | _ => false end.

(** ** bind *)

(** The body of [do { uuid_le_gen(...); } while (__hvsock_find_bound_socket(...))]:
    [gens] are the identifiers the generator yields, in order. *)
Fixpoint gen_unbound (w : world) (gens : list uuid_le)
  : outcome (uuid_le * list uuid_le) :=
  match gens with
  | [] => InProgress
  | g :: gens' =>
      match __hvsock_find_bound_socket (hvsock_addr_init g) w with
      | Some _ => gen_unbound w gens'
      | None => Returned (g, gens')
      end
  end.

(** The two statements before [out:]. *)
Definition commit_bind (hvsk : sk_id) (service_id : uuid_le) (w : world) : world :=
  let w := upd hvsk (set_local_addr (hvsock_addr_init service_id)) w in
  __hvsock_insert_bound hvsk w.

Definition __hvsock_do_bind (hvsk : sk_id) (addr : sockaddr_hv)
    (gens : list uuid_le) (w : world) : outcome (Z * world * list uuid_le) :=
  let hv_addr := hvsock_addr_init (shv_service_id addr) in
  if uuid_equals (shv_service_id addr) SHV_SERVICE_ID_ANY then
    match gen_unbound w gens with
    | Returned (g, gens') => Returned (0, commit_bind hvsk g w, gens')
    | InProgress => InProgress
    | OutOfFuel => OutOfFuel
    | Oops => Oops
    end
  else
    match __hvsock_find_bound_socket hv_addr w with
    | Some _ => Returned (- EADDRINUSE, w, gens)
    | None => Returned (0, commit_bind hvsk (shv_service_id hv_addr) w, gens)
    end.

Definition __hvsock_bind (sk : sk_id) (addr : sockaddr_hv)
    (gens : list uuid_le) (w : world) : outcome (Z * world * list uuid_le) :=
  match socks w !! sk with
  | None => Oops
  | Some hvsk =>
      if hvsock_addr_bound (local_addr hvsk) then Returned (- EINVAL, w, gens)
      else
        match sk_socket hvsk with
        | None => Oops
        | Some sock =>
            if type sock =? SOCK_STREAM then __hvsock_do_bind sk addr gens w
            else Returned (- EINVAL, w, gens)
        end
  end.

(** Autobind this socket to the local address if necessary. *)
Definition hvsock_auto_bind (hvsk : sk_id) (gens : list uuid_le) (w : world)
  : outcome (Z * world * list uuid_le) :=
  match socks w !! hvsk with
  | None => Oops
  | Some s =>
      if hvsock_addr_bound (local_addr s) then Returned (0, w, gens)
      else __hvsock_bind hvsk (hvsock_addr_init SHV_SERVICE_ID_ANY) gens w
  end.

(** ** Creation *)

(** [__hvsock_create]: [sk_alloc] zeroes the object, [sock_init_data] sets
    the reference count to one, both timeouts to [MAX_SCHEDULE_TIMEOUT] and
    attaches [sock] when there is one; the rest is the driver's. *)
Definition __hvsock_create (sock : option socket) (type_ : Z) : hvsock_sock :=
  {| sk_socket := sock;
     sk_state := SS_FREE;
     sk_type := match sock with Some so => type so | None => type_ end;
     sk_err := 0;
     sk_shutdown := 0;
     sock_done := false;
     sock_dead := false;
     sk_ack_backlog := 0;
     sk_max_ack_backlog := 0;
     sk_sndtimeo := MAX_SCHEDULE_TIMEOUT;
     sk_rcvtimeo := MAX_SCHEDULE_TIMEOUT;
     sk_refcnt := 1;
     sk_wq := [];
     local_addr := hvsock_addr_init SHV_SERVICE_ID_ANY;
     remote_addr := hvsock_addr_init SHV_SERVICE_ID_ANY;
     channel := None;
     peer_shutdown := 0;
     accept_queue := [];
     recv := {| recv_hdr := Build_vmpipe_proto_header 0 0; recv_buf := [];
                data_len := 0; data_offset := 0 |};
     send := {| send_hdr := Build_vmpipe_proto_header 0 0; send_buf := [] |} |}.

(** [hvsock_create(net, sock, protocol, kern)]: the two capabilities of the
    caller, whether [sk_alloc] finds memory, and [SHV_PROTO_RAW] of the
    missing header are parameters.  On success the socket is UNCONNECTED and
    owns the new sock. *)
Definition hvsock_create (SHV_PROTO_RAW : Z) (sock : socket) (protocol : Z)
    (cap_sys_admin cap_net_admin alloc_ok : bool)
  : Z * option (socket * hvsock_sock) :=
  if negb cap_sys_admin && negb cap_net_admin then (- EPERM, None)
  else if negb (protocol =? 0) && negb (protocol =? SHV_PROTO_RAW)
  then (- EPROTONOSUPPORT, None)
  else if type sock =? SOCK_STREAM then
    let sock := set_state SS_UNCONNECTED sock in
    if alloc_ok then (0, Some (sock, __hvsock_create (Some sock) 0))
    else (- ENOMEM, None)
  else (- ESOCKTNOSUPPORT, None).

(** ** Channel rescission and channel offers *)

Definition hvsock_close_connection (ch : channel_id) (w : world) : outcome world :=
  match __hvsock_find_connected_socket_by_channel ch w with
  | None => Returned w          (* The guest has already closed the connection? *)
  | Some sk =>
      match socks w !! sk with
      | None => Oops
      | Some s =>
          match sk_socket s with
          | None => Oops        (* sk->sk_socket->state with sk->sk_socket NULL *)
          | Some sock =>
              let s := set_sk_socket (Some (set_state SS_UNCONNECTED sock)) s in
              let s := set_sk_state SS_UNCONNECTED s in
              let s := set_sock_done true s in
              let s := set_peer_shutdown
                         (Z.lor (peer_shutdown s)
                                (Z.lor SEND_SHUTDOWN RCV_SHUTDOWN)) s in
              let s := wake StateChange s in
              Returned (set_socks (<[sk := s]> (socks w)) w)
          end
      end
  end.

(** [hvsock_open_connection(channel)]: [instance] and [service_id] are the
    offer's [if_instance] and [if_type]; [alloc_ok] tells whether [sk_alloc]
    finds memory and [open_ret] is what [vmbus_open] returns. *)
Definition hvsock_open_connection (ch : channel_id)
    (instance service_id : uuid_le) (alloc_ok : bool) (open_ret : Z)
    (w : world) : outcome (Z * world) :=
  match __hvsock_find_bound_socket (hvsock_addr_init instance) w with
  | Some sk =>
      (* It is from the guest client's connect() *)
      match socks w !! sk with
      | None => Oops
      | Some s =>
          if negb (socket_state_eqb (sk_state s) SS_CONNECTING)
          then Returned (- ENXIO, w)
          else
            let w := upd sk (set_channel (Some ch)) w in
            let w := call_chan (SetChannelReadMode ch) w in
            let w := call_chan (SetRescindCallback ch) w in
            let w := call_chan (VmbusOpen ch sk open_ret) w in
            if negb (open_ret =? 0)
            then Returned (open_ret, upd sk (set_channel None) w)
            else
              let w := call_chan (SetPendingSendSize ch) w in
              let w := upd sk (set_sk_state SS_CONNECTED) w in
              match sk_socket s with
              | None => Oops
              | Some sock =>
                  let w := upd sk (set_sk_socket
                                     (Some (set_state SS_CONNECTED sock))) w in
                  let w := hvsock_insert_connected sk w in
                  let w := upd sk (wake StateChange) w in
                  Returned (0, w)
              end
      end
  | None =>
      (* Now we suppose it is from a host client's connect() *)
      match __hvsock_find_bound_socket (hvsock_addr_init service_id) w with
      | None => Returned (- ENXIO, w)
      | Some sk =>
          match socks w !! sk with
          | None => Oops
          | Some l =>
              if negb (socket_state_eqb (sk_state l) SS_LISTEN)
              then Returned (- ENXIO, w)
              else if sk_max_ack_backlog l <=? sk_ack_backlog l
              then Returned (- EMFILE, w)
              else if negb alloc_ok then Returned (- ENOMEM, w)
              else
                let new_sk := length (socks w) in
                let w := set_socks
                           (socks w ++ [__hvsock_create None (sk_type l)]) w in
                let w := upd new_sk (set_sk_state SS_CONNECTING) w in
                let w := upd new_sk
                           (set_local_addr (hvsock_addr_init service_id)) w in
                let w := upd new_sk
                           (set_remote_addr (hvsock_addr_init instance)) w in
                let w := call_chan (SetChannelReadMode ch) w in
                let w := upd new_sk (set_channel (Some ch)) w in
                let w := call_chan (SetRescindCallback ch) w in
                let w := call_chan (VmbusOpen ch new_sk open_ret) w in
                if negb (open_ret =? 0) then
                  let w := upd new_sk (set_channel None) w in
                  let w := upd new_sk sock_put w in
                  Returned (open_ret, w)
                else
                  let w := call_chan (SetPendingSendSize ch) w in
                  let w := upd new_sk (set_sk_state SS_CONNECTED) w in
                  let w := hvsock_insert_connected new_sk w in
                  let w := hvsock_enqueue_accept sk new_sk w in
                  let w := upd sk (wake StateChange) w in
                  Returned (0, w)
          end
      end
  end.

(** ** Sleeping *)

(** One [release_sock(sk); timeout = schedule_timeout(timeout); lock_sock(sk)]:
    what the other contexts did to the state in the meantime, the time left
    as the timer reports it, and whether a signal is pending for the caller
    on wake-up. *)
Record sleep (S : Type) : Type := Build_sleep {
  meanwhile : S → S;
  remaining : Z;
  signal_pending : bool
}.

Arguments Build_sleep {S} _ _ _.
Arguments meanwhile {S} _ _.
Arguments remaining {S} _.
Arguments signal_pending {S} _.

(** [schedule_timeout]: an unbounded sleep reports [MAX_SCHEDULE_TIMEOUT],
    a bounded one the time left, between 0 and the time asked for. *)
Definition schedule_timeout (timeout left : Z) : Z :=
  if timeout =? MAX_SCHEDULE_TIMEOUT then MAX_SCHEDULE_TIMEOUT
  else Z.max 0 (Z.min left timeout).

Definition sock_intr_errno (timeo : Z) : Z :=
  if timeo =? MAX_SCHEDULE_TIMEOUT then - ERESTARTSYS else - EINTR.

Definition sock_sndtimeo (sk : hvsock_sock) (noblock : Z) : Z :=
  if negb (noblock =? 0) then 0 else sk_sndtimeo sk.

Definition sock_rcvtimeo (sk : hvsock_sock) (noblock : Z) : Z :=
  if negb (noblock =? 0) then 0 else sk_rcvtimeo sk.

(** ** accept *)

(** The [while] loop of [hvsock_accept]: [inl] is the loop left through its
    condition with the value of [connected], [inr] a [goto out_wait] with the
    value of [ret]. *)
Fixpoint accept_wait (listener : sk_id) (timeout : Z)
    (sleeps : list (sleep world)) (w : world)
  : outcome ((option sk_id + Z) * world) :=
  match hvsock_dequeue_accept listener w with
  | (Some connected, w) => Returned (inl (Some connected), w)
  | (None, w) =>
      match socks w !! listener with
      | None => Oops
      | Some l =>
          if negb (sk_err l =? 0) then Returned (inl None, w)
          else
            match sleeps with
            | [] => InProgress
            | sl :: sleeps' =>
                let w := meanwhile sl w in
                let timeout := schedule_timeout timeout (remaining sl) in
                if signal_pending sl
                then Returned (inr (sock_intr_errno timeout), w)
                else if timeout =? 0 then Returned (inr (- EAGAIN), w)
                else accept_wait listener timeout sleeps' w
            end
      end
  end.

(** [hvsock_accept(sock, newsock, flags)] with [listener = sock->sk].  The
    result is the return value, the sock grafted onto [newsock] if any, and
    the new state; a grafted sock carries [newsock] as its [sk_socket]. *)
Definition hvsock_accept (sock : socket) (listener : sk_id) (newsock : socket)
    (flags : Z) (sleeps : list (sleep world)) (w : world)
  : outcome (Z * option sk_id * world) :=
  match socks w !! listener with
  | None => Oops
  | Some l =>
      if negb (type sock =? SOCK_STREAM) then Returned (- EOPNOTSUPP, None, w)
      else if negb (socket_state_eqb (sk_state l) SS_LISTEN)
      then Returned (- EINVAL, None, w)
      else
        let timeout := sock_sndtimeo l (Z.land flags O_NONBLOCK) in
        match accept_wait listener timeout sleeps w with
        | Returned (inr ret, w) => Returned (ret, None, w)
        | Returned (inl connected, w) =>
            match socks w !! listener with
            | None => Oops
            | Some l =>
                let ret := if negb (sk_err l =? 0) then - sk_err l else 0 in
                match connected with
                | Some c =>
                    if negb (ret =? 0)
                    then Returned (ret, None, upd c sock_put w)
                    else
                      let newsock := set_state SS_CONNECTED newsock in
                      let w := upd c (set_sk_socket (Some newsock)) w in
                      let w := upd c sock_put w in
                      Returned (ret, Some c, w)
                | None => Returned (ret, None, w)
                end
            end
        | InProgress => InProgress
        | OutOfFuel => OutOfFuel
        | Oops => Oops
        end
  end.

(** ** release *)

(** [sock_orphan] *)
Definition sock_orphan (s : hvsock_sock) : hvsock_sock :=
  set_sk_socket None (set_sock_dead true s).

(** The statements of [__hvsock_release] before its loop: the sock leaves
    the lists it is on, is orphaned and shut down both ways. *)
Definition release_prelude (sk : sk_id) (w : world) : world :=
  let w := if __hvsock_in_bound_list sk w
           then __hvsock_remove_bound sk w else w in
  let w := if __hvsock_in_connected_list sk w
           then __hvsock_remove_connected sk w else w in
  let w := upd sk sock_orphan w in
  upd sk (set_sk_shutdown SHUTDOWN_MASK) w.

(** [__hvsock_release] calls itself on every sock still queued; [fuel]
    bounds the calls and the iterations of its loop together. *)
Fixpoint __hvsock_release (fuel : nat) (sk : sk_id) (w : world) {struct fuel}
  : outcome world :=
  match fuel with
  | O => OutOfFuel
  | S fuel' => release_pending fuel' sk (release_prelude sk w)
  end
with release_pending (fuel : nat) (sk : sk_id) (w : world) {struct fuel}
  : outcome world :=
  match fuel with
  | O => OutOfFuel
  | S fuel' =>
      (* Clean up any sockets that never were accepted. *)
      match hvsock_dequeue_accept sk w with
      | (None, w) => Returned (upd sk sock_put w)
      | (Some pending, w) =>
          match __hvsock_release fuel' pending w with
          | Returned w => release_pending fuel' sk (upd pending sock_put w)
          | o => o
          end
      end
  end.

(** ** The channel as the I/O paths see it *)

(** A packet waiting in the inbound ring: what [vmbus_recvpacket] reports
    for it and the room it takes in the ring. *)
Record inpkt : Type := Build_inpkt {
  in_status : Z;
  in_actual_len : Z;
  in_hdr : vmpipe_proto_header;
  in_payload : list Z;
  in_ring_bytes : Z
}.

Record outpkt : Type := Build_outpkt {
  out_hdr : vmpipe_proto_header;
  out_payload : list Z
}.

(** [struct vmbus_channel]: the inbound ring, the free room of the outbound
    ring, and what the next calls of [vmbus_sendpacket] return (0 once the
    list is used up). *)
Record vmbus_channel : Type := Build_vmbus_channel {
  inbound : list inpkt;
  avl_write_bytes : Z;
  sendpacket_status : list Z
}.

Definition avl_read_bytes (ch : vmbus_channel) : Z :=
  fold_right (λ p acc, in_ring_bytes p + acc) 0 (inbound ch).

(** sizeof(struct vmpipe_proto_header): two u32 *)
Definition sizeof_hdr : Z := 8.

(** [vmbus_sendpacket]: the status, and the packet when the ring took it. *)
Definition vmbus_sendpacket (ch : vmbus_channel) (hdr : vmpipe_proto_header)
    (payload : list Z) : Z * option outpkt * vmbus_channel :=
  match sendpacket_status ch with
  | [] => (0, Some (Build_outpkt hdr payload), ch)
  | st :: rest =>
      let ch := Build_vmbus_channel (inbound ch) (avl_write_bytes ch) rest in
      if st =? 0 then (0, Some (Build_outpkt hdr payload), ch)
      else (st, None, ch)
  end.

(** [vmbus_recvpacket]: status, [buffer_actual_len], and the packet taken
    out of the ring if one was. *)
Definition vmbus_recvpacket (ch : vmbus_channel)
  : Z * Z * option inpkt * vmbus_channel :=
  match inbound ch with
  | [] => (0, 0, None, ch)
  | p :: rest =>
      if in_status p =? 0
      then (0, in_actual_len p, Some p,
            Build_vmbus_channel rest (avl_write_bytes ch)
              (sendpacket_status ch))
      else (in_status p, in_actual_len p, None, ch)
  end.

(** [struct msghdr] and the user memory behind its iterator: the bytes a
    send can still read ([msg_data]), the bytes a receive delivered
    ([msg_data] again, oldest first) and the room left for it ([msg_room]). *)
Record msghdr : Type := Build_msghdr {
  msg_flags : Z;
  msg_namelen : Z;
  msg_data : list Z;
  msg_room : Z
}.

Definition memcpy_from_msg (msg : msghdr) (n : Z) : Z * list Z * msghdr :=
  if n <=? Z.of_nat (length (msg_data msg))
  then (0, take (Z.to_nat n) (msg_data msg),
        Build_msghdr (msg_flags msg) (msg_namelen msg)
          (drop (Z.to_nat n) (msg_data msg)) (msg_room msg))
  else (- EFAULT, [], msg).

Definition memcpy_to_msg (msg : msghdr) (bytes : list Z) (n : Z) : Z * msghdr :=
  if n <=? msg_room msg
  then (0, Build_msghdr (msg_flags msg) (msg_namelen msg)
             (msg_data msg ++ take (Z.to_nat n) bytes) (msg_room msg - n))
  else (- EFAULT, msg).

(** ** send and receive *)

Section IO.

(** The macros of include/linux/af_hvsock.h (not under src) the I/O paths
    use, taken as parameters. *)
Variable HVSOCK_PKT_LEN : Z → Z.
Variable PAGE_SIZE : Z.
Variable HVSOCK_MIN_PKT_LEN : Z.
Variable HVSOCK_SND_BUF_SZ : Z.
Variable HVSOCK_RCV_BUF_SZ : Z.

(** [get_ringbuffer_rw_status]: ([can_read], [can_write]). *)
Definition get_ringbuffer_rw_status (ch : vmbus_channel) : bool * bool :=
  (HVSOCK_MIN_PKT_LEN <=? avl_read_bytes ch,
   HVSOCK_PKT_LEN PAGE_SIZE <? avl_write_bytes ch).

(** [hvsock_send_data]: [ret], the packet the ring took if it did, and the
    new sock and channel. *)
Definition hvsock_send_data (ch : vmbus_channel) (hvsk : hvsock_sock)
    (to_write : Z) : Z * option outpkt * hvsock_sock * vmbus_channel :=
  let hdr := {| pkt_type := 1; data_size := to_write mod 2 ^ 32 |} in
  let hvsk := set_send {| send_hdr := hdr; send_buf := send_buf (send hvsk) |}
                hvsk in
  let '(ret, pkt, ch) :=
    vmbus_sendpacket ch hdr (take (Z.to_nat to_write) (send_buf (send hvsk))) in
  (ret, pkt, hvsk, ch).

(** The state the send loops work on: sock, channel, message iterator,
    [total_to_write] and [total_written], and the packets the ring took
    during the call, oldest first. *)
Record send_st : Type := Build_send_st {
  s_sk : hvsock_sock;
  s_ch : vmbus_channel;
  s_msg : msghdr;
  total_to_write : Z;
  total_written : Z;
  s_out : list outpkt
}.

(** The [do ... while (total_to_write > 0)] loop; the result carries [ret]. *)
Fixpoint send_chunks (fuel : nat) (st : send_st) : outcome (Z * send_st) :=
  match fuel with
  | O => OutOfFuel
  | S fuel' =>
      let to_write := Z.min HVSOCK_SND_BUF_SZ (total_to_write st) in
      let '(ret, bytes, msg) := memcpy_from_msg (s_msg st) to_write in
      if negb (ret =? 0) then Returned (ret, st)
      else
        let hvsk :=
          set_send {| send_hdr := send_hdr (send (s_sk st));
                      send_buf := bytes ++ drop (length bytes)
                                                (send_buf (send (s_sk st))) |}
            (s_sk st) in
        let '(ret, pkt, hvsk, ch) := hvsock_send_data (s_ch st) hvsk to_write in
        let st := Build_send_st hvsk ch msg (total_to_write st) (total_written st)
                    (s_out st ++ option_list pkt) in
        if negb (ret =? 0) then Returned (ret, st)
        else
          let st := Build_send_st hvsk ch msg (total_to_write st - to_write)
                      (total_written st + to_write) (s_out st) in
          if 0 <? total_to_write st then send_chunks fuel' st
          else Returned (ret, st)
  end.

Definition send_stop (sk : hvsock_sock) : bool :=
  has_bits (sk_shutdown sk) SEND_SHUTDOWN
  || has_bits (peer_shutdown sk) RCV_SHUTDOWN.

(** The [while (1)] loop waiting for room: [inl ret] is a [goto out_wait],
    [inr] the [break] with the time left and the wake-ups not yet consumed. *)
Fixpoint send_wait (timeout : Z)
    (sleeps : list (sleep (hvsock_sock * vmbus_channel)))
    (sk : hvsock_sock) (ch : vmbus_channel)
  : outcome ((Z + Z * list (sleep (hvsock_sock * vmbus_channel)))
             * hvsock_sock * vmbus_channel) :=
  let can_write := snd (get_ringbuffer_rw_status ch) in
  if can_write || negb (sk_err sk =? 0) || send_stop sk
  then Returned (inr (timeout, sleeps), sk, ch)
  else if timeout =? 0 then Returned (inl (- EAGAIN), sk, ch)
  else
    match sleeps with
    | [] => InProgress
    | sl :: sleeps' =>
        let '(sk, ch) := meanwhile sl (sk, ch) in
        let timeout := schedule_timeout timeout (remaining sl) in
        if signal_pending sl
        then Returned (inl (sock_intr_errno timeout), sk, ch)
        else if timeout =? 0 then Returned (inl (- EAGAIN), sk, ch)
        else send_wait timeout sleeps' sk ch
    end.

(** The [while (total_to_write > 0)] loop up to [out_wait:]. *)
Fixpoint send_loop (fuel : nat) (timeout : Z)
    (sleeps : list (sleep (hvsock_sock * vmbus_channel))) (ret : Z)
    (st : send_st) : outcome (Z * send_st) :=
  if total_to_write st <=? 0 then Returned (ret, st)
  else
    match fuel with
    | O => OutOfFuel
    | S fuel' =>
        match send_wait timeout sleeps (s_sk st) (s_ch st) with
        | Returned (inl ret, sk, ch) =>
            Returned (ret, Build_send_st sk ch (s_msg st) (total_to_write st)
                             (total_written st) (s_out st))
        | Returned (inr (timeout, sleeps), sk, ch) =>
            let st := Build_send_st sk ch (s_msg st) (total_to_write st)
                        (total_written st) (s_out st) in
            if negb (sk_err sk =? 0) then Returned (- sk_err sk, st)
            else if send_stop sk then Returned (- EPIPE, st)
            else
              match send_chunks (Z.to_nat (total_to_write st)) st with
              | Returned (ret, st) =>
                  if negb (ret =? 0) then Returned (ret, st)
                  else send_loop fuel' timeout sleeps ret st
              | o => o
              end
        | InProgress => InProgress
        | OutOfFuel => OutOfFuel
        | Oops => Oops
        end
    end.

(** [hvsock_sendmsg(iocb, sock, msg, len)] with [sk = sock->sk] and [ch] the
    channel [hvsk->channel] points to. *)
Definition hvsock_sendmsg (sk : hvsock_sock) (ch : vmbus_channel)
    (msg : msghdr) (len : Z)
    (sleeps : list (sleep (hvsock_sock * vmbus_channel)))
  : outcome (Z * send_st) :=
  let st := Build_send_st sk ch msg len 0 [] in
  (* ret is a bigger-than-0 total_written or a negative err code. *)
  let out (ret : Z) (st : send_st) :=
    Returned (if ret =? 0 then - EIO else ret, st) in
  if len =? 0 then Returned (- EINVAL, st)
  else if negb (Z.land (msg_flags msg) (Z.lnot MSG_DONTWAIT) =? 0)
  then Returned (- EOPNOTSUPP, st)
  (* Callers should not provide a destination with stream sockets. *)
  else if negb (msg_namelen msg =? 0) then out (- EOPNOTSUPP) st
  (* Send data only if both sides are not shutdown in the direction. *)
  else if send_stop sk then out (- EPIPE) st
  else if negb (socket_state_eqb (sk_state sk) SS_CONNECTED)
          || negb (hvsock_addr_bound (local_addr sk))
  then out (- ENOTCONN) st
  else if negb (hvsock_addr_bound (remote_addr sk)) then out (- EDESTADDRREQ) st
  else
    let timeout := sock_sndtimeo sk (Z.land (msg_flags msg) MSG_DONTWAIT) in
    match send_loop 2 timeout sleeps 0 st with
    | Returned (ret, st) =>
        let ret := if 0 <? total_written st
                   then sint32 (total_written st) else ret in
        out ret st
    | o => o
    end.

Definition set_cursor (len off : Z) (hvsk : hvsock_sock) : hvsock_sock :=
  set_recv {| recv_hdr := recv_hdr (recv hvsk); recv_buf := recv_buf (recv hvsk);
              data_len := len; data_offset := off |} hvsk.

(** [hvsock_recv_data]: ([ret], [payload_len]) and the new sock and channel. *)
Definition hvsock_recv_data (ch : vmbus_channel) (hvsk : hvsock_sock)
  : Z * Z * hvsock_sock * vmbus_channel :=
  let '(ret, buffer_actual_len, got, ch) := vmbus_recvpacket ch in
  let hvsk :=
    match got with
    | Some p =>
        set_recv {| recv_hdr := in_hdr p; recv_buf := in_payload p;
                    data_len := data_len (recv hvsk);
                    data_offset := data_offset (recv hvsk) |} hvsk
    | None => hvsk
    end in
  let payload_len :=
    if negb (ret =? 0) || (buffer_actual_len <=? sizeof_hdr) then 0
    else data_size (recv_hdr (recv hvsk)) in
  (ret, payload_len, hvsk, ch).

(** The state the receive loop works on. *)
Record recv_st : Type := Build_recv_st {
  r_sk : hvsock_sock;
  r_ch : vmbus_channel;
  r_msg : msghdr;
  total_to_read : Z;
  copied : Z
}.

Definition recv_stop (sk : hvsock_sock) : bool :=
  negb (sk_err sk =? 0)
  || has_bits (sk_shutdown sk) RCV_SHUTDOWN
  || has_bits (peer_shutdown sk) SEND_SHUTDOWN.

(** The bytes of the pending packet from the cursor on. *)
Definition pending_bytes (hvsk : hvsock_sock) : list Z :=
  drop (Z.to_nat (data_offset (recv hvsk))) (recv_buf (recv hvsk)).

(** The [while (1)] loop of [hvsock_recvmsg]: [inl ret] is the
    [goto out_wait], [inr ret] a [break]. *)
Fixpoint recv_loop (fuel : nat) (timeout : Z)
    (sleeps : list (sleep (hvsock_sock * vmbus_channel))) (ret : Z)
    (st : recv_st) : outcome ((Z + Z) * recv_st) :=
  match fuel with
  | O => OutOfFuel
  | S fuel' =>
      let need_refill := data_len (recv (r_sk st)) =? 0 in
      let can_read :=
        if need_refill then fst (get_ringbuffer_rw_status (r_ch st)) else true in
      if can_read then
        let '(ret, payload_len, hvsk, ch) :=
          if need_refill then hvsock_recv_data (r_ch st) (r_sk st)
          else (ret, 0, r_sk st, r_ch st) in
        if need_refill
           && (negb (ret =? 0) || (payload_len =? 0)
               || (payload_len >? HVSOCK_RCV_BUF_SZ))
        then Returned (inl (- EIO),
                       Build_recv_st hvsk ch (r_msg st) (total_to_read st)
                         (copied st))
        else
          let hvsk := if need_refill then set_cursor payload_len 0 hvsk
                      else hvsk in
          let len := data_len (recv hvsk) in
          if len <=? total_to_read st then
            let '(ret, msg) := memcpy_to_msg (r_msg st) (pending_bytes hvsk) len in
            if negb (ret =? 0)
            then Returned (inr ret, Build_recv_st hvsk ch msg (total_to_read st)
                                      (copied st))
            else
              let st := Build_recv_st (set_cursor 0 0 hvsk) ch msg
                          (total_to_read st - len) (copied st + len) in
              if total_to_read st =? 0 then Returned (inr ret, st)
              else recv_loop fuel' timeout sleeps ret st
          else
            let n := total_to_read st in
            let '(ret, msg) := memcpy_to_msg (r_msg st) (pending_bytes hvsk) n in
            if negb (ret =? 0)
            then Returned (inr ret, Build_recv_st hvsk ch msg (total_to_read st)
                                      (copied st))
            else
              Returned (inr ret,
                        Build_recv_st
                          (set_cursor (len - n) (data_offset (recv hvsk) + n) hvsk)
                          ch msg 0 (copied st + n))
      else if recv_stop (r_sk st) then Returned (inr ret, st)
      (* Don't wait for non-blocking sockets. *)
      else if timeout =? 0 then Returned (inr (- EAGAIN), st)
      else if 0 <? copied st then Returned (inr ret, st)
      else
        match sleeps with
        | [] => InProgress
        | sl :: sleeps' =>
            let '(sk, ch) := meanwhile sl (r_sk st, r_ch st) in
            let st := Build_recv_st sk ch (r_msg st) (total_to_read st)
                        (copied st) in
            let timeout := schedule_timeout timeout (remaining sl) in
            if signal_pending sl
            then Returned (inr (sock_intr_errno timeout), st)
            else if timeout =? 0 then Returned (inr (- EAGAIN), st)
            else recv_loop fuel' timeout sleeps' ret st
        end
  end.

(** The statements between the loop and [out_wait:]. *)
Definition recv_finish (ret : Z) (st : recv_st) : Z * recv_st :=
  let sk := r_sk st in
  let ret := if negb (sk_err sk =? 0) then - sk_err sk
             else if has_bits (sk_shutdown sk) RCV_SHUTDOWN then 0
             else ret in
  if 0 <? copied st then
    let ret := sint32 (copied st) in
    (* If the other side has shutdown for sending and there is nothing more
       to read, then we modify the socket state. *)
    if has_bits (peer_shutdown sk) SEND_SHUTDOWN && (data_len (recv sk) =? 0)
       && negb (fst (get_ringbuffer_rw_status (r_ch st)))
    then
      let sk := set_sk_state SS_UNCONNECTED sk in
      let sk := set_sock_done true sk in
      let sk := wake StateChange sk in
      (ret, Build_recv_st sk (r_ch st) (r_msg st) (total_to_read st) (copied st))
    else (ret, st)
  else (ret, st).

(** [hvsock_recvmsg(iocb, sock, msg, len, flags)] with [sk = sock->sk] and
    [ch] the channel [hvsk->channel] points to. *)
Definition hvsock_recvmsg (sk : hvsock_sock) (ch : vmbus_channel)
    (msg : msghdr) (len flags : Z)
    (sleeps : list (sleep (hvsock_sock * vmbus_channel)))
  : outcome (Z * recv_st) :=
  let st := Build_recv_st sk ch msg len 0 in
  if negb (socket_state_eqb (sk_state sk) SS_CONNECTED) then
    (* Recvmsg is supposed to return 0 if a peer performs an orderly
       shutdown. *)
    if sock_done sk then Returned (0, st) else Returned (- ENOTCONN, st)
  (* We ignore msg->addr_name/len. *)
  else if negb (Z.land flags (Z.lnot MSG_DONTWAIT) =? 0)
  then Returned (- EOPNOTSUPP, st)
  else if has_bits (sk_shutdown sk) RCV_SHUTDOWN then Returned (0, st)
  (* It is valid on Linux to pass in a zero-length receive buffer. *)
  else if len =? 0 then Returned (0, st)
  else
    let timeout := sock_rcvtimeo sk (Z.land flags MSG_DONTWAIT) in
    match recv_loop (S (Z.to_nat len + length sleeps)) timeout sleeps 0 st with
    | Returned (inl ret, st) => Returned (ret, st)
    | Returned (inr ret, st) => Returned (recv_finish ret st)
    | InProgress => InProgress
    | OutOfFuel => OutOfFuel
    | Oops => Oops
    end.

End IO.

(** ** More of the kernel headers *)

Module LinuxMore.
(* include/uapi/asm-generic/errno.h *)
Definition EAFNOSUPPORT : Z := 97.
Definition EISCONN : Z := 106.
Definition ETIMEDOUT : Z := 110.
Definition EALREADY : Z := 114.
Definition EINPROGRESS : Z := 115.

(* include/uapi/asm-generic/poll.h *)
Definition POLLIN : Z := 1.
Definition POLLOUT : Z := 4.
Definition POLLERR : Z := 8.
Definition POLLHUP : Z := 16.
Definition POLLRDNORM : Z := 64.
Definition POLLWRNORM : Z := 256.
Definition POLLRDHUP : Z := 8192.
End LinuxMore.
Import LinuxMore.

Definition set_sk_err (v : Z) (s : hvsock_sock) : hvsock_sock :=
  Build_hvsock_sock (sk_socket s) (sk_state s) (sk_type s) v (sk_shutdown s)
    (sock_done s) (sock_dead s) (sk_ack_backlog s) (sk_max_ack_backlog s)
    (sk_sndtimeo s) (sk_rcvtimeo s) (sk_refcnt s) (sk_wq s) (local_addr s)
    (remote_addr s) (channel s) (peer_shutdown s) (accept_queue s) (recv s)
    (send s).

(** An assignment to [sock->state] where [sock] is the socket the sock is
    attached to. *)
Definition set_socket_state (v : socket_state) (s : hvsock_sock) : hvsock_sock :=
  set_sk_socket (set_state v <$> sk_socket s) s.

(** ** Address checks, bind and getname *)

(** [hvsock_addr_validate]; [None] is a NULL pointer. *)
Definition hvsock_addr_validate (addr : option sockaddr_hv) : Z :=
  match addr with
  | None => - EFAULT
  | Some a =>
      match shv_family a with
      | AF_other _ => - EAFNOSUPPORT
      | AF_HYPERV =>
          if negb (reserved a =? 0) then - EINVAL
          else if negb (uuid_equals (shv_vm_id a) NULL_UUID_LE) then - EINVAL
          else 0
      end
  end.

(** [hvsock_addr_cast(addr, len, &out_addr)]: the value returned and
    [*out_addr], which is written only past the length test.  [len] is a
    [size_t]; [sizeof_sockaddr_hv] is the size of the structure of the
    missing header. *)
Definition hvsock_addr_cast (sizeof_sockaddr_hv : Z) (addr : option sockaddr_hv)
    (len : Z) : Z * option sockaddr_hv :=
  if len <? sizeof_sockaddr_hv then (- EFAULT, None)
  else (hvsock_addr_validate addr, addr).

(** Conversion of an [int] argument to [size_t] (64 bits). *)
Definition size_t_of_int (z : Z) : Z := z mod 2 ^ 64.

(** [hvsock_bind(sock, addr, addr_len)] with [sk = sock->sk]. *)
Definition hvsock_bind (sizeof_sockaddr_hv : Z) (sk : sk_id)
    (addr : option sockaddr_hv) (addr_len : Z) (gens : list uuid_le) (w : world)
  : outcome (Z * world * list uuid_le) :=
  match hvsock_addr_cast sizeof_sockaddr_hv addr (size_t_of_int addr_len) with
  | (0, Some hv_addr) => __hvsock_bind sk hv_addr gens w
  | (0, None) => Oops
  | _ => Returned (- EINVAL, w, gens)
  end.

(** [hvsock_getname(sock, addr, addr_len, peer)] with [sk = sock->sk]: the
    value returned and the address copied out, if one is. *)
Definition hvsock_getname (sock : socket) (sk : hvsock_sock) (peer : Z)
  : Z * option sockaddr_hv :=
  if negb (peer =? 0) then
    if negb (socket_state_eqb (state sock) SS_CONNECTED) then (- ENOTCONN, None)
    else (0, Some (remote_addr sk))
  else (0, Some (local_addr sk)).

(** ** release of a socket *)

(** [hvsock_release(sock)]: [sk] is [sock->sk]; the result carries the new
    [sock->sk].  [fuel] is the bound of [__hvsock_release]. *)
Definition hvsock_release (fuel : nat) (sock : socket) (sk : option sk_id)
    (w : world) : outcome (Z * socket * option sk_id * world) :=
  match sk with
  | Some id =>
      match __hvsock_release fuel id w with
      | Returned w => Returned (0, set_state SS_FREE sock, None, w)
      | InProgress => InProgress
      | OutOfFuel => OutOfFuel
      | Oops => Oops
      end
  | None => Returned (0, set_state SS_FREE sock, None, w)
  end.

(** ** poll and the channel callback *)

Section Readiness.

Variable HVSOCK_PKT_LEN : Z → Z.
Variable PAGE_SIZE : Z.
Variable HVSOCK_MIN_PKT_LEN : Z.

(** [hvsock_poll(file, sock, wait)] with [sk = sock->sk] and [ch] the channel
    [hvsk->channel] points to when it is not NULL. *)
Definition hvsock_poll (sk : hvsock_sock) (ch : vmbus_channel) : Z :=
  let mask := 0 in
  let mask :=
    (* Signify that there has been an error on this socket. *)
    if negb (sk_err sk =? 0) then Z.lor mask POLLERR else mask in
  let mask :=
    if (sk_shutdown sk =? SHUTDOWN_MASK)
       || (has_bits (sk_shutdown sk) SEND_SHUTDOWN
           && has_bits (peer_shutdown sk) SEND_SHUTDOWN)
    then Z.lor mask POLLHUP else mask in
  let mask :=
    if has_bits (sk_shutdown sk) RCV_SHUTDOWN
       || has_bits (peer_shutdown sk) SEND_SHUTDOWN
    then Z.lor mask POLLRDHUP else mask in
  let mask :=
    (* Listening sockets that have connections in their accept queue can be
       read. *)
    if socket_state_eqb (sk_state sk) SS_LISTEN
       && negb (hvsock_is_accept_queue_empty sk)
    then Z.lor mask (Z.lor POLLIN POLLRDNORM) else mask in
  let '(mask, can_read, can_write) :=
    match channel sk with
    | Some _ =>
        (* If there is something in the queue then we can read *)
        let '(can_read, can_write) :=
          get_ringbuffer_rw_status HVSOCK_PKT_LEN PAGE_SIZE HVSOCK_MIN_PKT_LEN
            ch in
        let can_read :=
          if negb can_read && (0 <? data_len (recv sk)) then true
          else can_read in
        let mask :=
          if negb (has_bits (sk_shutdown sk) RCV_SHUTDOWN) && can_read
          then Z.lor mask (Z.lor POLLIN POLLRDNORM) else mask in
        (mask, can_read, can_write)
    | None => (mask, false, false)
    end in
  let mask :=
    (* Sockets whose connections have been closed terminated should also be
       considered read, and we check the shutdown flag for that. *)
    if has_bits (sk_shutdown sk) RCV_SHUTDOWN
       || has_bits (peer_shutdown sk) SEND_SHUTDOWN
    then Z.lor mask (Z.lor POLLIN POLLRDNORM) else mask in
  let mask :=
    (* Connected sockets that can produce data can be written. *)
    if socket_state_eqb (sk_state sk) SS_CONNECTED && can_write
       && negb (has_bits (sk_shutdown sk) SEND_SHUTDOWN)
    then Z.lor mask (Z.lor POLLOUT POLLWRNORM) else mask in
  let mask :=
    if socket_state_eqb (sk_state sk) SS_UNCONNECTED
       && negb (has_bits (sk_shutdown sk) SEND_SHUTDOWN)
    then Z.lor mask (Z.lor POLLOUT POLLWRNORM) else mask in
  mask.

(** [hvsock_on_channel_cb(ctx)] with [sk = ctx] and [ch] the channel
    [hvsk->channel] points to when it is not NULL. *)
Definition hvsock_on_channel_cb (sk : hvsock_sock) (ch : vmbus_channel)
  : hvsock_sock :=
  match channel sk with
  | None => sk          (* WARN_ONCE: NULL channel *)
  | Some _ =>
      let '(can_read, can_write) :=
        get_ringbuffer_rw_status HVSOCK_PKT_LEN PAGE_SIZE HVSOCK_MIN_PKT_LEN
          ch in
      let sk := if can_read then wake DataReady sk else sk in
      if can_write then wake WriteSpace sk else sk
  end.

End Readiness.

(** ** connect *)


(** How the [while] loop of [hvsock_connect] is left: through its condition,
    by [goto out_wait] (the delayed work is scheduled) or by
    [goto out_wait_error] with a new [ret]. *)
Inductive connect_exit : Type :=
| ConnectLoopEnd
| ConnectOutWait
| ConnectOutWaitError (ret : Z).

Fixpoint connect_wait (sk : sk_id) (flags timeout : Z)
    (sleeps : list (sleep world)) (w : world) : outcome (connect_exit * world) :=
  match socks w !! sk with
  | None => Oops
  | Some s =>
      if negb (socket_state_eqb (sk_state s) SS_CONNECTED) && (sk_err s =? 0)
      then
        if has_bits flags O_NONBLOCK
        then Returned (ConnectOutWait, upd sk sock_hold w)
        else
          match sleeps with
          | [] => InProgress
          | sl :: sleeps' =>
              let w := meanwhile sl w in
              let timeout := schedule_timeout timeout (remaining sl) in
              if signal_pending sl
              then Returned (ConnectOutWaitError (sock_intr_errno timeout), w)
              else if timeout =? 0
              then Returned (ConnectOutWaitError (- ETIMEDOUT), w)
              else connect_wait sk flags timeout sleeps' w
          end
      else Returned (ConnectLoopEnd, w)
  end.

(** What a call of [hvsock_connect] leaves behind: the value returned, the
    state, the identifiers the generator has left, the connect request sent
    to the host (local and remote service identifier) if one was, and the
    delay of the delayed work if it was scheduled. *)
Record connect_result : Type := Build_connect_result {
  c_ret : Z;
  c_world : world;
  c_gens : list uuid_le;
  c_request : option (uuid_le * uuid_le);
  c_dwork : option Z
}.

(** The part of [hvsock_connect] from [timeout = 30 * HZ] on. *)
Definition connect_finish (HZ : Z) (sk : sk_id) (flags : Z)
    (sleeps : list (sleep world)) (ret : Z) (gens : list uuid_le)
    (request : option (uuid_le * uuid_le)) (w : world)
  : outcome connect_result :=
  let timeout := 30 * HZ in
  let out_wait_error (ret : Z) (w : world) :=
    let w :=
      if ret <? 0 then
        let w := upd sk (set_sk_state SS_UNCONNECTED) w in
        upd sk (set_socket_state SS_UNCONNECTED) w
      else w in
    Returned (Build_connect_result ret w gens request None) in
  match connect_wait sk flags timeout sleeps w with
  | Returned (ConnectOutWait, w) =>
      (* Skip ahead to preserve error code set above. *)
      Returned (Build_connect_result ret w gens request (Some timeout))
  | Returned (ConnectOutWaitError ret, w) => out_wait_error ret w
  | Returned (ConnectLoopEnd, w) =>
      match socks w !! sk with
      | None => Oops
      | Some s =>
          out_wait_error (if negb (sk_err s =? 0) then - sk_err s else 0) w
      end
  | InProgress => InProgress
  | OutOfFuel => OutOfFuel
  | Oops => Oops
  end.

(** [hvsock_connect(sock, addr, addr_len, flags)] with [sk = sock->sk] and
    [sock] the socket attached to it.  [request_ret] is what
    [vmbus_send_tl_connect_request] returns, [gens] the identifiers the
    generator yields, [HZ] the tick rate. *)
Definition hvsock_connect (sizeof_sockaddr_hv HZ : Z) (sk : sk_id)
    (addr : option sockaddr_hv) (addr_len flags : Z) (request_ret : Z)
    (gens : list uuid_le) (sleeps : list (sleep world)) (w : world)
  : outcome connect_result :=
  match socks w !! sk with
  | None => Oops
  | Some s =>
      match sk_socket s with
      | None => Oops
      | Some sock =>
          match state sock with
          | SS_CONNECTED =>
              Returned (Build_connect_result (- EISCONN) w gens None None)
          | SS_DISCONNECTING =>
              Returned (Build_connect_result (- EINVAL) w gens None None)
          | SS_CONNECTING =>
              connect_finish HZ sk flags sleeps (- EALREADY) gens None w
          | _ =>
              match hvsock_addr_cast sizeof_sockaddr_hv addr
                      (size_t_of_int addr_len) with
              | (cast_ret, remote) =>
                  if socket_state_eqb (sk_state s) SS_LISTEN
                     || negb (cast_ret =? 0)
                  then Returned (Build_connect_result (- EINVAL) w gens None None)
                  else
                    match remote with
                    | None => Oops
                    | Some remote =>
                        (* Set the remote address that we are connecting to. *)
                        let w := upd sk (set_remote_addr remote) w in
                        match hvsock_auto_bind sk gens w with
                        | Returned (ret, w, gens) =>
                            if negb (ret =? 0)
                            then Returned (Build_connect_result ret w gens None None)
                            else
                              let w := upd sk (set_sk_state SS_CONNECTING) w in
                              match socks w !! sk with
                              | None => Oops
                              | Some s =>
                                  let request :=
                                    Some (shv_service_id (local_addr s),
                                          shv_service_id (remote_addr s)) in
                                  if request_ret <? 0
                                  then Returned (Build_connect_result request_ret w
                                                   gens request None)
                                  else
                                    (* Mark sock as connecting and set the error
                                       code to in progress in case this is a
                                       non-blocking connect. *)
                                    let w := upd sk (set_socket_state SS_CONNECTING)
                                               w in
                                    connect_finish HZ sk flags sleeps
                                      (- EINPROGRESS) gens request w
                              end
                        | InProgress => InProgress
                        | OutOfFuel => OutOfFuel
                        | Oops => Oops
                        end
                    end
              end
          end
      end
  end.

(** ** Vocabulary of the properties *)

(** Some endpoint of the bound list has [u] as its service identifier. *)
Definition claimed (w : world) (u : uuid_le) : Prop :=
  ∃ id s, id ∈ hvsock_bound_list w ∧ socks w !! id = Some s
          ∧ shv_service_id (local_addr s) = u.

(** No two endpoints of the bound list share a service identifier. *)
Definition bound_unique (w : world) : Prop :=
  ∀ a b sa sb,
    a ∈ hvsock_bound_list w → b ∈ hvsock_bound_list w → a ≠ b →
    socks w !! a = Some sa → socks w !! b = Some sb →
    shv_service_id (local_addr sa) ≠ shv_service_id (local_addr sb).

(** Every endpoint of the bound list has an address other than the
    wildcard. *)
Definition bound_addresses (w : world) : Prop :=
  ∀ id s, id ∈ hvsock_bound_list w → socks w !! id = Some s →
          hvsock_addr_bound (local_addr s) = true.

(** No endpoint is on the bound list and on the connected list. *)
Definition registries_disjoint (w : world) : Prop :=
  ∀ id, ¬ (id ∈ hvsock_bound_list w ∧ id ∈ hvsock_connected_list w).

(** Every member of the two lists is a cell of the arena. *)
Definition lists_allocated (w : world) : Prop :=
  (∀ id, id ∈ hvsock_bound_list w → (id < length (socks w))%nat)
  ∧ (∀ id, id ∈ hvsock_connected_list w → (id < length (socks w))%nat).

(** [w'] has on its two lists only members that [w] has there. *)
Definition lists_shrink (w w' : world) : Prop :=
  (∀ x, x ∈ hvsock_bound_list w' → x ∈ hvsock_bound_list w)
  ∧ (∀ x, x ∈ hvsock_connected_list w' → x ∈ hvsock_connected_list w).

(** The sock [j] has the same accept queue in [w'] as in [w]. *)
Definition queue_kept (w w' : world) (j : sk_id) : Prop :=
  accept_queue <$> socks w' !! j = accept_queue <$> socks w !! j.

(** The payload bytes of a run of packets. *)
Definition bytes_transferred (out : list outpkt) : Z :=
  Z.of_nat (length (concat (map out_payload out))).

(** [w'] is [w] after the commitment of [g] to [hvsk]: its address is [g],
    it holds one more reference and heads the bound list; nothing else
    differs. *)
Definition committed (hvsk : sk_id) (g : uuid_le) (w w' : world) : Prop :=
  hvsock_bound_list w' = hvsk :: hvsock_bound_list w
  ∧ hvsock_connected_list w' = hvsock_connected_list w
  ∧ chan_calls w' = chan_calls w
  ∧ socks w' !! hvsk
    = (λ s, sock_hold (set_local_addr (hvsock_addr_init g) s))
        <$> socks w !! hvsk
  ∧ (∀ id, id ≠ hvsk → socks w' !! id = socks w !! id).

(** The counters of a send of [len] bytes agree with what the ring took. *)
Definition send_inv (len : Z) (st : send_st) : Prop :=
  bytes_transferred (s_out st) = total_written st
  ∧ 0 <= total_written st
  ∧ 0 <= total_to_write st
  ∧ total_written st + total_to_write st = len.

(** What [hvsock_poll] takes for a readable channel (a packet in the inbound
    ring or bytes of the pending packet) and for a writable one; a sock
    without a channel has neither. *)
Definition poll_can_read (HVSOCK_PKT_LEN : Z → Z)
    (PAGE_SIZE HVSOCK_MIN_PKT_LEN : Z) (sk : hvsock_sock) (ch : vmbus_channel)
  : bool :=
  match channel sk with
  | Some _ =>
      fst (get_ringbuffer_rw_status HVSOCK_PKT_LEN PAGE_SIZE HVSOCK_MIN_PKT_LEN
             ch)
      || (0 <? data_len (recv sk))
  | None => false
  end.

Definition poll_can_write (HVSOCK_PKT_LEN : Z → Z)
    (PAGE_SIZE HVSOCK_MIN_PKT_LEN : Z) (sk : hvsock_sock) (ch : vmbus_channel)
  : bool :=
  match channel sk with
  | Some _ =>
      snd (get_ringbuffer_rw_status HVSOCK_PKT_LEN PAGE_SIZE HVSOCK_MIN_PKT_LEN
             ch)
  | None => false
  end.

(** The receive side is closed: local receive shutdown or peer send
    shutdown. *)
Definition read_closed (sk : hvsock_sock) : bool :=
  has_bits (sk_shutdown sk) RCV_SHUTDOWN
  || has_bits (peer_shutdown sk) SEND_SHUTDOWN.

(** The backlog accounting of a listener: the count is the length of the
    accept queue and does not exceed the limit, which [hvsock_listen] caps
    at 128. *)
Definition backlog_sound (l : hvsock_sock) : Prop :=
  sk_ack_backlog l = Z.of_nat (length (accept_queue l))
  ∧ sk_ack_backlog l <= sk_max_ack_backlog l
  ∧ sk_max_ack_backlog l <= 128.

(** Every sock in state LISTEN has a sound backlog accounting. *)
Definition listeners_sound (w : world) : Prop :=
  ∀ id l, socks w !! id = Some l → sk_state l = SS_LISTEN → backlog_sound l.

(** The sock [l'] has the state, queue, count and limit of [l]. *)
Definition same_listening (l l' : hvsock_sock) : Prop :=
  sk_state l' = sk_state l
  ∧ accept_queue l' = accept_queue l
  ∧ sk_ack_backlog l' = sk_ack_backlog l
  ∧ sk_max_ack_backlog l' = sk_max_ack_backlog l.

(** The references the two lists hold on the sock [sk]. *)
Definition links (sk : sk_id) (w : world) : Z :=
  (if __hvsock_in_bound_list sk w then 1 else 0)
  + (if __hvsock_in_connected_list sk w then 1 else 0).

(** [s'] is [s] after it was orphaned and shut down both ways, with [n]
    references dropped. *)
Definition released (n : Z) (s s' : hvsock_sock) : Prop :=
  sk_refcnt s' = sk_refcnt s - n
  ∧ sk_socket s' = None
  ∧ sock_dead s' = true
  ∧ sk_shutdown s' = SHUTDOWN_MASK
  ∧ accept_queue s' = accept_queue s
  ∧ sk_state s' = sk_state s.

(** The state in which [hvsock_connect] starts to wait for the handshake:
    the sock [sk] has [a] as its remote address and is CONNECTING, as sock
    and as socket. *)
Definition connect_started (sk : sk_id) (a : sockaddr_hv) (w : world) : world :=
  upd sk (set_socket_state SS_CONNECTING)
    (upd sk (set_sk_state SS_CONNECTING) (upd sk (set_remote_addr a) w)).

(** The state [hvsock_connect] leaves on its error path: the sock [sk] is
    UNCONNECTED, as sock and as socket. *)
Definition connect_reset (sk : sk_id) (w : world) : world :=
  upd sk (set_socket_state SS_UNCONNECTED)
    (upd sk (set_sk_state SS_UNCONNECTED) w).

(** A packet as [hvsock_send_data] builds it: a data packet whose header
    announces the length of its payload, between 1 byte and the send cap. *)
Definition packet_ok (HVSOCK_SND_BUF_SZ : Z) (p : outpkt) : Prop :=
  pkt_type (out_hdr p) = 1
  ∧ data_size (out_hdr p) = Z.of_nat (length (out_payload p))
  ∧ 0 < Z.of_nat (length (out_payload p)) <= HVSOCK_SND_BUF_SZ.

Definition full_packet (HVSOCK_SND_BUF_SZ : Z) (p : outpkt) : Prop :=
  Z.of_nat (length (out_payload p)) = HVSOCK_SND_BUF_SZ.

(** Every packet of the run but the last carries a full send buffer. *)
Definition full_but_last (HVSOCK_SND_BUF_SZ : Z) (out : list outpkt) : Prop :=
  ∀ pre p, out = pre ++ [p] → Forall (full_packet HVSOCK_SND_BUF_SZ) pre.

(** The packets a send has handed over, followed by what its message still
    holds, are the bytes [data]. *)
Definition send_data_inv (HVSOCK_SND_BUF_SZ : Z) (data : list Z) (st : send_st)
  : Prop :=
  concat (map out_payload (s_out st)) ++ msg_data (s_msg st) = data
  ∧ Forall (packet_ok HVSOCK_SND_BUF_SZ) (s_out st)
  ∧ full_but_last HVSOCK_SND_BUF_SZ (s_out st)
  ∧ (0 < total_to_write st →
     Forall (full_packet HVSOCK_SND_BUF_SZ) (s_out st)).

(** The packets a send has handed over carry, in order, the first bytes of
    [data]. *)
Definition sent_prefix (HVSOCK_SND_BUF_SZ : Z) (data : list Z) (st : send_st)
  : Prop :=
  (∃ rest, concat (map out_payload (s_out st)) ++ rest = data)
  ∧ Forall (packet_ok HVSOCK_SND_BUF_SZ) (s_out st)
  ∧ full_but_last HVSOCK_SND_BUF_SZ (s_out st).

(** The receive cursor points into the pending packet. *)
Definition cursor_ok (sk : hvsock_sock) : Prop :=
  0 <= data_len (recv sk) ∧ 0 <= data_offset (recv sk)
  ∧ data_offset (recv sk) + data_len (recv sk)
    <= Z.of_nat (length (recv_buf (recv sk))).

(** A packet of the inbound ring that a peer's [hvsock_send_data] built and
    the transport delivered intact. *)
Definition inpkt_ok (HVSOCK_RCV_BUF_SZ : Z) (p : inpkt) : Prop :=
  in_status p = 0
  ∧ sizeof_hdr < in_actual_len p
  ∧ data_size (in_hdr p) = Z.of_nat (length (in_payload p))
  ∧ 0 < Z.of_nat (length (in_payload p)) <= HVSOCK_RCV_BUF_SZ.

(** The bytes of the stream not yet delivered: the rest of the pending
    packet, then the payloads waiting in the ring. *)
Definition unread (sk : hvsock_sock) (ch : vmbus_channel) : list Z :=
  take (Z.to_nat (data_len (recv sk))) (pending_bytes sk)
  ++ concat (map in_payload (inbound ch)).

(** The state of a receive of [len] bytes into [msg0] that started with the
    undelivered bytes [unread0] and the ring [ring0]: the [copied] first
    bytes of [unread0] were appended to the message, the rest is still
    undelivered, and cursor and ring are well formed. *)
Definition recv_inv (HVSOCK_RCV_BUF_SZ : Z) (msg0 : msghdr)
    (unread0 : list Z) (ring0 : list inpkt) (len : Z) (st : recv_st) : Prop :=
  msg_data (r_msg st) = msg_data msg0 ++ take (Z.to_nat (copied st)) unread0
  ∧ unread (r_sk st) (r_ch st) = drop (Z.to_nat (copied st)) unread0
  ∧ msg_room (r_msg st) = msg_room msg0 - copied st
  ∧ 0 <= copied st <= Z.of_nat (length unread0) ∧ 0 <= total_to_read st
  ∧ copied st + total_to_read st = len
  ∧ cursor_ok (r_sk st)
  ∧ Forall (inpkt_ok HVSOCK_RCV_BUF_SZ) (inbound (r_ch st))
  ∧ ∃ k, inbound (r_ch st) = drop k ring0.

(** How the receive loop is left through a [break]: everything asked for
    was read, or nothing is left in cursor and ring, or the user buffer is
    too small. *)
Definition recv_exit (HVSOCK_PKT_LEN : Z → Z)
    (PAGE_SIZE HVSOCK_MIN_PKT_LEN : Z) (st : recv_st) : Prop :=
  total_to_read st = 0
  ∨ (data_len (recv (r_sk st)) = 0
     ∧ fst (get_ringbuffer_rw_status HVSOCK_PKT_LEN PAGE_SIZE
              HVSOCK_MIN_PKT_LEN (r_ch st)) = false)
  ∨ msg_room (r_msg st) < total_to_read st.

(** The test at the head of the receive loop: unread bytes of the pending
    packet, or a packet in the ring. *)
Definition recv_can_read (HVSOCK_PKT_LEN : Z → Z)
    (PAGE_SIZE HVSOCK_MIN_PKT_LEN : Z) (st : recv_st) : bool :=
  if data_len (recv (r_sk st)) =? 0
  then fst (get_ringbuffer_rw_status HVSOCK_PKT_LEN PAGE_SIZE
              HVSOCK_MIN_PKT_LEN (r_ch st))
  else true.

(** The sock [b] has the error and the shutdown masks of [a]. *)
Definition same_flags (a b : hvsock_sock) : Prop :=
  sk_err b = sk_err a ∧ sk_shutdown b = sk_shutdown a
  ∧ peer_shutdown b = peer_shutdown a.

(** What the receive loop, entered in [st] with [ret], has achieved when it
    is left with [r] in [st']: with something to read at its head it copied
    bytes or faulted on the user buffer; with nothing to read it changed
    nothing, and [r] is EAGAIN exactly when the receive side is open and the
    call may not block. *)
Definition recv_progress (HVSOCK_PKT_LEN : Z → Z)
    (PAGE_SIZE HVSOCK_MIN_PKT_LEN : Z) (timeout ret : Z) (st : recv_st)
    (r : Z) (st' : recv_st) : Prop :=
  copied st <= copied st'
  ∧ same_flags (r_sk st) (r_sk st')
  ∧ (if recv_can_read HVSOCK_PKT_LEN PAGE_SIZE HVSOCK_MIN_PKT_LEN st
     then copied st < copied st' ∨ r = - EFAULT
     else copied st' = copied st
          ∧ (if recv_stop (r_sk st) then r = ret
             else if timeout =? 0 then r = - EAGAIN
             else r = ret)).

(** The packets a ring took, as the receiving end finds them when the
    transport delivers them intact; [HVSOCK_PKT_LEN] gives the room a
    payload takes in a ring. *)
Definition carried (HVSOCK_PKT_LEN : Z → Z) (out : list outpkt) : list inpkt :=
  map (λ p, {| in_status := 0;
               in_actual_len := sizeof_hdr + Z.of_nat (length (out_payload p));
               in_hdr := out_hdr p;
               in_payload := out_payload p;
               in_ring_bytes :=
                 HVSOCK_PKT_LEN (Z.of_nat (length (out_payload p))) |}) out.

(** ** Sample states *)

Module Sample.
Definition stream_socket (st : socket_state) : socket :=
  {| state := st; type := SOCK_STREAM |}.

(** A sock as [hvsock_create] leaves it, then bound to [id]. *)
Definition bound_sock (id : uuid_le) : hvsock_sock :=
  sock_hold
    (set_local_addr (hvsock_addr_init id)
       (__hvsock_create (Some (stream_socket SS_UNCONNECTED)) 0)).

Definition listener (id : uuid_le) (max : Z) (queue : list sk_id) : hvsock_sock :=
  set_accept_queue queue
    (set_sk_ack_backlog (Z.of_nat (length queue))
       (set_sk_max_ack_backlog max (set_sk_state SS_LISTEN (bound_sock id)))).

Definition connecting (id remote : uuid_le) : hvsock_sock :=
  set_sk_socket (Some (stream_socket SS_CONNECTING))
    (set_sk_state SS_CONNECTING
       (set_remote_addr (hvsock_addr_init remote) (bound_sock id))).

Definition connected (id remote : uuid_le) (ch : channel_id) : hvsock_sock :=
  set_channel (Some ch)
    (set_sk_socket (Some (stream_socket SS_CONNECTED))
       (set_sk_state SS_CONNECTED
          (set_remote_addr (hvsock_addr_init remote) (bound_sock id)))).

(** One listener on service 9 with room for one connection. *)
Definition w_listen : world :=
  {| socks := [listener 9 1 []]; hvsock_bound_list := [0%nat];
     hvsock_connected_list := []; chan_calls := [] |}.

(** A sock bound to 5 in the middle of a connect to service 9. *)
Definition w_connecting : world :=
  {| socks := [connecting 5 9]; hvsock_bound_list := [0%nat];
     hvsock_connected_list := []; chan_calls := [] |}.

(** A listener on 9 next to a sock that is bound to 5 and idle. *)
Definition w_idle_and_listen : world :=
  {| socks := [bound_sock 5; listener 9 1 []];
     hvsock_bound_list := [1%nat; 0%nat];
     hvsock_connected_list := []; chan_calls := [] |}.

(** A sock bound to 5 and a fresh one. *)
Definition w_bind : world :=
  {| socks := [bound_sock 5;
               __hvsock_create (Some (stream_socket SS_UNCONNECTED)) 0];
     hvsock_bound_list := [0%nat];
     hvsock_connected_list := []; chan_calls := [] |}.

(** One listener on service 9 with room for two connections. *)
Definition w_listen2 : world :=
  {| socks := [listener 9 2 []]; hvsock_bound_list := [0%nat];
     hvsock_connected_list := []; chan_calls := [] |}.

(** Values for the macros of the missing header: one page of 4096 bytes
    as the send cap, five pages as the receive buffer, 40 bytes of ring
    overhead per packet. *)
Definition pkt_len (payload_len : Z) : Z := payload_len + 40.
Definition page : Z := 4096.
Definition min_pkt : Z := pkt_len 1.
Definition snd_buf : Z := page.
Definition rcv_buf : Z := 5 * page.

(** A channel with room in the outbound ring whose second packet is
    refused. *)
Definition second_refused : vmbus_channel :=
  {| inbound := []; avl_write_bytes := 20000;
     sendpacket_status := [0; - EAGAIN] |}.

(** A channel whose inbound ring holds one packet with the payload
    [1; 2; 3; 4; 5]. *)
Definition one_packet : vmbus_channel :=
  {| inbound := [ {| in_status := 0; in_actual_len := sizeof_hdr + 5;
                     in_hdr := {| pkt_type := 1; data_size := 5 |};
                     in_payload := [1; 2; 3; 4; 5];
                     in_ring_bytes := pkt_len 5 |} ];
     avl_write_bytes := 0; sendpacket_status := [] |}.

(** A channel whose inbound ring holds a packet that announces no payload. *)
Definition empty_packet : vmbus_channel :=
  {| inbound := [ {| in_status := 0; in_actual_len := sizeof_hdr + 8;
                     in_hdr := {| pkt_type := 1; data_size := 0 |};
                     in_payload := []; in_ring_bytes := pkt_len 8 |} ];
     avl_write_bytes := 0; sendpacket_status := [] |}.

(** A message with room for [n] received bytes. *)
Definition room_msg (n : Z) : msghdr :=
  {| msg_flags := 0; msg_namelen := 0; msg_data := []; msg_room := n |}.

(** A message of [n] readable bytes. *)
Definition data_msg (flags n : Z) : msghdr :=
  {| msg_flags := flags; msg_namelen := 0; msg_data := repeat 7 (Z.to_nat n);
     msg_room := 0 |}.

Definition idle_channel : vmbus_channel :=
  {| inbound := []; avl_write_bytes := 0; sendpacket_status := [] |}.

Definition plain_msg (flags namelen : Z) : msghdr :=
  {| msg_flags := flags; msg_namelen := namelen; msg_data := []; msg_room := 0 |}.

(** Nothing happens during the sleep and a bounded timer runs out; a signal
    may be pending. *)
Definition quiet {S : Type} (sig : bool) : sleep S :=
  {| meanwhile := λ s, s; remaining := 0; signal_pending := sig |}.

(** The sock a passive handshake derives for a connection from [remote] to
    the service [id] over the channel [ch], as it waits in an accept queue. *)
Definition queued (id remote : uuid_le) (ch : channel_id) : hvsock_sock :=
  sock_hold
    (sock_hold
       (set_sk_state SS_CONNECTED
          (set_channel (Some ch)
             (set_remote_addr (hvsock_addr_init remote)
                (set_local_addr (hvsock_addr_init id)
                   (__hvsock_create None SOCK_STREAM)))))).

(** A listener on service 9 with one connection queued. *)
Definition w_queued : world :=
  {| socks := [sock_hold (listener 9 2 [1%nat]); queued 9 5 3%nat];
     hvsock_bound_list := [0%nat];
     hvsock_connected_list := [1%nat]; chan_calls := [] |}.
End Sample.

(** * Properties *)

(** ** Integers and bits *)

Lemma u16_small z : 0 <= z < 2 ^ 16 → u16 z = z.
Proof. intros H. unfold u16. apply Z.mod_small. exact H. Qed.

Lemma sint32_small z : - 2 ^ 31 <= z < 2 ^ 31 → sint32 z = z.
Proof. intros H. unfold sint32. rewrite Z.mod_small; lia. Qed.

Lemma socket_state_eqb_eq a b : socket_state_eqb a b = true ↔ a = b.
Proof. destruct a, b; simpl; split; congruence. Qed.

Lemma socket_state_eqb_neq a b : socket_state_eqb a b = false ↔ a ≠ b.
Proof. destruct a, b; simpl; split; congruence. Qed.

(** ** listen *)

(** C6, amended.  On a stream socket, [listen(backlog)] fails with EINVAL
    when the backlog is zero or negative, when the state of the socket,
    [sock->state], is not UNCONNECTED, or when no address is bound.  The call
    records LISTEN in the state of the sock, [sk->sk_state], and does not
    write [sock->state], so a socket that listens already is not refused.
    In every other case the call returns 0 and leaves the sock in state
    LISTEN with a maximum of min(backlog, 128), every other field but the
    backlog count as it was; on a sock that was not in state LISTEN the
    backlog count is reset to 0. *)
Theorem hvsock_listen_spec (sock : socket) (sk : hvsock_sock) (backlog : Z) :
  type sock = SOCK_STREAM →
  (backlog <= 0 ∨ state sock ≠ SS_UNCONNECTED
   ∨ hvsock_addr_bound (local_addr sk) = false →
   hvsock_listen sock sk backlog = (- EINVAL, sk))
  ∧ (0 < backlog → state sock = SS_UNCONNECTED →
     hvsock_addr_bound (local_addr sk) = true →
     ∃ count,
       hvsock_listen sock sk backlog =
         (0, set_sk_state SS_LISTEN
               (set_sk_max_ack_backlog (Z.min backlog 128)
                  (set_sk_ack_backlog count sk)))
       ∧ (sk_state sk ≠ SS_LISTEN → count = 0)).
Proof.
  intros Hty. unfold hvsock_listen. rewrite Hty. simpl.
  split.
  - intros Hbad.
    destruct (socket_state_eqb (state sock) SS_UNCONNECTED) eqn:Est; simpl;
      [| reflexivity].
    destruct (backlog <=? 0) eqn:Eb; [reflexivity |].
    destruct (hvsock_addr_bound (local_addr sk)) eqn:Ea; simpl; [| reflexivity].
    apply socket_state_eqb_eq in Est. apply Z.leb_gt in Eb.
    destruct Hbad as [H | [H | H]]; [lia | contradiction | discriminate].
  - intros Hpos Hst Hb. exists 0. split; [| reflexivity].
    rewrite Hst. simpl.
    destruct (backlog <=? 0) eqn:Eb; [apply Z.leb_le in Eb; lia |].
    simpl. rewrite Hb. simpl.
    replace (u16 (if backlog >? 128 then 128 else backlog))
      with (Z.min backlog 128); [reflexivity |].
    destruct (backlog >? 128) eqn:Eg.
    + apply Z.gtb_lt in Eg. rewrite Z.min_r by lia. reflexivity.
    + rewrite Z.gtb_ltb in Eg. apply Z.ltb_ge in Eg.
      rewrite Z.min_l by lia. symmetry. apply u16_small. simpl. lia.
Qed.

Lemma hvsock_listen_spec_witness :
  (∃ count,
     hvsock_listen (Sample.stream_socket SS_UNCONNECTED) (Sample.bound_sock 9)
       200
     = (0, set_sk_state SS_LISTEN
             (set_sk_max_ack_backlog (Z.min 200 128)
                (set_sk_ack_backlog count (Sample.bound_sock 9))))
     ∧ (sk_state (Sample.bound_sock 9) ≠ SS_LISTEN → count = 0))
  ∧ hvsock_listen (Sample.stream_socket SS_UNCONNECTED) (Sample.bound_sock 9) 0
    = (- EINVAL, Sample.bound_sock 9).
Proof.
  destruct (hvsock_listen_spec (Sample.stream_socket SS_UNCONNECTED)
              (Sample.bound_sock 9) 200 eq_refl) as [_ Hok].
  destruct (hvsock_listen_spec (Sample.stream_socket SS_UNCONNECTED)
              (Sample.bound_sock 9) 0 eq_refl) as [Hbad _].
  split.
  - apply Hok; [lia | reflexivity | reflexivity].
  - apply Hbad. left. lia.
Defined.

(** The C6 counterexample: a first listen on a bound, unconnected socket
    returns 0 and leaves the endpoint in state LISTEN, which is not the
    unconnected state; a second listen on that endpoint is not refused with
    EINVAL, it returns 0 as well. *)
Lemma listen_on_listening_endpoint :
  ∃ l1,
    hvsock_listen (Sample.stream_socket SS_UNCONNECTED) (Sample.bound_sock 9) 2
    = (0, l1)
    ∧ sk_state l1 = SS_LISTEN
    ∧ sk_state l1 ≠ SS_UNCONNECTED
    ∧ fst (hvsock_listen (Sample.stream_socket SS_UNCONNECTED) l1 5) = 0
    ∧ fst (hvsock_listen (Sample.stream_socket SS_UNCONNECTED) l1 5) ≠ - EINVAL.
Proof.
  eexists. split; [reflexivity |].
  split; [reflexivity |]. split; [discriminate |].
  split; [reflexivity | discriminate].
Qed.

(** Every socket of this family is a stream socket: [hvsock_create] refuses
    the other types, so the first test of [hvsock_listen] never fires. *)
Lemma hvsock_create_stream raw sock protocol cap1 cap2 alloc_ok sock' sk :
  hvsock_create raw sock protocol cap1 cap2 alloc_ok = (0, Some (sock', sk)) →
  type sock' = SOCK_STREAM ∧ state sock' = SS_UNCONNECTED
  ∧ sk_socket sk = Some sock' ∧ sk_type sk = SOCK_STREAM
  ∧ hvsock_addr_bound (local_addr sk) = false.
Proof.
  unfold hvsock_create.
  destruct (negb cap1 && negb cap2); [discriminate |].
  destruct (negb (protocol =? 0) && negb (protocol =? raw)); [discriminate |].
  destruct (type sock =? SOCK_STREAM) eqn:E; [| discriminate].
  destruct alloc_ok; [| discriminate].
  apply Z.eqb_eq in E. intros [= <- <-]. cbn. auto.
Qed.

Lemma hvsock_listen_other_type sock sk backlog :
  type sock ≠ SOCK_STREAM → hvsock_listen sock sk backlog = (- EOPNOTSUPP, sk).
Proof.
  intros H. unfold hvsock_listen.
  destruct (type sock =? SOCK_STREAM) eqn:E; [| reflexivity].
  apply Z.eqb_eq in E. contradiction.
Qed.

(** ** shutdown *)

Lemma lor_keeps_bits a b n :
  Z.testbit a n = true → Z.testbit (Z.lor a b) n = true.
Proof. intros H. rewrite Z.lor_spec, H. reflexivity. Qed.

(** C10.  [shutdown(mode)] fails with EINVAL for a mode outside 0..2 and with
    ENOTCONN for a valid mode on an unconnected socket, changing nothing; in
    every other case it returns 0, the socket is DISCONNECTING - also as the
    sock sees it through [sk->sk_socket] - the shutdown mask is the old one
    OR-ed with mode + 1 (receive 1, send 2, both 3), so no bit that was set
    is cleared, the waiters are woken, and the state of the sock and every
    other field are as before. *)
Theorem hvsock_shutdown_spec (sock : socket) (sk : hvsock_sock) (mode : Z) :
  (mode < SHUT_RD ∨ SHUT_RDWR < mode →
   hvsock_shutdown sock sk mode = (- EINVAL, sock, sk))
  ∧ (SHUT_RD <= mode <= SHUT_RDWR → state sock = SS_UNCONNECTED →
     hvsock_shutdown sock sk mode = (- ENOTCONN, sock, sk))
  ∧ (SHUT_RD <= mode <= SHUT_RDWR → state sock ≠ SS_UNCONNECTED →
     hvsock_shutdown sock sk mode =
       (0, set_state SS_DISCONNECTING sock,
        wake StateChange
          (set_sk_shutdown (Z.lor (sk_shutdown sk) (mode + 1))
             (set_sk_socket (Some (set_state SS_DISCONNECTING sock)) sk)))
     ∧ (mode = 0 → mode + 1 = RCV_SHUTDOWN)
     ∧ (mode = 1 → mode + 1 = SEND_SHUTDOWN)
     ∧ (mode = 2 → mode + 1 = SHUTDOWN_MASK)
     ∧ ∀ n, Z.testbit (sk_shutdown sk) n = true →
            Z.testbit (Z.lor (sk_shutdown sk) (mode + 1)) n = true).
Proof.
  unfold hvsock_shutdown, SHUT_RD, SHUT_RDWR.
  repeat split.
  - intros [H | H].
    + apply Z.ltb_lt in H. rewrite H. reflexivity.
    + rewrite Z.gtb_ltb. apply Z.ltb_lt in H. rewrite H, orb_true_r. reflexivity.
  - intros [Hlo Hhi] Hst.
    apply Z.ltb_ge in Hlo. rewrite Z.gtb_ltb. apply Z.ltb_ge in Hhi.
    rewrite Hlo, Hhi, Hst. reflexivity.
  - destruct H as [Hlo Hhi].
    apply Z.ltb_ge in Hlo. rewrite Z.gtb_ltb. apply Z.ltb_ge in Hhi.
    rewrite Hlo, Hhi. simpl.
    apply socket_state_eqb_neq in H0. rewrite H0. reflexivity.
  - intros ->. reflexivity.
  - intros ->. reflexivity.
  - intros ->. reflexivity.
  - intros n Hn. apply lor_keeps_bits. exact Hn.
Qed.

Lemma hvsock_shutdown_spec_witness :
  hvsock_shutdown (Sample.stream_socket SS_CONNECTED)
    (set_sk_shutdown 1 (Sample.connected 5 9 3%nat)) 1
  = (0, Sample.stream_socket SS_DISCONNECTING,
     wake StateChange
       (set_sk_shutdown 3
          (set_sk_socket (Some (Sample.stream_socket SS_DISCONNECTING))
             (Sample.connected 5 9 3%nat))))
  ∧ hvsock_shutdown (Sample.stream_socket SS_UNCONNECTED) (Sample.bound_sock 5) 2
    = (- ENOTCONN, Sample.stream_socket SS_UNCONNECTED, Sample.bound_sock 5)
  ∧ hvsock_shutdown (Sample.stream_socket SS_CONNECTED) (Sample.connected 5 9 3%nat) 3
    = (- EINVAL, Sample.stream_socket SS_CONNECTED, Sample.connected 5 9 3%nat).
Proof.
  split; [| split].
  - destruct (hvsock_shutdown_spec (Sample.stream_socket SS_CONNECTED)
                (set_sk_shutdown 1 (Sample.connected 5 9 3%nat)) 1) as (_ & _ & H).
    destruct H as [H _]; [unfold SHUT_RD, SHUT_RDWR; lia | discriminate |].
    exact H.
  - destruct (hvsock_shutdown_spec (Sample.stream_socket SS_UNCONNECTED)
                (Sample.bound_sock 5) 2) as (_ & H & _).
    apply H; [unfold SHUT_RD, SHUT_RDWR; lia | reflexivity].
  - destruct (hvsock_shutdown_spec (Sample.stream_socket SS_CONNECTED)
                (Sample.connected 5 9 3%nat) 3) as (H & _).
    apply H. right. unfold SHUT_RDWR. lia.
Defined.

(** ** The registries *)

Lemma uuid_equals_eq u v : uuid_equals u v = true ↔ u = v.
Proof. unfold uuid_equals. apply Z.eqb_eq. Qed.

Lemma lookup_upd_eq id f w :
  socks (upd id f w) !! id = f <$> socks w !! id.
Proof. exact (list_lookup_alter_eq f (socks w) id). Qed.

Lemma lookup_upd_ne id j f w :
  id ≠ j → socks (upd id f w) !! j = socks w !! j.
Proof. intros H. exact (list_lookup_alter_ne f (socks w) id j H). Qed.

(** The fields of a world after each of the assignments.  A record update
    mentions the old record once per field, so these equations, used from the
    outside in, keep terms small where unfolding would copy them. *)
Section WorldFields.
Variables (w : world) (id other : sk_id) (f : hvsock_sock → hvsock_sock).

Lemma socks_set_socks v : socks (set_socks v w) = v.
Proof. reflexivity. Qed.
Lemma bound_set_socks v : hvsock_bound_list (set_socks v w) = hvsock_bound_list w.
Proof. reflexivity. Qed.
Lemma connected_set_socks v :
  hvsock_connected_list (set_socks v w) = hvsock_connected_list w.
Proof. reflexivity. Qed.

Lemma socks_call_chan c : socks (call_chan c w) = socks w.
Proof. reflexivity. Qed.
Lemma bound_call_chan c : hvsock_bound_list (call_chan c w) = hvsock_bound_list w.
Proof. reflexivity. Qed.
Lemma connected_call_chan c :
  hvsock_connected_list (call_chan c w) = hvsock_connected_list w.
Proof. reflexivity. Qed.

Lemma socks_upd : socks (upd id f w) = alter f id (socks w).
Proof. reflexivity. Qed.
Lemma bound_upd : hvsock_bound_list (upd id f w) = hvsock_bound_list w.
Proof. reflexivity. Qed.
Lemma connected_upd :
  hvsock_connected_list (upd id f w) = hvsock_connected_list w.
Proof. reflexivity. Qed.

Lemma socks_insert_bound :
  socks (__hvsock_insert_bound id w) = alter sock_hold id (socks w).
Proof. reflexivity. Qed.
Lemma bound_insert_bound :
  hvsock_bound_list (__hvsock_insert_bound id w) = id :: hvsock_bound_list w.
Proof. reflexivity. Qed.
Lemma connected_insert_bound :
  hvsock_connected_list (__hvsock_insert_bound id w) = hvsock_connected_list w.
Proof. reflexivity. Qed.

Lemma socks_insert_connected :
  socks (hvsock_insert_connected id w) = alter sock_hold id (socks w).
Proof. reflexivity. Qed.
Lemma bound_insert_connected :
  hvsock_bound_list (hvsock_insert_connected id w) = hvsock_bound_list w.
Proof. reflexivity. Qed.
Lemma connected_insert_connected :
  hvsock_connected_list (hvsock_insert_connected id w)
  = id :: hvsock_connected_list w.
Proof. reflexivity. Qed.

Lemma socks_remove_bound :
  socks (__hvsock_remove_bound id w) = alter sock_put id (socks w).
Proof. reflexivity. Qed.
Lemma bound_remove_bound :
  hvsock_bound_list (__hvsock_remove_bound id w)
  = list_del id (hvsock_bound_list w).
Proof. reflexivity. Qed.
Lemma connected_remove_bound :
  hvsock_connected_list (__hvsock_remove_bound id w) = hvsock_connected_list w.
Proof. reflexivity. Qed.

Lemma socks_remove_connected :
  socks (__hvsock_remove_connected id w) = alter sock_put id (socks w).
Proof. reflexivity. Qed.
Lemma bound_remove_connected :
  hvsock_bound_list (__hvsock_remove_connected id w) = hvsock_bound_list w.
Proof. reflexivity. Qed.
Lemma connected_remove_connected :
  hvsock_connected_list (__hvsock_remove_connected id w)
  = list_del id (hvsock_connected_list w).
Proof. reflexivity. Qed.

Lemma socks_enqueue_accept :
  socks (hvsock_enqueue_accept id other w)
  = alter (λ l, set_sk_ack_backlog (u16 (sk_ack_backlog l + 1)) l) id
      (alter (λ l, set_accept_queue (accept_queue l ++ [other]) l) id
         (alter sock_hold id (alter sock_hold other (socks w)))).
Proof. reflexivity. Qed.
Lemma bound_enqueue_accept :
  hvsock_bound_list (hvsock_enqueue_accept id other w) = hvsock_bound_list w.
Proof. reflexivity. Qed.
Lemma connected_enqueue_accept :
  hvsock_connected_list (hvsock_enqueue_accept id other w)
  = hvsock_connected_list w.
Proof. reflexivity. Qed.
End WorldFields.

Create Rewrite HintDb world.

#[global] Hint Rewrite
  socks_set_socks bound_set_socks connected_set_socks
  socks_call_chan bound_call_chan connected_call_chan
  socks_upd bound_upd connected_upd
  socks_insert_bound bound_insert_bound connected_insert_bound
  socks_insert_connected bound_insert_connected connected_insert_connected
  socks_remove_bound bound_remove_bound connected_remove_bound
  socks_remove_connected bound_remove_connected connected_remove_connected
  socks_enqueue_accept bound_enqueue_accept connected_enqueue_accept
  : world.

Ltac world_norm := cbv zeta; autorewrite with world.

(** A lookup through a chain of [alter]s, given the (in)equalities of the
    indices as hypotheses. *)
Ltac alter_lookup :=
  repeat first
    [ rewrite list_lookup_alter_eq
    | rewrite list_lookup_alter_ne by (assumption || congruence) ].

Lemma find_bound_in_Some ss addr l id :
  find_bound_in ss addr l = Some id →
  id ∈ l ∧ ∃ s, ss !! id = Some s
               ∧ shv_service_id (local_addr s) = shv_service_id addr.
Proof.
  induction l as [| x l IH]; simpl; [discriminate |].
  destruct (ss !! x) as [s |] eqn:Ex.
  - destruct (uuid_equals (shv_service_id addr) (shv_service_id (local_addr s)))
      eqn:Eu.
    + intros [= <-]. apply uuid_equals_eq in Eu.
      split; [apply list_elem_of_here | eauto].
    + intros H. destruct (IH H) as [Hin Hs].
      split; [apply list_elem_of_further, Hin | exact Hs].
  - intros H. destruct (IH H) as [Hin Hs].
    split; [apply list_elem_of_further, Hin | exact Hs].
Qed.

Lemma find_bound_in_None ss addr l :
  find_bound_in ss addr l = None →
  ∀ id s, id ∈ l → ss !! id = Some s →
          shv_service_id (local_addr s) ≠ shv_service_id addr.
Proof.
  induction l as [| x l IH]; simpl; intros Hf id s Hin Hs.
  - apply not_elem_of_nil in Hin. contradiction.
  - apply elem_of_cons in Hin. destruct Hin as [-> | Hin].
    + rewrite Hs in Hf.
      destruct (uuid_equals (shv_service_id addr)
                  (shv_service_id (local_addr s))) eqn:Eu; [discriminate |].
      intros E. rewrite E in Eu.
      assert (uuid_equals (shv_service_id addr) (shv_service_id addr) = true)
        by (apply uuid_equals_eq; reflexivity).
      congruence.
    + destruct (ss !! x) as [sx |].
      * destruct (uuid_equals (shv_service_id addr)
                    (shv_service_id (local_addr sx))); [discriminate |].
        eapply IH; eauto.
      * eapply IH; eauto.
Qed.

(** The lookup finds an endpoint exactly when the identifier is claimed. *)
Lemma find_bound_claimed w u :
  (∃ id, __hvsock_find_bound_socket (hvsock_addr_init u) w = Some id)
  ↔ claimed w u.
Proof.
  unfold __hvsock_find_bound_socket, claimed. split.
  - intros [id H]. apply find_bound_in_Some in H.
    destruct H as [Hin (s & Hs & Hu)]. exists id, s. auto.
  - intros (id & s & Hin & Hs & Hu).
    destruct (find_bound_in (socks w) (hvsock_addr_init u)
                (hvsock_bound_list w)) as [x |] eqn:E; [eauto |].
    exfalso. eapply find_bound_in_None in E; eauto.
Qed.

Lemma find_bound_unclaimed w u :
  __hvsock_find_bound_socket (hvsock_addr_init u) w = None ↔ ¬ claimed w u.
Proof.
  rewrite <- find_bound_claimed. split.
  - intros H [id Hid]. congruence.
  - intros H. destruct (__hvsock_find_bound_socket _ w) eqn:E; [| reflexivity].
    exfalso. apply H. eauto.
Qed.

Lemma commit_bind_committed hvsk g w : committed hvsk g w (commit_bind hvsk g w).
Proof.
  unfold committed, commit_bind, __hvsock_insert_bound.
  repeat split.
  - cbn [socks set_bound_list]. rewrite !lookup_upd_eq.
    destruct (socks w !! hvsk); reflexivity.
  - intros id Hne. cbn [socks set_bound_list].
    rewrite !lookup_upd_ne by congruence. reflexivity.
Qed.

(** Committing an identifier nobody claims to an endpoint that is not bound
    keeps the identifiers of the bound list distinct. *)
Lemma committed_unique hvsk g w w' :
  committed hvsk g w w' → ¬ claimed w g → hvsk ∉ hvsock_bound_list w →
  bound_unique w → bound_unique w'.
Proof.
  intros (Hb & _ & _ & Hself & Hother) Hfree Hnew Huniq a b sa sb Ha Hb' Hab Hsa Hsb.
  rewrite Hb in Ha, Hb'.
  apply elem_of_cons in Ha. apply elem_of_cons in Hb'.
  assert (Hold : ∀ x sx, x ∈ hvsock_bound_list w → socks w' !! x = Some sx →
                         socks w !! x = Some sx
                         ∧ shv_service_id (local_addr sx) ≠ g).
  { intros x sx Hx Hsx.
    assert (x ≠ hvsk) by (intros ->; contradiction).
    rewrite Hother in Hsx by assumption. split; [exact Hsx |].
    intros E. apply Hfree. exists x, sx. auto. }
  assert (Hme : ∀ sx, socks w' !! hvsk = Some sx →
                      shv_service_id (local_addr sx) = g).
  { intros sx Hsx. rewrite Hself in Hsx.
    destruct (socks w !! hvsk) as [s |]; [| discriminate].
    injection Hsx as <-. reflexivity. }
  destruct Ha as [-> | Ha]; destruct Hb' as [-> | Hb'].
  - congruence.
  - rewrite (Hme _ Hsa). destruct (Hold _ _ Hb' Hsb) as [_ H]. congruence.
  - rewrite (Hme _ Hsb). destruct (Hold _ _ Ha Hsa) as [_ H]. exact H.
  - destruct (Hold _ _ Ha Hsa) as [Ha' _], (Hold _ _ Hb' Hsb) as [Hb'' _].
    exact (Huniq a b sa sb Ha Hb' Hab Ha' Hb'').
Qed.

Lemma gen_unbound_spec w gens :
  match gen_unbound w gens with
  | Returned (g, gens') =>
      ¬ claimed w g ∧ ∃ taken, gens = taken ++ g :: gens'
                               ∧ ∀ t, t ∈ taken → claimed w t
  | InProgress => ∀ g, g ∈ gens → claimed w g
  | OutOfFuel | Oops => False
  end.
Proof.
  induction gens as [| g gens IH]; simpl.
  - intros g Hg. apply not_elem_of_nil in Hg. contradiction.
  - destruct (__hvsock_find_bound_socket (hvsock_addr_init g) w) as [x |] eqn:E.
    + assert (Hc : claimed w g) by (apply find_bound_claimed; eauto).
      destruct (gen_unbound w gens) as [[g' gens'] | | |]; [| | exact IH ..].
      * destruct IH as [Hfree (taken & -> & Htaken)].
        split; [exact Hfree |].
        exists (g :: taken). split; [reflexivity |].
        intros t Ht. apply elem_of_cons in Ht. destruct Ht as [-> | Ht]; auto.
      * intros t Ht. apply elem_of_cons in Ht. destruct Ht as [-> | Ht]; auto.
    + split; [apply find_bound_unclaimed, E |].
      exists []. split; [reflexivity |].
      intros t Ht. apply not_elem_of_nil in Ht. contradiction.
Qed.

(** ** bind *)

(** A sock that has an address is not bound again. *)
Lemma __hvsock_bind_bound sk addr gens w s :
  socks w !! sk = Some s → hvsock_addr_bound (local_addr s) = true →
  __hvsock_bind sk addr gens w = Returned (- EINVAL, w, gens).
Proof. intros Hs Hb. unfold __hvsock_bind. rewrite Hs, Hb. reflexivity. Qed.

(** C3.  A wildcard bind never fails: as soon as the generator yields an
    identifier no bound endpoint claims, the call returns 0 with that
    identifier committed (every identifier drawn before it was claimed), and
    it is still drawing only while every identifier drawn so far is claimed.
    A bind to a concrete identifier returns EADDRINUSE, changing nothing,
    exactly when a bound endpoint claims the identifier, and commits it
    otherwise.  A commitment to an endpoint that is not yet bound keeps the
    service identifiers of the bound list pairwise distinct. *)
Theorem __hvsock_do_bind_spec (hvsk : sk_id) (addr : sockaddr_hv)
    (gens : list uuid_le) (w : world) :
  let sid := shv_service_id addr in
  (sid = SHV_SERVICE_ID_ANY →
   (∃ g, g ∈ gens ∧ ¬ claimed w g) →
   ∃ g gens' w',
     __hvsock_do_bind hvsk addr gens w = Returned (0, w', gens')
     ∧ g ∈ gens ∧ ¬ claimed w g ∧ committed hvsk g w w'
     ∧ (hvsk ∉ hvsock_bound_list w → bound_unique w → bound_unique w'))
  ∧ (sid = SHV_SERVICE_ID_ANY →
     match __hvsock_do_bind hvsk addr gens w with
     | Returned (ret, _, _) => ret = 0
     | InProgress => ∀ g, g ∈ gens → claimed w g
     | OutOfFuel | Oops => False
     end)
  ∧ (sid ≠ SHV_SERVICE_ID_ANY →
     (claimed w sid ↔
      __hvsock_do_bind hvsk addr gens w = Returned (- EADDRINUSE, w, gens))
     ∧ (¬ claimed w sid →
        ∃ w', __hvsock_do_bind hvsk addr gens w = Returned (0, w', gens)
              ∧ committed hvsk sid w w'
              ∧ (hvsk ∉ hvsock_bound_list w → bound_unique w →
                 bound_unique w'))).
Proof.
  intros sid. subst sid. unfold __hvsock_do_bind.
  split; [| split].
  - intros Hany (g0 & Hg0 & Hfree0).
    apply uuid_equals_eq in Hany. rewrite Hany.
    pose proof (gen_unbound_spec w gens) as Hgen.
    destruct (gen_unbound w gens) as [[g gens'] | | |].
    + destruct Hgen as [Hfree (taken & Hsplit & _)].
      exists g, gens', (commit_bind hvsk g w).
      split; [reflexivity |].
      split; [rewrite Hsplit; apply elem_of_app; right; apply list_elem_of_here |].
      split; [exact Hfree |].
      split; [apply commit_bind_committed |].
      intros Hnew Huniq.
      eapply committed_unique; eauto using commit_bind_committed.
    + exfalso. apply Hfree0, Hgen, Hg0.
    + contradiction.
    + contradiction.
  - intros Hany. apply uuid_equals_eq in Hany. rewrite Hany.
    pose proof (gen_unbound_spec w gens) as Hgen.
    destruct (gen_unbound w gens) as [[g gens'] | | |]; auto.
  - intros Hconc.
    destruct (uuid_equals (shv_service_id addr) SHV_SERVICE_ID_ANY) eqn:Eu;
      [apply uuid_equals_eq in Eu; contradiction |].
    cbn [shv_service_id hvsock_addr_init].
    destruct (__hvsock_find_bound_socket
                (hvsock_addr_init (shv_service_id addr)) w) as [x |] eqn:E.
    + assert (Hc : claimed w (shv_service_id addr))
        by (apply find_bound_claimed; eauto).
      split.
      * split; intros; [reflexivity | exact Hc].
      * intros Hn. contradiction.
    + apply find_bound_unclaimed in E.
      split.
      * split; [intros Hc; contradiction |].
        intros H. discriminate H.
      * intros _. exists (commit_bind hvsk (shv_service_id addr) w).
        split; [reflexivity |].
        split; [apply commit_bind_committed |].
        intros Hnew Huniq.
        eapply committed_unique; eauto using commit_bind_committed.
Qed.

(** Through [__hvsock_bind], the guard of which keeps a sock that has an
    address away from [__hvsock_do_bind], distinct identifiers are an
    invariant: with a generator that never yields the wildcard (the one of the
    kernel sets the version bits), every bind that returns leaves the
    identifiers of the bound list pairwise distinct and other than the
    wildcard. *)
Lemma __hvsock_bind_invariant sk addr gens w ret w' gens' :
  SHV_SERVICE_ID_ANY ∉ gens →
  bound_unique w → bound_addresses w →
  __hvsock_bind sk addr gens w = Returned (ret, w', gens') →
  bound_unique w' ∧ bound_addresses w'.
Proof.
  intros Hgen Huniq Haddr. unfold __hvsock_bind.
  destruct (socks w !! sk) as [s |] eqn:Es; [| discriminate].
  destruct (hvsock_addr_bound (local_addr s)) eqn:Eb.
  { intros [= <- <- <-]. auto. }
  destruct (sk_socket s) as [sock |]; [| discriminate].
  destruct (type sock =? SOCK_STREAM); [| intros [= <- <- <-]; auto].
  assert (Hnew : sk ∉ hvsock_bound_list w).
  { intros Hin. rewrite (Haddr sk s Hin Es) in Eb. discriminate. }
  assert (Hcommit : ∀ g, g ≠ SHV_SERVICE_ID_ANY → ¬ claimed w g →
            bound_unique (commit_bind sk g w)
            ∧ bound_addresses (commit_bind sk g w)).
  { intros g Hg Hfree.
    pose proof (commit_bind_committed sk g w) as Hc.
    split; [eapply committed_unique; eauto |].
    destruct Hc as (Hb & _ & _ & Hself & Hother).
    intros id s' Hin Hs'. rewrite Hb in Hin. apply elem_of_cons in Hin.
    destruct (decide (id = sk)) as [-> | Hne].
    - rewrite Hself, Es in Hs'. injection Hs' as <-.
      unfold hvsock_addr_bound. cbn [local_addr sock_hold set_sk_refcnt
        set_local_addr shv_service_id hvsock_addr_init].
      destruct (uuid_equals g SHV_SERVICE_ID_ANY) eqn:Eg; [| reflexivity].
      apply uuid_equals_eq in Eg. contradiction.
    - destruct Hin as [-> | Hin]; [contradiction |].
      rewrite Hother in Hs' by exact Hne. eapply Haddr; eauto. }
  unfold __hvsock_do_bind.
  destruct (uuid_equals (shv_service_id addr) SHV_SERVICE_ID_ANY) eqn:Eany.
  - pose proof (gen_unbound_spec w gens) as Hspec.
    destruct (gen_unbound w gens) as [[g rest] | | |]; try discriminate.
    destruct Hspec as [Hfree (taken & Hsplit & _)].
    intros [= <- <- <-]. apply Hcommit; [| exact Hfree].
    intros ->. apply Hgen. rewrite Hsplit.
    apply elem_of_app. right. apply list_elem_of_here.
  - cbn [shv_service_id hvsock_addr_init].
    destruct (__hvsock_find_bound_socket
                (hvsock_addr_init (shv_service_id addr)) w) eqn:Ef.
    + intros [= <- <- <-]. auto.
    + intros [= <- <- <-]. apply Hcommit.
      * intros E. apply uuid_equals_eq in E. congruence.
      * apply find_bound_unclaimed, Ef.
Qed.

Lemma __hvsock_do_bind_spec_witness :
  (∃ g gens' w',
     __hvsock_do_bind 1%nat (hvsock_addr_init SHV_SERVICE_ID_ANY) [5; 7]
       Sample.w_bind = Returned (0, w', gens')
     ∧ g ∈ [5; 7] ∧ ¬ claimed Sample.w_bind g
     ∧ committed 1%nat g Sample.w_bind w'
     ∧ (1%nat ∉ hvsock_bound_list Sample.w_bind →
        bound_unique Sample.w_bind → bound_unique w'))
  ∧ (claimed Sample.w_bind 5 ↔
     __hvsock_do_bind 1%nat (hvsock_addr_init 5) [] Sample.w_bind
     = Returned (- EADDRINUSE, Sample.w_bind, [])).
Proof.
  destruct (__hvsock_do_bind_spec 1%nat (hvsock_addr_init SHV_SERVICE_ID_ANY)
              [5; 7] Sample.w_bind) as (Hwild & _ & _).
  destruct (__hvsock_do_bind_spec 1%nat (hvsock_addr_init 5) []
              Sample.w_bind) as (_ & _ & Hconc).
  split.
  - apply Hwild; [reflexivity |].
    exists 7. split.
    + apply list_elem_of_further, list_elem_of_here.
    + apply find_bound_unclaimed. reflexivity.
  - apply Hconc. discriminate.
Defined.

(** The wildcard bind of the sample draws 5, which is taken, and commits 7. *)
Example wildcard_bind_skips_taken :
  ∃ w', __hvsock_do_bind 1%nat (hvsock_addr_init SHV_SERVICE_ID_ANY) [5; 7]
          Sample.w_bind = Returned (0, w', [])
        ∧ hvsock_bound_list w' = [1%nat; 0%nat]
        ∧ (shv_service_id ∘ local_addr) <$> socks w' = [5; 7].
Proof. eexists. split; [reflexivity |]. split; reflexivity. Qed.

(** ** Channel offers *)

Lemma find_connected_in_Some ss ch l id :
  find_connected_in ss ch l = Some id →
  id ∈ l ∧ ∃ s, ss !! id = Some s ∧ channel s = Some ch.
Proof.
  induction l as [| x l IH]; simpl; [discriminate |].
  destruct (ss !! x) as [s |] eqn:Ex.
  - destruct (channel_eqb (channel s) (Some ch)) eqn:Ec.
    + intros [= <-]. split; [apply list_elem_of_here |].
      exists s. split; [exact Ex |].
      destruct (channel s) as [c |]; simpl in Ec; [| discriminate].
      apply Nat.eqb_eq in Ec. congruence.
    + intros H. destruct (IH H) as [Hin Hs].
      split; [apply list_elem_of_further, Hin | exact Hs].
  - intros H. destruct (IH H) as [Hin Hs].
    split; [apply list_elem_of_further, Hin | exact Hs].
Qed.

Lemma find_connected_in_None ss ch l :
  find_connected_in ss ch l = None →
  ∀ id s, id ∈ l → ss !! id = Some s → channel s ≠ Some ch.
Proof.
  induction l as [| x l IH]; simpl; intros Hf id s Hin Hs.
  - apply not_elem_of_nil in Hin. contradiction.
  - apply elem_of_cons in Hin. destruct Hin as [-> | Hin].
    + rewrite Hs in Hf.
      destruct (channel_eqb (channel s) (Some ch)) eqn:Ec; [discriminate |].
      intros E. rewrite E in Ec. simpl in Ec.
      rewrite Nat.eqb_refl in Ec. discriminate.
    + destruct (ss !! x) as [sx |].
      * destruct (channel_eqb (channel sx) (Some ch)); [discriminate |].
        eapply IH; eauto.
      * eapply IH; eauto.
Qed.

(** The sock that a passive open creates for the offer ([instance],
    [service_id]) on channel [ch], as the accept queue receives it. *)
Lemma passive_open_accepts ch instance service_id w sk l :
  __hvsock_find_bound_socket (hvsock_addr_init instance) w = None →
  __hvsock_find_bound_socket (hvsock_addr_init service_id) w = Some sk →
  socks w !! sk = Some l →
  sk_state l = SS_LISTEN →
  sk_ack_backlog l < sk_max_ack_backlog l →
  ∃ w' child l',
    hvsock_open_connection ch instance service_id true 0 w = Returned (0, w')
    ∧ socks w' !! length (socks w) = Some child
    ∧ socks w' !! sk = Some l'
    ∧ length (socks w') = S (length (socks w))
    ∧ (∀ i, i ≠ sk → i ≠ length (socks w) → socks w' !! i = socks w !! i)
    ∧ hvsock_connected_list w' = length (socks w) :: hvsock_connected_list w
    ∧ hvsock_bound_list w' = hvsock_bound_list w
    ∧ child = sock_hold (sock_hold
                (set_sk_state SS_CONNECTED
                   (set_channel (Some ch)
                      (set_remote_addr (hvsock_addr_init instance)
                         (set_local_addr (hvsock_addr_init service_id)
                            (set_sk_state SS_CONNECTING
                               (__hvsock_create None (sk_type l))))))))
    ∧ l' = wake StateChange
             (set_sk_ack_backlog (u16 (sk_ack_backlog l + 1))
                (set_accept_queue (accept_queue l ++ [length (socks w)])
                   (sock_hold l))).
Proof.
  intros Hno Hfind Hl Hst Hroom.
  assert (Hlt : (sk < length (socks w))%nat) by (eapply lookup_lt_Some; eauto).
  unfold hvsock_open_connection.
  rewrite Hno, Hfind, Hl, Hst.
  cbn [socket_state_eqb negb].
  destruct (sk_max_ack_backlog l <=? sk_ack_backlog l) eqn:Efull;
    [apply Z.leb_le in Efull; lia |].
  cbn [negb Z.eqb].
  eexists _, _, _. split; [reflexivity |].
  world_norm.
  set (new := length (socks w)).
  assert (Hne : new ≠ sk) by (subst new; lia).
  assert (Hne' : sk ≠ new) by (subst new; lia).
  repeat split.
  - alter_lookup.
    subst new. rewrite list_lookup_middle by reflexivity. reflexivity.
  - alter_lookup.
    rewrite lookup_app_l by exact Hlt. rewrite Hl. reflexivity.
  - rewrite !length_alter, length_app. cbn [length]. lia.
  - intros i Hi1 Hi2. alter_lookup.
    destruct (decide (i < length (socks w))%nat) as [Hi | Hi].
    + apply lookup_app_l. exact Hi.
    + rewrite !lookup_ge_None_2; [reflexivity | lia |].
      rewrite length_app. cbn [length]. lia.
Qed.

Lemma passive_open_rejects_no_listener ch instance service_id alloc_ok open_ret w :
  __hvsock_find_bound_socket (hvsock_addr_init instance) w = None →
  (__hvsock_find_bound_socket (hvsock_addr_init service_id) w = None
   ∨ ∃ sk l, __hvsock_find_bound_socket (hvsock_addr_init service_id) w = Some sk
             ∧ socks w !! sk = Some l ∧ sk_state l ≠ SS_LISTEN) →
  hvsock_open_connection ch instance service_id alloc_ok open_ret w
  = Returned (- ENXIO, w).
Proof.
  intros Hno [Hnone | (sk & l & Hfind & Hl & Hst)]; unfold hvsock_open_connection;
    rewrite Hno.
  - rewrite Hnone. reflexivity.
  - rewrite Hfind, Hl. apply socket_state_eqb_neq in Hst. rewrite Hst. reflexivity.
Qed.

Lemma passive_open_rejects_full ch instance service_id alloc_ok open_ret w sk l :
  __hvsock_find_bound_socket (hvsock_addr_init instance) w = None →
  __hvsock_find_bound_socket (hvsock_addr_init service_id) w = Some sk →
  socks w !! sk = Some l → sk_state l = SS_LISTEN →
  sk_max_ack_backlog l <= sk_ack_backlog l →
  hvsock_open_connection ch instance service_id alloc_ok open_ret w
  = Returned (- EMFILE, w).
Proof.
  intros Hno Hfind Hl Hst Hfull. unfold hvsock_open_connection.
  rewrite Hno, Hfind, Hl, Hst. cbn [socket_state_eqb negb].
  apply Z.leb_le in Hfull. rewrite Hfull. reflexivity.
Qed.

Lemma open_rejects_idle_origin ch instance service_id alloc_ok open_ret w sk s :
  __hvsock_find_bound_socket (hvsock_addr_init instance) w = Some sk →
  socks w !! sk = Some s → sk_state s ≠ SS_CONNECTING →
  hvsock_open_connection ch instance service_id alloc_ok open_ret w
  = Returned (- ENXIO, w).
Proof.
  intros Hfind Hs Hst. unfold hvsock_open_connection.
  rewrite Hfind, Hs. apply socket_state_eqb_neq in Hst. rewrite Hst. reflexivity.
Qed.

(** C5, amended.  When the origin identifier of an offer is the address of no
    bound endpoint: if the endpoint bound to the target identifier is in
    state LISTEN with a backlog count below its limit, and memory and the
    channel open succeed, the call returns 0, a new sock exists whose local
    address is the target identifier, whose remote address is the origin
    identifier, which is CONNECTED on the offered channel, heads the connected
    list and is the last entry of the listener's accept queue, the
    listener's backlog count is one higher and its waiters are woken, and no
    other sock differs; if nothing is bound to the target identifier or the
    endpoint bound to it is not in state LISTEN the call returns ENXIO, and
    if the backlog count has reached the limit EMFILE, with the state
    untouched.  When the origin identifier is the address of a bound endpoint
    that is not CONNECTING, the call returns ENXIO with the state
    untouched, whatever listens on the target identifier. *)
Theorem hvsock_open_connection_passive (ch : channel_id)
    (instance service_id : uuid_le) (alloc_ok : bool) (open_ret : Z) (w : world) :
  (∀ sk l,
     __hvsock_find_bound_socket (hvsock_addr_init instance) w = None →
     __hvsock_find_bound_socket (hvsock_addr_init service_id) w = Some sk →
     socks w !! sk = Some l → sk_state l = SS_LISTEN →
     0 <= sk_ack_backlog l < sk_max_ack_backlog l →
     sk_max_ack_backlog l < 2 ^ 16 →
     alloc_ok = true → open_ret = 0 →
     ∃ w' child l',
       hvsock_open_connection ch instance service_id alloc_ok open_ret w
       = Returned (0, w')
       ∧ socks w' !! length (socks w) = Some child
       ∧ local_addr child = hvsock_addr_init service_id
       ∧ remote_addr child = hvsock_addr_init instance
       ∧ sk_state child = SS_CONNECTED
       ∧ channel child = Some ch
       ∧ hvsock_connected_list w' = length (socks w) :: hvsock_connected_list w
       ∧ hvsock_bound_list w' = hvsock_bound_list w
       ∧ socks w' !! sk = Some l'
       ∧ accept_queue l' = accept_queue l ++ [length (socks w)]
       ∧ sk_ack_backlog l' = sk_ack_backlog l + 1
       ∧ sk_wq l' = sk_wq l ++ [StateChange]
       ∧ length (socks w') = S (length (socks w))
       ∧ ∀ i, i ≠ sk → i ≠ length (socks w) → socks w' !! i = socks w !! i)
  ∧ (__hvsock_find_bound_socket (hvsock_addr_init instance) w = None →
     (__hvsock_find_bound_socket (hvsock_addr_init service_id) w = None
      ∨ ∃ sk l,
          __hvsock_find_bound_socket (hvsock_addr_init service_id) w = Some sk
          ∧ socks w !! sk = Some l ∧ sk_state l ≠ SS_LISTEN) →
     hvsock_open_connection ch instance service_id alloc_ok open_ret w
     = Returned (- ENXIO, w))
  ∧ (∀ sk l,
       __hvsock_find_bound_socket (hvsock_addr_init instance) w = None →
       __hvsock_find_bound_socket (hvsock_addr_init service_id) w = Some sk →
       socks w !! sk = Some l → sk_state l = SS_LISTEN →
       sk_max_ack_backlog l <= sk_ack_backlog l →
       hvsock_open_connection ch instance service_id alloc_ok open_ret w
       = Returned (- EMFILE, w))
  ∧ (∀ sk s,
       __hvsock_find_bound_socket (hvsock_addr_init instance) w = Some sk →
       socks w !! sk = Some s → sk_state s ≠ SS_CONNECTING →
       hvsock_open_connection ch instance service_id alloc_ok open_ret w
       = Returned (- ENXIO, w)).
Proof.
  split; [| split; [| split]].
  - intros sk l Hno Hfind Hl Hst [Hlo Hroom] Hmax -> ->.
    destruct (passive_open_accepts ch instance service_id w sk l
                Hno Hfind Hl Hst Hroom)
      as (w' & child & l' & Hrun & Hchild & Hl' & Hlen & Hrest & Hconn & Hbound
          & -> & ->).
    eexists w', _, _.
    split; [exact Hrun |]. split; [exact Hchild |].
    do 4 (split; [reflexivity |]).
    split; [exact Hconn |]. split; [exact Hbound |]. split; [exact Hl' |].
    split; [reflexivity |].
    split; [apply u16_small; lia |].
    split; [reflexivity |].
    split; [exact Hlen | exact Hrest].
  - apply passive_open_rejects_no_listener.
  - intros sk l. apply passive_open_rejects_full.
  - intros sk s. apply open_rejects_idle_origin.
Qed.

Lemma hvsock_open_connection_passive_witness :
  ∃ w' child l',
    hvsock_open_connection 3%nat 5 9 true 0 Sample.w_listen = Returned (0, w')
    ∧ socks w' !! 1%nat = Some child
    ∧ local_addr child = hvsock_addr_init 9
    ∧ remote_addr child = hvsock_addr_init 5
    ∧ sk_state child = SS_CONNECTED
    ∧ channel child = Some 3%nat
    ∧ hvsock_connected_list w' = [1%nat]
    ∧ hvsock_bound_list w' = [0%nat]
    ∧ socks w' !! 0%nat = Some l'
    ∧ accept_queue l' = [1%nat]
    ∧ sk_ack_backlog l' = 1
    ∧ sk_wq l' = [StateChange]
    ∧ length (socks w') = 2%nat
    ∧ ∀ i, i ≠ 0%nat → i ≠ 1%nat → socks w' !! i = socks Sample.w_listen !! i.
Proof.
  destruct (hvsock_open_connection_passive 3%nat 5 9 true 0 Sample.w_listen)
    as (Hacc & _).
  apply (Hacc 0%nat (Sample.listener 9 1 []));
    try reflexivity; cbn; lia.
Defined.

(** The states of the C5 counterexample.  In the first nothing is
    CONNECTING, a listener with room is bound to the target 9, and a sock
    that is bound and idle has the origin identifier 5 as its address: the
    offer is refused and nothing is created.  In the second only the
    listener exists and no memory is left for the new sock: the offer is
    refused as well. *)
Lemma open_connection_idle_origin_refused :
  (∀ id s, socks Sample.w_idle_and_listen !! id = Some s →
           sk_state s ≠ SS_CONNECTING)
  ∧ (∃ l, __hvsock_find_bound_socket (hvsock_addr_init 9)
            Sample.w_idle_and_listen = Some 1%nat
          ∧ socks Sample.w_idle_and_listen !! 1%nat = Some l
          ∧ sk_state l = SS_LISTEN
          ∧ sk_ack_backlog l < sk_max_ack_backlog l)
  ∧ hvsock_open_connection 3%nat 5 9 true 0 Sample.w_idle_and_listen
    = Returned (- ENXIO, Sample.w_idle_and_listen)
  ∧ hvsock_open_connection 3%nat 5 9 false 0 Sample.w_listen
    = Returned (- ENOMEM, Sample.w_listen).
Proof.
  split; [| split; [| split]].
  - intros [| [| id]] s; cbn; intros [= <-]; discriminate.
  - eexists. repeat split.
  - reflexivity.
  - reflexivity.
Qed.

(** ** Membership in the two registries *)

Lemma active_open_connects ch instance service_id alloc_ok w sk s sock :
  __hvsock_find_bound_socket (hvsock_addr_init instance) w = Some sk →
  socks w !! sk = Some s → sk_state s = SS_CONNECTING →
  sk_socket s = Some sock →
  ∃ w',
    hvsock_open_connection ch instance service_id alloc_ok 0 w = Returned (0, w')
    ∧ hvsock_bound_list w' = hvsock_bound_list w
    ∧ hvsock_connected_list w' = sk :: hvsock_connected_list w
    ∧ socks w' !! sk
      = Some (wake StateChange
                (sock_hold
                   (set_sk_socket (Some (set_state SS_CONNECTED sock))
                      (set_sk_state SS_CONNECTED (set_channel (Some ch) s)))))
    ∧ ∀ i, i ≠ sk → socks w' !! i = socks w !! i.
Proof.
  intros Hfind Hs Hst Hsock. unfold hvsock_open_connection.
  rewrite Hfind, Hs, Hst, Hsock. cbn [socket_state_eqb negb Z.eqb].
  eexists. split; [reflexivity |].
  world_norm.
  repeat split.
  - alter_lookup. rewrite Hs. reflexivity.
  - intros i Hi. alter_lookup. reflexivity.
Qed.

Lemma lists_shrink_refl w : lists_shrink w w.
Proof. split; auto. Qed.

Lemma lists_shrink_trans w1 w2 w3 :
  lists_shrink w1 w2 → lists_shrink w2 w3 → lists_shrink w1 w3.
Proof. intros [A B] [C D]. split; auto. Qed.

Lemma elem_of_list_del x id l : x ∈ list_del id l ↔ x ≠ id ∧ x ∈ l.
Proof. exact (list_elem_of_filter (λ y, y ≠ id) l x). Qed.

Lemma dequeue_lists listener w :
  hvsock_bound_list (snd (hvsock_dequeue_accept listener w))
  = hvsock_bound_list w
  ∧ hvsock_connected_list (snd (hvsock_dequeue_accept listener w))
    = hvsock_connected_list w.
Proof.
  unfold hvsock_dequeue_accept.
  destruct (socks w !! listener) as [l |]; [| split; reflexivity].
  destruct (accept_queue l); split; reflexivity.
Qed.

Lemma release_unfold fuel sk w :
  __hvsock_release (S fuel) sk w = release_pending fuel sk (release_prelude sk w).
Proof. reflexivity. Qed.

Lemma release_prelude_lists sk w :
  hvsock_bound_list (release_prelude sk w) = list_del sk (hvsock_bound_list w)
  ∧ hvsock_connected_list (release_prelude sk w)
    = list_del sk (hvsock_connected_list w).
Proof.
  assert (Hid : ∀ l : list sk_id, sk ∉ l → l = list_del sk l).
  { intros l Hl. unfold list_del. induction l as [| x l IH]; [reflexivity |].
    apply not_elem_of_cons in Hl. destruct Hl as [Hx Hl].
    rewrite filter_cons_True by (intros E; apply Hx; symmetry; exact E).
    f_equal. apply IH, Hl. }
  unfold release_prelude, __hvsock_in_bound_list, __hvsock_in_connected_list.
  destruct (bool_decide (sk ∈ hvsock_bound_list w)) eqn:Eb.
  - cbn [__hvsock_remove_bound upd set_bound_list set_socks hvsock_connected_list].
    destruct (bool_decide (sk ∈ hvsock_connected_list w)) eqn:Ec.
    + split; reflexivity.
    + apply bool_decide_eq_false in Ec. split; [reflexivity |].
      cbn. apply Hid, Ec.
  - apply bool_decide_eq_false in Eb.
    destruct (bool_decide (sk ∈ hvsock_connected_list w)) eqn:Ec.
    + split; [cbn; apply Hid, Eb | reflexivity].
    + apply bool_decide_eq_false in Ec. split; cbn; apply Hid; assumption.
Qed.

Lemma release_shrinks fuel :
  (∀ sk w w', __hvsock_release fuel sk w = Returned w' → lists_shrink w w')
  ∧ (∀ sk w w', release_pending fuel sk w = Returned w' → lists_shrink w w').
Proof.
  induction fuel as [| fuel [IHr IHp]]; [split; intros; discriminate |].
  split.
  - intros sk w w' H. rewrite release_unfold in H.
    apply IHp in H.
    eapply lists_shrink_trans; [| exact H].
    destruct (release_prelude_lists sk w) as [Hb Hc].
    split; intros x Hx; [rewrite Hb in Hx | rewrite Hc in Hx];
      apply elem_of_list_del in Hx; tauto.
  - intros sk w w' H. cbn [release_pending] in H.
    destruct (dequeue_lists sk w) as [Hb Hc].
    destruct (hvsock_dequeue_accept sk w) as [[pending |] w1]; cbn [snd] in Hb, Hc.
    + destruct (__hvsock_release fuel pending w1) as [w2 | | |] eqn:Er;
        try discriminate.
      apply IHr in Er. apply IHp in H.
      destruct Er as [Eb Ec], H as [Fb Fc].
      split; intros x Hx.
      * rewrite <- Hb. apply Eb, Fb, Hx.
      * rewrite <- Hc. apply Ec, Fc, Hx.
    + injection H as <-. split; intros x Hx; cbn in Hx; congruence.
Qed.

(** Once it returns, a release has taken the sock off both lists. *)
Lemma release_leaves_both fuel sk w w' :
  __hvsock_release fuel sk w = Returned w' →
  (sk ∉ hvsock_bound_list w') ∧ (sk ∉ hvsock_connected_list w').
Proof.
  destruct fuel as [| fuel]; [discriminate |].
  rewrite release_unfold. intros H.
  apply (proj2 (release_shrinks fuel)) in H. destruct H as [Hb Hc].
  destruct (release_prelude_lists sk w) as [Eb Ec].
  split; intros Hin.
  - apply Hb in Hin. rewrite Eb in Hin. apply elem_of_list_del in Hin. tauto.
  - apply Hc in Hin. rewrite Ec in Hin. apply elem_of_list_del in Hin. tauto.
Qed.

(** Termination of a release: a sock with nothing queued, and a listener
    whose queued socks have nothing queued themselves. *)
Lemma upd_queue_kept id f w j :
  (∀ s, accept_queue (f s) = accept_queue s) → queue_kept w (upd id f w) j.
Proof.
  intros Hf. unfold queue_kept. destruct (decide (id = j)) as [-> | Hne].
  - rewrite lookup_upd_eq. destruct (socks w !! j); cbn; [rewrite Hf |]; reflexivity.
  - rewrite lookup_upd_ne by exact Hne. reflexivity.
Qed.

Lemma queue_kept_trans w1 w2 w3 j :
  queue_kept w1 w2 j → queue_kept w2 w3 j → queue_kept w1 w3 j.
Proof. unfold queue_kept. congruence. Qed.

Lemma release_prelude_cells sk w j :
  queue_kept w (release_prelude sk w) j
  ∧ (j ≠ sk → socks (release_prelude sk w) !! j = socks w !! j).
Proof.
  unfold release_prelude.
  set (w1 := if __hvsock_in_bound_list sk w then _ else w).
  set (w2 := if __hvsock_in_connected_list sk w1 then _ else w1).
  assert (H1 : queue_kept w w1 j ∧ (j ≠ sk → socks w1 !! j = socks w !! j)).
  { subst w1. destruct (__hvsock_in_bound_list sk w).
    - split.
      + apply (upd_queue_kept sk sock_put
                 (set_bound_list (list_del sk (hvsock_bound_list w)) w) j).
        reflexivity.
      + intros Hne. unfold __hvsock_remove_bound.
        rewrite lookup_upd_ne by congruence. reflexivity.
    - split; [reflexivity | reflexivity]. }
  assert (H2 : queue_kept w1 w2 j ∧ (j ≠ sk → socks w2 !! j = socks w1 !! j)).
  { subst w2. destruct (__hvsock_in_connected_list sk w1).
    - split.
      + apply (upd_queue_kept sk sock_put
                 (set_connected_list
                    (list_del sk (hvsock_connected_list w1)) w1) j).
        reflexivity.
      + intros Hne. unfold __hvsock_remove_connected.
        rewrite lookup_upd_ne by congruence. reflexivity.
    - split; [reflexivity | reflexivity]. }
  destruct H1 as [Q1 C1], H2 as [Q2 C2].
  split.
  - eapply queue_kept_trans; [exact Q1 |].
    eapply queue_kept_trans; [exact Q2 |].
    eapply queue_kept_trans; apply upd_queue_kept; reflexivity.
  - intros Hne. rewrite !lookup_upd_ne by congruence.
    rewrite C2, C1 by exact Hne. reflexivity.
Qed.

Lemma dequeue_empty sk w :
  (∀ s, socks w !! sk = Some s → accept_queue s = []) →
  hvsock_dequeue_accept sk w = (None, w).
Proof.
  intros H. unfold hvsock_dequeue_accept.
  destruct (socks w !! sk) as [s |]; [| reflexivity].
  rewrite (H s eq_refl). reflexivity.
Qed.

Lemma release_leaf fuel sk w :
  (∀ s, socks w !! sk = Some s → accept_queue s = []) →
  __hvsock_release (S (S fuel)) sk w
  = Returned (upd sk sock_put (release_prelude sk w)).
Proof.
  intros Hq. rewrite release_unfold. cbn [release_pending].
  rewrite dequeue_empty; [reflexivity |].
  intros s Hs. destruct (release_prelude_cells sk w sk) as [Hk _].
  unfold queue_kept in Hk. rewrite Hs in Hk.
  destruct (socks w !! sk) as [s0 |]; [| discriminate].
  cbn in Hk. injection Hk as ->. apply Hq. reflexivity.
Qed.

Lemma release_pending_children q : ∀ sk w l,
  socks w !! sk = Some l → accept_queue l = q →
  (∀ c, c ∈ q → c ≠ sk ∧ ∀ s, socks w !! c = Some s → accept_queue s = []) →
  ∃ w', release_pending (length q + 2) sk w = Returned w'.
Proof.
  induction q as [| c rest IH]; intros sk w l Hl Hq Hkids.
  - cbn [length Nat.add release_pending].
    rewrite dequeue_empty; [eauto |].
    intros s Hs. congruence.
  - cbn [length Nat.add release_pending].
    unfold hvsock_dequeue_accept. rewrite Hl, Hq.
    set (w1 := upd sk sock_put _).
    assert (Hcsk : c ≠ sk) by (apply Hkids, list_elem_of_here).
    assert (Hw1 : ∀ j, j ≠ sk → socks w1 !! j = socks w !! j).
    { intros j Hj. subst w1. rewrite !lookup_upd_ne by congruence. reflexivity. }
    assert (Hw1sk : ∃ l1, socks w1 !! sk = Some l1 ∧ accept_queue l1 = rest).
    { subst w1. rewrite !lookup_upd_eq, Hl. cbn. eauto. }
    replace (length rest + 2)%nat with (S (S (length rest))) by lia.
    rewrite release_leaf.
    2:{ intros s Hs. rewrite Hw1 in Hs by exact Hcsk.
        destruct (Hkids c (list_elem_of_here _ _)) as [_ Hc]. apply Hc, Hs. }
    set (w2 := upd c sock_put (upd c sock_put (release_prelude c w1))).
    replace (S (S (length rest))) with (length rest + 2)%nat by lia.
    assert (Hk : ∀ j, queue_kept w1 w2 j).
    { intros j. subst w2.
      eapply queue_kept_trans; [apply release_prelude_cells |].
      eapply queue_kept_trans; apply upd_queue_kept; reflexivity. }
    assert (Hc2 : ∀ j, j ≠ c → socks w2 !! j = socks w1 !! j).
    { intros j Hj. subst w2. rewrite !lookup_upd_ne by congruence.
      apply release_prelude_cells. exact Hj. }
    destruct Hw1sk as (l1 & Hl1 & Hq1).
    apply (IH sk w2 l1).
    + rewrite Hc2 by congruence. exact Hl1.
    + exact Hq1.
    + intros c' Hc'.
      destruct (Hkids c' (list_elem_of_further _ _ _ Hc')) as [Hne Hempty].
      split; [exact Hne |].
      intros s Hs. specialize (Hk c'). unfold queue_kept in Hk.
      rewrite Hs, (Hw1 c' Hne) in Hk.
      destruct (socks w !! c') as [s0 |] eqn:E0; [| discriminate].
      cbn in Hk. injection Hk as ->. apply Hempty. reflexivity.
Qed.

(** A release returns for a sock whose queued socks (if any) are other socks
    with nothing queued, which is what [hvsock_open_connection] builds. *)
Lemma release_returns sk w l :
  socks w !! sk = Some l →
  (∀ c, c ∈ accept_queue l →
        c ≠ sk ∧ ∀ s, socks w !! c = Some s → accept_queue s = []) →
  ∃ w', __hvsock_release (length (accept_queue l) + 3) sk w = Returned w'.
Proof.
  intros Hl Hkids.
  replace (length (accept_queue l) + 3)%nat
    with (S (length (accept_queue l) + 2)) by lia.
  rewrite release_unfold.
  destruct (release_prelude_cells sk w sk) as [Hk _].
  unfold queue_kept in Hk. rewrite Hl in Hk.
  destruct (socks (release_prelude sk w) !! sk) as [l1 |] eqn:El1;
    [| discriminate].
  cbn in Hk. injection Hk as Hq.
  apply (release_pending_children (accept_queue l) sk _ l1 El1 Hq).
  intros c Hc. destruct (Hkids c Hc) as [Hne Hempty].
  split; [exact Hne |].
  intros s Hs.
  destruct (release_prelude_cells sk w c) as [_ Hsame].
  rewrite Hsame in Hs by exact Hne. apply Hempty, Hs.
Qed.

(** C4, amended.  The handshake that moves a CONNECTING endpoint, not yet on
    the connected list, to CONNECTED puts it on the connected list and leaves
    it on the bound list, so the endpoint is in both registries from then
    on; the endpoint that a passive handshake derives is on the connected
    list and not on the bound list; and a release returns with the endpoint
    on neither list. *)
Theorem registry_membership (ch : channel_id) (instance service_id : uuid_le)
    (alloc_ok : bool) (w : world) :
  (∀ sk s sock,
     __hvsock_find_bound_socket (hvsock_addr_init instance) w = Some sk →
     socks w !! sk = Some s → sk_state s = SS_CONNECTING →
     sk_socket s = Some sock →
     sk ∉ hvsock_connected_list w →
     ∃ w' s',
       hvsock_open_connection ch instance service_id alloc_ok 0 w
       = Returned (0, w')
       ∧ socks w' !! sk = Some s' ∧ sk_state s' = SS_CONNECTED
       ∧ sk ∈ hvsock_bound_list w' ∧ sk ∈ hvsock_connected_list w'
       ∧ hvsock_connected_list w' = sk :: hvsock_connected_list w)
  ∧ (∀ sk l,
       lists_allocated w →
       __hvsock_find_bound_socket (hvsock_addr_init instance) w = None →
       __hvsock_find_bound_socket (hvsock_addr_init service_id) w = Some sk →
       socks w !! sk = Some l → sk_state l = SS_LISTEN →
       sk_ack_backlog l < sk_max_ack_backlog l →
       ∃ w' child,
         hvsock_open_connection ch instance service_id true 0 w
         = Returned (0, w')
         ∧ socks w' !! length (socks w) = Some child
         ∧ sk_state child = SS_CONNECTED
         ∧ length (socks w) ∈ hvsock_connected_list w'
         ∧ (length (socks w) ∉ hvsock_bound_list w'))
  ∧ (∀ sk l,
       socks w !! sk = Some l →
       (∀ c, c ∈ accept_queue l →
             c ≠ sk ∧ ∀ s, socks w !! c = Some s → accept_queue s = []) →
       ∃ w', __hvsock_release (length (accept_queue l) + 3) sk w = Returned w'
             ∧ (sk ∉ hvsock_bound_list w') ∧ (sk ∉ hvsock_connected_list w')).
Proof.
  split; [| split].
  - intros sk s sock Hfind Hs Hst Hsock _.
    destruct (active_open_connects ch instance service_id alloc_ok w sk s sock
                Hfind Hs Hst Hsock) as (w' & Hrun & Hb & Hc & Hcell & _).
    eexists w', _. split; [exact Hrun |]. split; [exact Hcell |].
    split; [reflexivity |].
    split; [| split].
    + rewrite Hb. apply find_bound_in_Some in Hfind. apply Hfind.
    + rewrite Hc. apply list_elem_of_here.
    + exact Hc.
  - intros sk l [Halloc _] Hno Hfind Hl Hst Hroom.
    destruct (passive_open_accepts ch instance service_id w sk l
                Hno Hfind Hl Hst Hroom)
      as (w' & child & l' & Hrun & Hchild & _ & _ & _ & Hc & Hb & -> & _).
    eexists w', _. split; [exact Hrun |]. split; [exact Hchild |].
    split; [reflexivity |].
    split.
    + rewrite Hc. apply list_elem_of_here.
    + rewrite Hb. intros Hin. apply Halloc in Hin. lia.
  - intros sk l Hl Hkids.
    destruct (release_returns sk w l Hl Hkids) as [w' Hrun].
    exists w'. split; [exact Hrun |].
    eapply release_leaves_both. exact Hrun.
Qed.

Lemma registry_membership_witness :
  (∃ w' s',
     hvsock_open_connection 3%nat 5 9 true 0 Sample.w_connecting
     = Returned (0, w')
     ∧ socks w' !! 0%nat = Some s' ∧ sk_state s' = SS_CONNECTED
     ∧ 0%nat ∈ hvsock_bound_list w' ∧ 0%nat ∈ hvsock_connected_list w'
     ∧ hvsock_connected_list w'
       = 0%nat :: hvsock_connected_list Sample.w_connecting)
  ∧ (∃ w' child,
       hvsock_open_connection 3%nat 5 9 true 0 Sample.w_listen
       = Returned (0, w')
       ∧ socks w' !! 1%nat = Some child
       ∧ sk_state child = SS_CONNECTED
       ∧ 1%nat ∈ hvsock_connected_list w'
       ∧ (1%nat ∉ hvsock_bound_list w'))
  ∧ (∃ w', __hvsock_release 3 0%nat Sample.w_connecting = Returned w'
           ∧ (0%nat ∉ hvsock_bound_list w')
           ∧ (0%nat ∉ hvsock_connected_list w')).
Proof.
  destruct (registry_membership 3%nat 5 9 true Sample.w_connecting)
    as (Hactive & _ & Hrelease).
  destruct (registry_membership 3%nat 5 9 true Sample.w_listen)
    as (_ & Hpassive & _).
  split; [| split].
  - apply (Hactive 0%nat (Sample.connecting 5 9)
             (Sample.stream_socket SS_CONNECTING)); try reflexivity.
    apply not_elem_of_nil.
  - apply (Hpassive 0%nat (Sample.listener 9 1 [])); try reflexivity.
    split; intros id Hid; cbn in Hid.
    + apply list_elem_of_singleton in Hid. subst id. cbn. lia.
    + apply not_elem_of_nil in Hid. contradiction.
  - apply (Hrelease 0%nat (Sample.connecting 5 9)); [reflexivity |].
    intros c Hc. cbn in Hc. apply not_elem_of_nil in Hc. contradiction.
Defined.

(** The state of the C4 counterexample: before the handshake no endpoint is
    in both registries; the handshake succeeds, the endpoint is CONNECTED,
    and it is on both lists. *)
Lemma handshake_leaves_endpoint_in_both :
  registries_disjoint Sample.w_connecting
  ∧ ∃ w' s',
      hvsock_open_connection 3%nat 5 9 true 0 Sample.w_connecting
      = Returned (0, w')
      ∧ socks w' !! 0%nat = Some s' ∧ sk_state s' = SS_CONNECTED
      ∧ ¬ registries_disjoint w'.
Proof.
  split.
  - intros id [_ Hc]. cbn in Hc. apply not_elem_of_nil in Hc. contradiction.
  - eexists _, _. split; [reflexivity |].
    split; [reflexivity |]. split; [reflexivity |].
    intros Hdis. apply (Hdis 0%nat).
    split; apply list_elem_of_here.
Qed.

(** ** Channel rescission *)

Lemma close_connection_no_owner ch w :
  __hvsock_find_connected_socket_by_channel ch w = None →
  hvsock_close_connection ch w = Returned w.
Proof. intros H. unfold hvsock_close_connection. rewrite H. reflexivity. Qed.

(** The rescission of the channel of a sock that has its [struct socket]:
    the two states are UNCONNECTED, SOCK_DONE and both peer-shutdown bits are
    set, the waiters are woken, and nothing else changes. *)
Lemma close_connection_attached ch w sk s sock :
  __hvsock_find_connected_socket_by_channel ch w = Some sk →
  socks w !! sk = Some s → sk_socket s = Some sock →
  hvsock_close_connection ch w
  = Returned
      (set_socks
         (<[sk := wake StateChange
                    (set_peer_shutdown (Z.lor (peer_shutdown s) SHUTDOWN_MASK)
                       (set_sock_done true
                          (set_sk_state SS_UNCONNECTED
                             (set_sk_socket
                                (Some (set_state SS_UNCONNECTED sock)) s))))]>
            (socks w)) w).
Proof.
  intros Hfind Hs Hsock. unfold hvsock_close_connection.
  rewrite Hfind, Hs, Hsock. reflexivity.
Qed.

(** A sock that is still in an accept queue has no [struct socket]
    ([__hvsock_create] is called with NULL for it and only [hvsock_accept]
    grafts one), and [hvsock_close_connection] dereferences [sk->sk_socket]
    first. *)
Lemma close_connection_detached ch w sk s :
  __hvsock_find_connected_socket_by_channel ch w = Some sk →
  socks w !! sk = Some s → sk_socket s = None →
  hvsock_close_connection ch w = Oops.
Proof.
  intros Hfind Hs Hsock. unfold hvsock_close_connection.
  rewrite Hfind, Hs, Hsock. reflexivity.
Qed.

(** C8, the failing input.  A host connects to the listener of the sample
    (the passive handshake succeeds and queues the derived sock, which owns
    channel 3 in the connected list) and the channel is rescinded before
    [accept] runs: the call faults on the NULL [sk_socket] of the derived
    sock instead of marking it. *)
Theorem rescind_before_accept_faults :
  match hvsock_open_connection 3%nat 5 9 true 0 Sample.w_listen with
  | Returned (0, w1) =>
      __hvsock_find_connected_socket_by_channel 3%nat w1 = Some 1%nat
      ∧ sk_state <$> socks w1 !! 1%nat = Some SS_CONNECTED
      ∧ sk_socket <$> socks w1 !! 1%nat = Some None
      ∧ accept_queue <$> socks w1 !! 0%nat = Some [1%nat]
      ∧ hvsock_close_connection 3%nat w1 = Oops
  | _ => False
  end.
Proof. vm_compute. repeat split. Qed.

(** ** The accept queue and accept *)

Lemma enqueue_accept_listener listener connected w l :
  socks w !! listener = Some l →
  ∃ l', socks (hvsock_enqueue_accept listener connected w) !! listener = Some l'
        ∧ accept_queue l' = accept_queue l ++ [connected]
        ∧ sk_ack_backlog l' = u16 (sk_ack_backlog l + 1)
        ∧ sk_state l' = sk_state l.
Proof.
  intros Hl. unfold hvsock_enqueue_accept.
  rewrite !lookup_upd_eq.
  destruct (decide (connected = listener)) as [-> | Hne].
  - rewrite lookup_upd_eq, Hl. cbn. eexists. split; [reflexivity |].
    repeat split.
  - rewrite lookup_upd_ne by exact Hne. rewrite Hl. cbn.
    eexists. split; [reflexivity |]. repeat split.
Qed.

Lemma dequeue_accept_head listener w l c rest :
  socks w !! listener = Some l → accept_queue l = c :: rest →
  ∃ w' l',
    hvsock_dequeue_accept listener w = (Some c, w')
    ∧ socks w' !! listener = Some l'
    ∧ accept_queue l' = rest
    ∧ sk_ack_backlog l' = u16 (sk_ack_backlog l - 1)
    ∧ sk_err l' = sk_err l
    ∧ hvsock_bound_list w' = hvsock_bound_list w
    ∧ hvsock_connected_list w' = hvsock_connected_list w
    ∧ ∀ j, j ≠ listener → socks w' !! j = socks w !! j.
Proof.
  intros Hl Hq. unfold hvsock_dequeue_accept. rewrite Hl, Hq.
  eexists _, _. split; [reflexivity |].
  split; [rewrite !lookup_upd_eq, Hl; reflexivity |].
  repeat split.
  intros j Hj. rewrite !lookup_upd_ne by congruence. reflexivity.
Qed.

Lemma accept_takes_head sock listener newsock flags sleeps w l c rest :
  socks w !! listener = Some l →
  type sock = SOCK_STREAM → sk_state l = SS_LISTEN → sk_err l = 0 →
  accept_queue l = c :: rest →
  ∃ w' l',
    hvsock_accept sock listener newsock flags sleeps w = Returned (0, Some c, w')
    ∧ socks w' !! listener = Some l'
    ∧ accept_queue l' = rest
    ∧ (c ≠ listener → ∀ s, socks w !! c = Some s →
       socks w' !! c
       = Some (sock_put
                 (set_sk_socket (Some (set_state SS_CONNECTED newsock)) s))).
Proof.
  intros Hl Hty Hst Herr Hq.
  destruct (dequeue_accept_head listener w l c rest Hl Hq)
    as (w1 & l1 & Hdq & Hl1 & Hq1 & _ & Herr1 & _ & _ & Hrest).
  unfold hvsock_accept. rewrite Hl, Hty, Hst. cbn [Z.eqb negb socket_state_eqb].
  assert (Hwait : ∀ timeout,
            accept_wait listener timeout sleeps w = Returned (inl (Some c), w1)).
  { intros timeout. destruct sleeps; cbn [accept_wait]; rewrite Hdq; reflexivity. }
  rewrite Hwait, Hl1, Herr1, Herr. cbn [Z.eqb negb].
  destruct (decide (c = listener)) as [-> | Hne].
  - eexists _, _. split; [reflexivity |].
    rewrite !lookup_upd_eq, Hl1.
    split; [reflexivity |]. split; [exact Hq1 |]. intros H. contradiction.
  - eexists _, l1. split; [reflexivity |].
    rewrite !lookup_upd_ne by exact Hne.
    split; [exact Hl1 |]. split; [exact Hq1 |].
    intros _ s Hs. rewrite !lookup_upd_eq, (Hrest c Hne), Hs. reflexivity.
Qed.

Lemma schedule_timeout_0 left : schedule_timeout 0 left = 0.
Proof. unfold schedule_timeout. cbn [Z.eqb MAX_SCHEDULE_TIMEOUT]. lia. Qed.

Lemma accept_nonblocking_empty sock listener newsock flags sl sleeps w l :
  socks w !! listener = Some l →
  type sock = SOCK_STREAM → sk_state l = SS_LISTEN → sk_err l = 0 →
  accept_queue l = [] → Z.land flags O_NONBLOCK ≠ 0 →
  hvsock_accept sock listener newsock flags (sl :: sleeps) w
  = Returned (if signal_pending sl then - EINTR else - EAGAIN, None,
              meanwhile sl w).
Proof.
  intros Hl Hty Hst Herr Hq Hnb.
  unfold hvsock_accept. rewrite Hl, Hty, Hst. cbn [Z.eqb negb socket_state_eqb].
  unfold sock_sndtimeo.
  destruct (Z.land flags O_NONBLOCK =? 0) eqn:E;
    [apply Z.eqb_eq in E; contradiction |].
  cbn [negb accept_wait].
  rewrite dequeue_empty by (intros s Hs; congruence).
  rewrite Hl, Herr, schedule_timeout_0.
  destruct (signal_pending sl); reflexivity.
Qed.

(** C7, amended.  Enqueueing appends the sock at the tail of the accept
    queue and increments the backlog counter; dequeueing removes the head
    and decrements the counter (both as [unsigned short]), or returns
    nothing, changing nothing, on an empty queue; [accept] on a listener
    without error hands out the head of the queue, grafted onto the new
    socket in state CONNECTED, and leaves the rest queued; and a non-blocking
    [accept] on a listener whose queue is empty and that carries no error
    returns EAGAIN unless a signal is pending for the caller, in which case
    it returns EINTR. *)
Theorem accept_queue_fifo (sock : socket) (listener : sk_id) (newsock : socket)
    (flags : Z) (w : world) (l : hvsock_sock) :
  socks w !! listener = Some l →
  (∀ connected,
     ∃ l', socks (hvsock_enqueue_accept listener connected w) !! listener
           = Some l'
           ∧ accept_queue l' = accept_queue l ++ [connected]
           ∧ sk_ack_backlog l' = u16 (sk_ack_backlog l + 1)
           ∧ (0 <= sk_ack_backlog l < 2 ^ 16 - 1 →
              sk_ack_backlog l' = sk_ack_backlog l + 1))
  ∧ (∀ c rest,
       accept_queue l = c :: rest →
       ∃ w' l',
         hvsock_dequeue_accept listener w = (Some c, w')
         ∧ socks w' !! listener = Some l'
         ∧ accept_queue l' = rest
         ∧ sk_ack_backlog l' = u16 (sk_ack_backlog l - 1)
         ∧ (0 < sk_ack_backlog l < 2 ^ 16 →
            sk_ack_backlog l' = sk_ack_backlog l - 1))
  ∧ (accept_queue l = [] → hvsock_dequeue_accept listener w = (None, w))
  ∧ (∀ c rest sleeps,
       type sock = SOCK_STREAM → sk_state l = SS_LISTEN → sk_err l = 0 →
       accept_queue l = c :: rest →
       ∃ w' l',
         hvsock_accept sock listener newsock flags sleeps w
         = Returned (0, Some c, w')
         ∧ socks w' !! listener = Some l'
         ∧ accept_queue l' = rest
         ∧ (c ≠ listener → ∀ s, socks w !! c = Some s →
            socks w' !! c
            = Some (sock_put
                      (set_sk_socket
                         (Some (set_state SS_CONNECTED newsock)) s))))
  ∧ (∀ sl sleeps,
       type sock = SOCK_STREAM → sk_state l = SS_LISTEN → sk_err l = 0 →
       accept_queue l = [] → Z.land flags O_NONBLOCK ≠ 0 →
       hvsock_accept sock listener newsock flags (sl :: sleeps) w
       = Returned (if signal_pending sl then - EINTR else - EAGAIN, None,
                   meanwhile sl w)).
Proof.
  intros Hl. split; [| split; [| split; [| split]]].
  - intros connected.
    destruct (enqueue_accept_listener listener connected w l Hl)
      as (l' & Hl' & Hq & Hb & _).
    exists l'. split; [exact Hl' |]. split; [exact Hq |].
    split; [exact Hb |].
    intros Hr. rewrite Hb. apply u16_small. lia.
  - intros c rest Hq.
    destruct (dequeue_accept_head listener w l c rest Hl Hq)
      as (w' & l' & Hdq & Hl' & Hq' & Hb & _).
    exists w', l'. split; [exact Hdq |]. split; [exact Hl' |].
    split; [exact Hq' |]. split; [exact Hb |].
    intros Hr. rewrite Hb. apply u16_small. lia.
  - intros Hq. apply dequeue_empty. intros s Hs. congruence.
  - intros c rest sleeps. apply accept_takes_head. exact Hl.
  - intros sl sleeps. apply accept_nonblocking_empty. exact Hl.
Qed.

Lemma accept_queue_fifo_witness :
  hvsock_accept (Sample.stream_socket SS_UNCONNECTED) 0%nat
    (Sample.stream_socket SS_UNCONNECTED) O_NONBLOCK [Sample.quiet false]
    Sample.w_listen
  = Returned (- EAGAIN, None, Sample.w_listen)
  ∧ hvsock_dequeue_accept 0%nat Sample.w_listen = (None, Sample.w_listen).
Proof.
  destruct (accept_queue_fifo (Sample.stream_socket SS_UNCONNECTED) 0%nat
              (Sample.stream_socket SS_UNCONNECTED) O_NONBLOCK Sample.w_listen
              (Sample.listener 9 1 []) eq_refl)
    as (_ & _ & Hempty & _ & Hnb).
  split.
  - apply (Hnb (Sample.quiet false) []); try reflexivity. discriminate.
  - apply Hempty. reflexivity.
Defined.

(** The state of the C7 counterexample: a non-blocking accept on a listener
    with an empty queue and no error, with a signal pending for the caller,
    returns EINTR and not EAGAIN. *)
Lemma accept_nonblocking_signal_pending :
  (∃ l, socks Sample.w_listen !! 0%nat = Some l
        ∧ sk_state l = SS_LISTEN ∧ accept_queue l = [] ∧ sk_err l = 0)
  ∧ hvsock_accept (Sample.stream_socket SS_UNCONNECTED) 0%nat
      (Sample.stream_socket SS_UNCONNECTED) O_NONBLOCK [Sample.quiet true]
      Sample.w_listen
    = Returned (- EINTR, None, Sample.w_listen)
  ∧ - EINTR ≠ - EAGAIN.
Proof.
  split; [eexists; repeat split |].
  split; [reflexivity | discriminate].
Qed.

(** Two hosts connect, in this order, on channels 3 and 4; two accepts hand
    out the socks of channel 3 and of channel 4, in this order, and leave the
    queue empty with a backlog count of 0. *)
Example accept_in_order_of_arrival :
  let sock := Sample.stream_socket SS_UNCONNECTED in
  match hvsock_open_connection 3%nat 11 9 true 0 Sample.w_listen2 with
  | Returned (0, w1) =>
      match hvsock_open_connection 4%nat 12 9 true 0 w1 with
      | Returned (0, w2) =>
          match hvsock_accept sock 0%nat sock 0 [] w2 with
          | Returned (0, Some first, w3) =>
              match hvsock_accept sock 0%nat sock 0 [] w3 with
              | Returned (0, Some second, w4) =>
                  channel <$> socks w4 !! first = Some (Some 3%nat)
                  ∧ channel <$> socks w4 !! second = Some (Some 4%nat)
                  ∧ accept_queue <$> socks w4 !! 0%nat = Some []
                  ∧ sk_ack_backlog <$> socks w4 !! 0%nat = Some 0
              | _ => False
              end
          | _ => False
          end
      | _ => False
      end
  | _ => False
  end.
Proof. vm_compute. repeat split. Qed.

(** ** send *)

(** C9, amended.  A send of non-zero length that supplies a destination
    address fails with EOPNOTSUPP whatever the state of the connection, the
    shutdown bits and the flags are; no packet is handed to the channel and
    the sock, the channel and the message are as they were. *)
Theorem sendmsg_destination_refused (HVSOCK_PKT_LEN : Z → Z)
    (PAGE_SIZE HVSOCK_MIN_PKT_LEN HVSOCK_SND_BUF_SZ : Z)
    (sk : hvsock_sock) (ch : vmbus_channel) (msg : msghdr) (len : Z)
    (sleeps : list (sleep (hvsock_sock * vmbus_channel))) :
  len ≠ 0 → msg_namelen msg ≠ 0 →
  hvsock_sendmsg HVSOCK_PKT_LEN PAGE_SIZE HVSOCK_MIN_PKT_LEN HVSOCK_SND_BUF_SZ
    sk ch msg len sleeps
  = Returned (- EOPNOTSUPP, Build_send_st sk ch msg len 0 []).
Proof.
  intros Hlen Hname. unfold hvsock_sendmsg.
  apply Z.eqb_neq in Hlen. apply Z.eqb_neq in Hname.
  rewrite Hlen, Hname.
  destruct (Z.land (msg_flags msg) (Z.lnot MSG_DONTWAIT) =? 0); reflexivity.
Qed.

Lemma sendmsg_destination_refused_witness :
  hvsock_sendmsg Sample.pkt_len Sample.page Sample.min_pkt Sample.snd_buf
    (Sample.connected 5 9 3%nat) Sample.idle_channel (Sample.plain_msg 0 16)
    100 []
  = Returned (- EOPNOTSUPP,
              Build_send_st (Sample.connected 5 9 3%nat) Sample.idle_channel
                (Sample.plain_msg 0 16) 100 0 []).
Proof.
  apply sendmsg_destination_refused; [lia | cbn; lia].
Defined.

(** The input of the C9 counterexample: a destination is supplied with a
    request of length zero, and the call fails with EINVAL. *)
Lemma sendmsg_destination_zero_length :
  msg_namelen (Sample.plain_msg 0 16) ≠ 0
  ∧ hvsock_sendmsg Sample.pkt_len Sample.page Sample.min_pkt Sample.snd_buf
      (Sample.connected 5 9 3%nat) Sample.idle_channel (Sample.plain_msg 0 16)
      0 []
    = Returned (- EINVAL,
                Build_send_st (Sample.connected 5 9 3%nat) Sample.idle_channel
                  (Sample.plain_msg 0 16) 0 0 [])
  ∧ - EINVAL ≠ - EOPNOTSUPP.
Proof. split; [discriminate |]. split; [reflexivity | discriminate]. Qed.

(** ** receive *)

(** C2, amended.  A receive on a sock that is not CONNECTED returns 0 when
    SOCK_DONE is set and ENOTCONN otherwise; on a CONNECTED sock, a call
    with a flag other than MSG_DONTWAIT returns EOPNOTSUPP, and a call
    without such a flag returns 0 when receive is shut down locally or when
    the length asked for is 0.  In all these cases no packet is pulled and
    the sock with its receive cursor, the channel and the message are as
    they were. *)
Theorem recvmsg_early_exits (HVSOCK_PKT_LEN : Z → Z)
    (PAGE_SIZE HVSOCK_MIN_PKT_LEN HVSOCK_RCV_BUF_SZ : Z)
    (sk : hvsock_sock) (ch : vmbus_channel) (msg : msghdr) (len flags : Z)
    (sleeps : list (sleep (hvsock_sock * vmbus_channel))) :
  let recvmsg :=
    hvsock_recvmsg HVSOCK_PKT_LEN PAGE_SIZE HVSOCK_MIN_PKT_LEN HVSOCK_RCV_BUF_SZ
      sk ch msg len flags sleeps in
  let untouched := Build_recv_st sk ch msg len 0 in
  (sk_state sk ≠ SS_CONNECTED → sock_done sk = true →
   recvmsg = Returned (0, untouched))
  ∧ (sk_state sk ≠ SS_CONNECTED → sock_done sk = false →
     recvmsg = Returned (- ENOTCONN, untouched))
  ∧ (sk_state sk = SS_CONNECTED →
     Z.land flags (Z.lnot MSG_DONTWAIT) ≠ 0 →
     recvmsg = Returned (- EOPNOTSUPP, untouched))
  ∧ (sk_state sk = SS_CONNECTED →
     Z.land flags (Z.lnot MSG_DONTWAIT) = 0 →
     Z.land (sk_shutdown sk) RCV_SHUTDOWN ≠ 0 →
     recvmsg = Returned (0, untouched))
  ∧ (sk_state sk = SS_CONNECTED →
     Z.land flags (Z.lnot MSG_DONTWAIT) = 0 →
     len = 0 →
     recvmsg = Returned (0, untouched)).
Proof.
  intros recvmsg untouched. subst recvmsg untouched. unfold hvsock_recvmsg.
  split; [| split; [| split; [| split]]].
  - intros Hst Hdone. apply socket_state_eqb_neq in Hst.
    rewrite Hst, Hdone. reflexivity.
  - intros Hst Hdone. apply socket_state_eqb_neq in Hst.
    rewrite Hst, Hdone. reflexivity.
  - intros Hst Hflags. apply Z.eqb_neq in Hflags.
    rewrite Hst, Hflags. reflexivity.
  - intros Hst Hflags Hshut. apply Z.eqb_neq in Hshut.
    rewrite Hst, Hflags. unfold has_bits. rewrite Hshut. reflexivity.
  - intros Hst Hflags ->.
    rewrite Hst, Hflags. cbn [socket_state_eqb negb Z.eqb].
    destruct (has_bits (sk_shutdown sk) RCV_SHUTDOWN); reflexivity.
Qed.

Lemma recvmsg_early_exits_witness :
  hvsock_recvmsg Sample.pkt_len Sample.page Sample.min_pkt Sample.rcv_buf
    (set_sk_shutdown RCV_SHUTDOWN (Sample.connected 5 9 3%nat))
    Sample.idle_channel (Sample.plain_msg 0 0) 100 MSG_DONTWAIT []
  = Returned (0, Build_recv_st
                   (set_sk_shutdown RCV_SHUTDOWN (Sample.connected 5 9 3%nat))
                   Sample.idle_channel (Sample.plain_msg 0 0) 100 0)
  ∧ hvsock_recvmsg Sample.pkt_len Sample.page Sample.min_pkt Sample.rcv_buf
      (Sample.bound_sock 5) Sample.idle_channel (Sample.plain_msg 0 0) 100 0 []
    = Returned (- ENOTCONN,
                Build_recv_st (Sample.bound_sock 5) Sample.idle_channel
                  (Sample.plain_msg 0 0) 100 0).
Proof.
  split.
  - destruct (recvmsg_early_exits Sample.pkt_len Sample.page Sample.min_pkt
                Sample.rcv_buf
                (set_sk_shutdown RCV_SHUTDOWN (Sample.connected 5 9 3%nat))
                Sample.idle_channel (Sample.plain_msg 0 0) 100 MSG_DONTWAIT [])
      as (_ & _ & _ & H & _).
    apply H; [reflexivity | reflexivity | discriminate].
  - destruct (recvmsg_early_exits Sample.pkt_len Sample.page Sample.min_pkt
                Sample.rcv_buf (Sample.bound_sock 5) Sample.idle_channel
                (Sample.plain_msg 0 0) 100 0 [])
      as (_ & H & _).
    apply H; [discriminate | reflexivity].
Defined.

(** The inputs of the C2 counterexample: a CONNECTED sock whose receive side
    is shut down locally, and a request of length 0 on a CONNECTED sock,
    each with the flag MSG_PEEK (2): both calls fail with EOPNOTSUPP. *)
Lemma recvmsg_unsupported_flag_first :
  hvsock_recvmsg Sample.pkt_len Sample.page Sample.min_pkt Sample.rcv_buf
    (set_sk_shutdown RCV_SHUTDOWN (Sample.connected 5 9 3%nat))
    Sample.idle_channel (Sample.plain_msg 0 0) 100 2 []
  = Returned (- EOPNOTSUPP,
              Build_recv_st
                (set_sk_shutdown RCV_SHUTDOWN (Sample.connected 5 9 3%nat))
                Sample.idle_channel (Sample.plain_msg 0 0) 100 0)
  ∧ hvsock_recvmsg Sample.pkt_len Sample.page Sample.min_pkt Sample.rcv_buf
      (Sample.connected 5 9 3%nat) Sample.idle_channel (Sample.plain_msg 0 0)
      0 2 []
    = Returned (- EOPNOTSUPP,
                Build_recv_st (Sample.connected 5 9 3%nat) Sample.idle_channel
                  (Sample.plain_msg 0 0) 0 0)
  ∧ - EOPNOTSUPP ≠ 0.
Proof. split; [reflexivity |]. split; [reflexivity | discriminate]. Qed.

(** ** The send loops *)

Lemma bytes_transferred_snoc out p :
  bytes_transferred (out ++ [p])
  = bytes_transferred out + Z.of_nat (length (out_payload p)).
Proof.
  unfold bytes_transferred.
  rewrite map_app, concat_app, length_app. cbn [map concat].
  rewrite app_nil_r. lia.
Qed.

Lemma memcpy_from_msg_spec msg n ret bytes msg' :
  memcpy_from_msg msg n = (ret, bytes, msg') → 0 <= n →
  (ret = 0 ∧ length bytes = Z.to_nat n) ∨ (ret = - EFAULT ∧ msg' = msg).
Proof.
  unfold memcpy_from_msg. intros H Hn.
  destruct (n <=? Z.of_nat (length (msg_data msg))) eqn:E;
    injection H as <- <- <-.
  - left. split; [reflexivity |].
    apply Z.leb_le in E. apply length_take_le. lia.
  - right. split; reflexivity.
Qed.

Lemma hvsock_send_data_spec ch hvsk n ret pkt hvsk' ch' :
  hvsock_send_data ch hvsk n = (ret, pkt, hvsk', ch') →
  (ret = 0 ∧ ∃ hdr, pkt = Some (Build_outpkt hdr
                                  (take (Z.to_nat n) (send_buf (send hvsk)))))
  ∨ (ret ≠ 0 ∧ pkt = None).
Proof.
  unfold hvsock_send_data, vmbus_sendpacket. intros H.
  destruct (sendpacket_status ch) as [| st rest].
  - injection H as <- <- <- <-. left. split; [reflexivity | eauto].
  - destruct (st =? 0) eqn:E; injection H as <- <- <- <-.
    + left. split; [reflexivity | eauto].
    + right. apply Z.eqb_neq in E. split; [exact E | reflexivity].
Qed.

Section SendLoops.
Variable HVSOCK_PKT_LEN : Z → Z.
Variables PAGE_SIZE HVSOCK_MIN_PKT_LEN HVSOCK_SND_BUF_SZ : Z.
Hypothesis snd_buf_positive : 0 < HVSOCK_SND_BUF_SZ.
Variable len : Z.

(** The chunk loop returns with enough fuel, keeps the counters in step
    with the packets the ring took, and leaves nothing to write when it
    ends without error. *)
Lemma send_chunks_inv fuel : ∀ st,
  send_inv len st → 0 < total_to_write st →
  (Z.to_nat (total_to_write st) <= fuel)%nat →
  match send_chunks HVSOCK_SND_BUF_SZ fuel st with
  | Returned (ret, st') =>
      send_inv len st' ∧ (ret = 0 → total_to_write st' <= 0)
  | InProgress | OutOfFuel | Oops => False
  end.
Proof.
  induction fuel as [| fuel IH]; intros st Hinv Hpos Hfuel; [lia |].
  cbn [send_chunks].
  set (to_write := Z.min HVSOCK_SND_BUF_SZ (total_to_write st)).
  assert (Hw : 1 <= to_write <= total_to_write st) by (subst to_write; lia).
  destruct (memcpy_from_msg (s_msg st) to_write) as [[ret bytes] msg'] eqn:Em.
  destruct (memcpy_from_msg_spec _ _ _ _ _ Em ltac:(lia))
    as [[-> Hbytes] | [-> _]].
  2:{ cbn [Z.eqb negb EFAULT Z.opp]. split; [exact Hinv | discriminate]. }
  cbn [Z.eqb negb].
  match goal with
  | |- context [hvsock_send_data ?c ?h ?n] =>
      destruct (hvsock_send_data c h n) as [[[ret pkt] hvsk'] ch'] eqn:Es;
      destruct (hvsock_send_data_spec _ _ _ _ _ _ _ Es)
        as [[-> [hdr ->]] | [Hret ->]]
  end.
  - cbn [Z.eqb negb option_list total_to_write total_written s_out].
    assert (Hinv' :
      send_inv len
        (Build_send_st hvsk' ch' msg' (total_to_write st - to_write)
           (total_written st + to_write)
           (s_out st ++ [Build_outpkt hdr
                           (take (Z.to_nat to_write)
                              (bytes ++ drop (length bytes)
                                          (send_buf (send (s_sk st)))))]))).
    { destruct Hinv as (Hb & Hw0 & Ht0 & Hsum).
      unfold send_inv. cbn [s_out total_written total_to_write].
      rewrite bytes_transferred_snoc. cbn [out_payload].
      rewrite <- Hbytes, take_app_length, Hbytes.
      repeat split; lia. }
    destruct (0 <? total_to_write st - to_write) eqn:Emore.
    + apply Z.ltb_lt in Emore. apply IH.
      * exact Hinv'.
      * cbn [total_to_write]. exact Emore.
      * cbn [total_to_write]. lia.
    + apply Z.ltb_ge in Emore. split; [exact Hinv' |].
      intros _. cbn [total_to_write]. exact Emore.
  - apply Z.eqb_neq in Hret. rewrite Hret. cbn [negb option_list].
    rewrite app_nil_r. split; [| intros E; apply Z.eqb_neq in Hret; contradiction].
    destruct Hinv as (Hb & Hw0 & Ht0 & Hsum).
    unfold send_inv. cbn [s_out total_written total_to_write]. auto.
Qed.

(** The wait for room only sleeps on a call that may block, and it
    either returns or is still asleep. *)
Lemma send_wait_outcome sleeps : ∀ timeout sk ch,
  match send_wait HVSOCK_PKT_LEN PAGE_SIZE HVSOCK_MIN_PKT_LEN
          timeout sleeps sk ch with
  | Returned _ => True
  | InProgress => timeout ≠ 0
  | OutOfFuel | Oops => False
  end.
Proof.
  induction sleeps as [| sl sleeps IH]; intros timeout sk ch; cbn [send_wait];
    destruct (_ || _ || _); try exact I;
    destruct (timeout =? 0) eqn:Et; try exact I;
    apply Z.eqb_neq in Et; [exact Et |].
  destruct (meanwhile sl (sk, ch)) as [sk' ch'].
  destruct (signal_pending sl); [exact I |].
  destruct (schedule_timeout timeout (remaining sl) =? 0); [exact I |].
  specialize (IH (schedule_timeout timeout (remaining sl)) sk' ch').
  destruct (send_wait _ _ _ _ sleeps sk' ch'); auto.
Qed.

Lemma send_loop_done fuel timeout sleeps ret st :
  total_to_write st <= 0 →
  send_loop HVSOCK_PKT_LEN PAGE_SIZE HVSOCK_MIN_PKT_LEN HVSOCK_SND_BUF_SZ
    fuel timeout sleeps ret st = Returned (ret, st).
Proof.
  intros H. apply Z.leb_le in H.
  destruct fuel; cbn [send_loop]; rewrite H; reflexivity.
Qed.

(** Two rounds of the outer loop are enough: the chunk loop leaves
    nothing to write when it ends without error. *)
Lemma send_loop_inv fuel timeout sleeps ret st :
  send_inv len st →
  match send_loop HVSOCK_PKT_LEN PAGE_SIZE HVSOCK_MIN_PKT_LEN
          HVSOCK_SND_BUF_SZ (S (S fuel)) timeout sleeps ret st with
  | Returned (_, st') => send_inv len st'
  | InProgress => timeout ≠ 0
  | OutOfFuel | Oops => False
  end.
Proof.
  intros Hinv.
  destruct (Z_le_gt_dec (total_to_write st) 0) as [Hle | Hgt].
  { rewrite send_loop_done by exact Hle. exact Hinv. }
  cbn [send_loop].
  destruct (total_to_write st <=? 0) eqn:E; [apply Z.leb_le in E; lia |].
  pose proof (send_wait_outcome sleeps timeout (s_sk st) (s_ch st)) as Hwait.
  destruct (send_wait _ _ _ timeout sleeps (s_sk st) (s_ch st))
    as [[[[r | [timeout' sleeps']] sk'] ch'] | | |]; try exact Hwait.
  - destruct Hinv as (Hb & Hw0 & Ht0 & Hsum). unfold send_inv.
    cbn [s_out total_written total_to_write]. auto.
  - set (st1 := Build_send_st sk' ch' (s_msg st) (total_to_write st)
                  (total_written st) (s_out st)).
    assert (Hinv1 : send_inv len st1).
    { destruct Hinv as (Hb & Hw0 & Ht0 & Hsum). unfold send_inv. subst st1.
      cbn [s_out total_written total_to_write]. auto. }
    destruct (negb (sk_err sk' =? 0)); [exact Hinv1 |].
    destruct (send_stop sk'); [exact Hinv1 |].
    pose proof (send_chunks_inv (Z.to_nat (total_to_write st1)) st1 Hinv1
                  ltac:(subst st1; cbn [total_to_write]; lia)
                  ltac:(lia)) as Hchunks.
    destruct (send_chunks HVSOCK_SND_BUF_SZ (Z.to_nat (total_to_write st1)) st1)
      as [[r st2] | | |]; try contradiction.
    destruct Hchunks as [Hinv2 Hdone].
    destruct (r =? 0) eqn:Er; cbn [negb]; [| exact Hinv2].
    apply Z.eqb_eq in Er.
    pose proof (Hdone Er) as Hd. apply Z.leb_le in Hd. rewrite Hd.
    exact Hinv2.
Qed.
End SendLoops.

(** C1.  For a request of at most INT_MAX bytes (the socket layer passes no
    more) and a positive send cap: when the call returns, a positive number
    of bytes handed to the channel is its return value, a negative return
    value means that no byte was handed over, and the return value is never
    0; a request of length 0 returns EINVAL.  The call is still in progress
    at the end of the trace of wake-ups only if it may block, and the loop
    bounds of the model are never reached. *)
Theorem sendmsg_return_value (HVSOCK_PKT_LEN : Z → Z)
    (PAGE_SIZE HVSOCK_MIN_PKT_LEN HVSOCK_SND_BUF_SZ : Z)
    (sk : hvsock_sock) (ch : vmbus_channel) (msg : msghdr) (len : Z)
    (sleeps : list (sleep (hvsock_sock * vmbus_channel))) :
  0 < HVSOCK_SND_BUF_SZ → 0 <= len <= INT_MAX →
  match hvsock_sendmsg HVSOCK_PKT_LEN PAGE_SIZE HVSOCK_MIN_PKT_LEN
          HVSOCK_SND_BUF_SZ sk ch msg len sleeps with
  | Returned (ret, st) =>
      let n := bytes_transferred (s_out st) in
      (0 < n → ret = n) ∧ (ret < 0 → n = 0) ∧ ret ≠ 0
      ∧ (len = 0 → ret = - EINVAL)
  | InProgress =>
      sock_sndtimeo sk (Z.land (msg_flags msg) MSG_DONTWAIT) ≠ 0
  | OutOfFuel | Oops => False
  end.
Proof.
  intros Hsnd [Hlen0 Hlen]. unfold hvsock_sendmsg.
  assert (Hearly : ∀ e, e < 0 → (len = 0 → e = - EINVAL) →
            let n := bytes_transferred
                       (s_out (Build_send_st sk ch msg len 0 [])) in
            (0 < n → e = n) ∧ (e < 0 → n = 0) ∧ e ≠ 0
            ∧ (len = 0 → e = - EINVAL)).
  { intros e He Hz. cbv zeta. cbn [s_out].
    change (bytes_transferred []) with 0.
    repeat split; first [lia | exact Hz]. }
  destruct (len =? 0) eqn:El.
  { exact (Hearly (- EINVAL) eq_refl (λ _, eq_refl)). }
  apply Z.eqb_neq in El.
  destruct (negb (Z.land (msg_flags msg) (Z.lnot MSG_DONTWAIT) =? 0)).
  { exact (Hearly (- EOPNOTSUPP) eq_refl (λ E, False_ind _ (El E))). }
  destruct (negb (msg_namelen msg =? 0)).
  { exact (Hearly (- EOPNOTSUPP) eq_refl (λ E, False_ind _ (El E))). }
  destruct (send_stop sk).
  { exact (Hearly (- EPIPE) eq_refl (λ E, False_ind _ (El E))). }
  destruct (_ || _).
  { exact (Hearly (- ENOTCONN) eq_refl (λ E, False_ind _ (El E))). }
  destruct (negb (hvsock_addr_bound (remote_addr sk))).
  { exact (Hearly (- EDESTADDRREQ) eq_refl (λ E, False_ind _ (El E))). }
  assert (Hinv0 : send_inv len (Build_send_st sk ch msg len 0 [])).
  { unfold send_inv. cbn [s_out total_written total_to_write].
    change (bytes_transferred []) with 0. repeat split; lia. }
  pose proof (send_loop_inv HVSOCK_PKT_LEN PAGE_SIZE HVSOCK_MIN_PKT_LEN
                HVSOCK_SND_BUF_SZ Hsnd len 0
                (sock_sndtimeo sk (Z.land (msg_flags msg) MSG_DONTWAIT))
                sleeps 0 _ Hinv0) as Hloop.
  destruct (send_loop _ _ _ _ 2 _ sleeps 0 _) as [[ret st] | | |];
    try exact Hloop.
  destruct Hloop as (Hb & Hw0 & Ht0 & Hsum).
  cbv zeta. rewrite Hb.
  destruct (0 <? total_written st) eqn:Ew.
  - apply Z.ltb_lt in Ew.
    rewrite sint32_small by (unfold INT_MAX in Hlen; lia).
    destruct (total_written st =? 0) eqn:E0; [apply Z.eqb_eq in E0; lia |].
    repeat split; lia.
  - apply Z.ltb_ge in Ew.
    destruct (ret =? 0) eqn:E0.
    + unfold EIO. repeat split; lia.
    + apply Z.eqb_neq in E0. repeat split; lia.
Qed.

Lemma sendmsg_return_value_witness :
  match hvsock_sendmsg Sample.pkt_len Sample.page Sample.min_pkt Sample.snd_buf
          (Sample.connected 5 9 3%nat) Sample.second_refused
          (Sample.data_msg 0 5000) 5000 [] with
  | Returned (ret, st) =>
      let n := bytes_transferred (s_out st) in
      (0 < n → ret = n) ∧ (ret < 0 → n = 0) ∧ ret ≠ 0
      ∧ (5000 = 0 → ret = - EINVAL)
  | InProgress =>
      sock_sndtimeo (Sample.connected 5 9 3%nat)
        (Z.land (msg_flags (Sample.data_msg 0 5000)) MSG_DONTWAIT) ≠ 0
  | OutOfFuel | Oops => False
  end.
Proof.
  apply sendmsg_return_value; [reflexivity |].
  split; [lia | unfold INT_MAX; lia].
Defined.

(** A send of 5000 bytes whose second packet the ring refuses returns 4096,
    the size of the one packet handed over. *)
Example send_second_packet_refused :
  match hvsock_sendmsg Sample.pkt_len Sample.page Sample.min_pkt Sample.snd_buf
          (Sample.connected 5 9 3%nat) Sample.second_refused
          (Sample.data_msg 0 5000) 5000 [] with
  | Returned (ret, st) =>
      ret = 4096
      ∧ map (λ p, data_size (out_hdr p)) (s_out st) = [4096]
      ∧ bytes_transferred (s_out st) = 4096
  | _ => False
  end.
Proof. vm_compute. repeat split. Qed.

(** A send of 10000 bytes goes out as packets of 4096, 4096 and 1808 bytes. *)
Example send_three_packets :
  match hvsock_sendmsg Sample.pkt_len Sample.page Sample.min_pkt Sample.snd_buf
          (Sample.connected 5 9 3%nat)
          {| inbound := []; avl_write_bytes := 20000; sendpacket_status := [] |}
          (Sample.data_msg 0 10000) 10000 [] with
  | Returned (ret, st) =>
      ret = 10000
      ∧ map (λ p, data_size (out_hdr p)) (s_out st) = [4096; 4096; 1808]
      ∧ bytes_transferred (s_out st) = 10000
  | _ => False
  end.
Proof. vm_compute. repeat split. Qed.

(** With no room in the ring a non-blocking send returns EAGAIN, and a
    blocking one that a signal wakes returns the interruption: nothing was
    sent before. *)
Example send_without_room :
  hvsock_sendmsg Sample.pkt_len Sample.page Sample.min_pkt Sample.snd_buf
    (Sample.connected 5 9 3%nat) Sample.idle_channel
    (Sample.data_msg MSG_DONTWAIT 10) 10 []
  = Returned (- EAGAIN,
              Build_send_st (Sample.connected 5 9 3%nat) Sample.idle_channel
                (Sample.data_msg MSG_DONTWAIT 10) 10 0 [])
  ∧ hvsock_sendmsg Sample.pkt_len Sample.page Sample.min_pkt Sample.snd_buf
      (Sample.connected 5 9 3%nat) Sample.idle_channel
      (Sample.data_msg 0 10) 10 [Sample.quiet true]
    = Returned (- ERESTARTSYS,
                Build_send_st (Sample.connected 5 9 3%nat) Sample.idle_channel
                  (Sample.data_msg 0 10) 10 0 []).
Proof. split; vm_compute; reflexivity. Qed.


(** ** Three receives *)

(** A receive of 3 bytes pulls the packet of 5 and leaves the cursor on the
    last 2; a non-blocking receive of 10 bytes on the state it leaves
    returns these 2 rather than EAGAIN. *)
Example recv_partial_then_rest :
  match hvsock_recvmsg Sample.pkt_len Sample.page Sample.min_pkt Sample.rcv_buf
          (Sample.connected 5 9 3%nat) Sample.one_packet (Sample.room_msg 3)
          3 0 [] with
  | Returned (ret, st) =>
      ret = 3
      ∧ msg_data (r_msg st) = [1; 2; 3]
      ∧ data_len (recv (r_sk st)) = 2 ∧ data_offset (recv (r_sk st)) = 3
      ∧ inbound (r_ch st) = []
      ∧ match hvsock_recvmsg Sample.pkt_len Sample.page Sample.min_pkt
                Sample.rcv_buf (r_sk st) (r_ch st) (Sample.room_msg 10)
                10 MSG_DONTWAIT [] with
        | Returned (ret', st') =>
            ret' = 2
            ∧ msg_data (r_msg st') = [4; 5]
            ∧ data_len (recv (r_sk st')) = 0
        | _ => False
        end
  | _ => False
  end.
Proof. vm_compute. repeat split. Qed.

(** A packet that announces no payload is an I/O error; a blocking receive
    on an empty ring is still asleep when no wake-up is left. *)
Example recv_malformed_and_blocked :
  fst <$> match hvsock_recvmsg Sample.pkt_len Sample.page Sample.min_pkt
                  Sample.rcv_buf (Sample.connected 5 9 3%nat)
                  Sample.empty_packet (Sample.room_msg 10) 10 0 [] with
          | Returned r => Some r
          | _ => None
          end = Some (- EIO)
  ∧ hvsock_recvmsg Sample.pkt_len Sample.page Sample.min_pkt Sample.rcv_buf
      (Sample.connected 5 9 3%nat) Sample.idle_channel (Sample.room_msg 10)
      10 0 [] = InProgress.
Proof. split; vm_compute; reflexivity. Qed.

(** * Further properties of the code *)

(** ** Addresses, bind and getname *)

Lemma hvsock_addr_validate_ok addr :
  hvsock_addr_validate addr = 0
  ↔ ∃ a, addr = Some a ∧ shv_family a = AF_HYPERV ∧ reserved a = 0
         ∧ shv_vm_id a = NULL_UUID_LE.
Proof.
  unfold hvsock_addr_validate. split.
  - destruct addr as [a |]; [| discriminate].
    destruct (shv_family a) eqn:Ef; [| discriminate].
    destruct (reserved a =? 0) eqn:Er; [| discriminate].
    destruct (uuid_equals (shv_vm_id a) NULL_UUID_LE) eqn:Ev; [| discriminate].
    intros _. exists a. apply Z.eqb_eq in Er. apply uuid_equals_eq in Ev. auto.
  - intros (a & -> & -> & -> & ->). reflexivity.
Qed.

Lemma hvsock_addr_valid_init a :
  hvsock_addr_validate (Some a) = 0 → hvsock_addr_init (shv_service_id a) = a.
Proof.
  intros H. apply hvsock_addr_validate_ok in H.
  destruct H as (a' & [= <-] & Hf & Hr & Hv).
  destruct a as [f r v s]. cbn in *. subst. reflexivity.
Qed.

Lemma size_t_of_int_small z : 0 <= z < 2 ^ 31 → size_t_of_int z = z.
Proof. intros H. unfold size_t_of_int. apply Z.mod_small. lia. Qed.

Lemma hvsock_bind_valid sizeof_sockaddr_hv sk a addr_len gens w :
  0 <= addr_len < 2 ^ 31 → sizeof_sockaddr_hv <= addr_len →
  hvsock_addr_validate (Some a) = 0 →
  hvsock_bind sizeof_sockaddr_hv sk (Some a) addr_len gens w
  = __hvsock_bind sk a gens w.
Proof.
  intros Hlen Hsz Hv. unfold hvsock_bind, hvsock_addr_cast.
  rewrite size_t_of_int_small by exact Hlen.
  destruct (addr_len <? sizeof_sockaddr_hv) eqn:E; [apply Z.ltb_lt in E; lia |].
  rewrite Hv. reflexivity.
Qed.

Lemma hvsock_bind_invalid sizeof_sockaddr_hv sk addr addr_len gens w :
  0 <= addr_len < 2 ^ 31 →
  addr_len < sizeof_sockaddr_hv ∨ hvsock_addr_validate addr ≠ 0 →
  hvsock_bind sizeof_sockaddr_hv sk addr addr_len gens w
  = Returned (- EINVAL, w, gens).
Proof.
  intros Hlen Hbad. unfold hvsock_bind, hvsock_addr_cast.
  rewrite size_t_of_int_small by exact Hlen.
  destruct (addr_len <? sizeof_sockaddr_hv) eqn:E; [reflexivity |].
  apply Z.ltb_ge in E. destruct Hbad as [Hbad | Hbad]; [lia |].
  destruct (hvsock_addr_validate addr) eqn:Ev; [congruence | |];
    destruct addr; reflexivity.
Qed.

(** X1.  [hvsock_bind] checks the address before it touches anything: an
    address shorter than [struct sockaddr_hv], a NULL address, a family
    other than AF_HYPERV, a non-zero reserved field or a non-zero VM
    identifier all give EINVAL (the codes EFAULT and EAFNOSUPPORT of the
    address checks never reach the caller), the state and the identifier
    generator untouched; any other address is passed on to [__hvsock_bind]. *)
Theorem hvsock_bind_address_errors (sizeof_sockaddr_hv : Z) (sk : sk_id)
    (addr : option sockaddr_hv) (addr_len : Z) (gens : list uuid_le)
    (w : world) :
  0 <= addr_len < 2 ^ 31 →
  (addr_len < sizeof_sockaddr_hv ∨ addr = None
   ∨ (∃ a, addr = Some a
           ∧ (shv_family a ≠ AF_HYPERV ∨ reserved a ≠ 0
              ∨ shv_vm_id a ≠ NULL_UUID_LE)) →
   hvsock_bind sizeof_sockaddr_hv sk addr addr_len gens w
   = Returned (- EINVAL, w, gens))
  ∧ (∀ a, sizeof_sockaddr_hv <= addr_len → addr = Some a →
          shv_family a = AF_HYPERV → reserved a = 0 →
          shv_vm_id a = NULL_UUID_LE →
          hvsock_bind sizeof_sockaddr_hv sk addr addr_len gens w
          = __hvsock_bind sk a gens w).
Proof.
  intros Hlen. split.
  - intros Hbad. apply hvsock_bind_invalid; [exact Hlen |].
    destruct Hbad as [Hshort | [-> | (a & -> & Hbad)]].
    + left. exact Hshort.
    + right. discriminate.
    + right. intros Hv. apply hvsock_addr_validate_ok in Hv.
      destruct Hv as (a' & [= <-] & Hf & Hr & Hv). tauto.
  - intros a Hsz -> Hf Hr Hv. apply hvsock_bind_valid; [exact Hlen | exact Hsz |].
    apply hvsock_addr_validate_ok. eauto.
Qed.

Lemma hvsock_bind_address_errors_witness :
  hvsock_bind 36 1%nat (Some (Build_sockaddr_hv (AF_other 2) 0 0 7)) 36 [] Sample.w_bind
  = Returned (- EINVAL, Sample.w_bind, [])
  ∧ hvsock_bind 36 1%nat (Some (hvsock_addr_init 7)) 36 [] Sample.w_bind
    = __hvsock_bind 1%nat (hvsock_addr_init 7) [] Sample.w_bind.
Proof.
  pose proof (hvsock_bind_address_errors 36 1%nat
                (Some (Build_sockaddr_hv (AF_other 2) 0 0 7)) 36 []
                Sample.w_bind ltac:(lia)) as [H1 _].
  pose proof (hvsock_bind_address_errors 36 1%nat (Some (hvsock_addr_init 7))
                36 [] Sample.w_bind ltac:(lia)) as [_ H2].
  split.
  - apply H1. right. right. eexists. split; [reflexivity |].
    left. discriminate.
  - apply (H2 (hvsock_addr_init 7)); (lia || reflexivity).
Defined.

Lemma __hvsock_bind_commits sk a gens w w' gens' :
  __hvsock_bind sk a gens w = Returned (0, w', gens') →
  ∃ g, committed sk g w w' ∧ ¬ claimed w g
       ∧ (shv_service_id a ≠ SHV_SERVICE_ID_ANY → g = shv_service_id a)
       ∧ (shv_service_id a = SHV_SERVICE_ID_ANY → g ∈ gens).
Proof.
  unfold __hvsock_bind.
  destruct (socks w !! sk) as [s |]; [| discriminate].
  destruct (hvsock_addr_bound (local_addr s)); [discriminate |].
  destruct (sk_socket s) as [sock |]; [| discriminate].
  destruct (type sock =? SOCK_STREAM); [| discriminate].
  unfold __hvsock_do_bind.
  destruct (uuid_equals (shv_service_id a) SHV_SERVICE_ID_ANY) eqn:Eany.
  - pose proof (gen_unbound_spec w gens) as Hgen.
    destruct (gen_unbound w gens) as [[g gens1] | | |]; try discriminate.
    intros [= <- <-]. destruct Hgen as [Hfree (taken & -> & _)].
    exists g. split; [apply commit_bind_committed |]. split; [exact Hfree |].
    apply uuid_equals_eq in Eany. split; [congruence |].
    intros _. apply elem_of_app. right. apply list_elem_of_here.
  - destruct (__hvsock_find_bound_socket
                (hvsock_addr_init (shv_service_id a)) w) eqn:Ef;
      [discriminate |].
    intros [= <- <-]. exists (shv_service_id a).
    split; [apply commit_bind_committed |].
    split; [apply find_bound_unclaimed; exact Ef |].
    split; [reflexivity |].
    intros H. apply uuid_equals_eq in H. congruence.
Qed.

(** X2.  bind and getname round trip: after a successful [hvsock_bind],
    [hvsock_getname] for the local name returns a valid address whose
    service identifier no bound endpoint claimed before; for a concrete
    service identifier it is the very address passed to bind, for the
    wildcard it carries one of the identifiers the generator drew. *)
Theorem bind_getname_round_trip (sizeof_sockaddr_hv : Z) (sock : socket)
    (sk : sk_id) (a : sockaddr_hv) (addr_len : Z) (gens gens' : list uuid_le)
    (w w' : world) (s' : hvsock_sock) :
  0 <= addr_len < 2 ^ 31 →
  hvsock_bind sizeof_sockaddr_hv sk (Some a) addr_len gens w
  = Returned (0, w', gens') →
  socks w' !! sk = Some s' →
  ∃ a', hvsock_getname sock s' 0 = (0, Some a')
        ∧ hvsock_addr_validate (Some a') = 0
        ∧ ¬ claimed w (shv_service_id a')
        ∧ (shv_service_id a ≠ SHV_SERVICE_ID_ANY → a' = a)
        ∧ (shv_service_id a = SHV_SERVICE_ID_ANY → shv_service_id a' ∈ gens).
Proof.
  intros Hlen Hbind Hs'.
  assert (Hok : sizeof_sockaddr_hv <= addr_len
                ∧ hvsock_addr_validate (Some a) = 0).
  { destruct (decide (addr_len < sizeof_sockaddr_hv)) as [Hsh | Hsh].
    - rewrite hvsock_bind_invalid in Hbind by (auto || lia). discriminate.
    - split; [lia |].
      destruct (decide (hvsock_addr_validate (Some a) = 0)) as [Hv | Hv];
        [exact Hv |].
      rewrite hvsock_bind_invalid in Hbind by (auto || lia). discriminate. }
  destruct Hok as [Hsz Hv].
  rewrite hvsock_bind_valid in Hbind by assumption.
  apply __hvsock_bind_commits in Hbind.
  destruct Hbind as (g & Hcom & Hfree & Hconc & Hwild).
  destruct Hcom as (_ & _ & _ & Hcell & _).
  rewrite Hs' in Hcell.
  destruct (socks w !! sk) as [s |]; [| discriminate].
  cbn in Hcell. injection Hcell as ->.
  exists (hvsock_addr_init g). unfold hvsock_getname. cbn [Z.eqb negb].
  split; [reflexivity |]. split; [reflexivity |].
  split; [exact Hfree |]. split.
  - intros Hne. rewrite (Hconc Hne). apply hvsock_addr_valid_init. exact Hv.
  - exact Hwild.
Qed.

Lemma bind_getname_round_trip_witness :
  ∃ a', hvsock_getname (Sample.stream_socket SS_UNCONNECTED)
          (Sample.bound_sock 7) 0 = (0, Some a')
        ∧ hvsock_addr_validate (Some a') = 0
        ∧ ¬ claimed Sample.w_bind (shv_service_id a')
        ∧ (shv_service_id (hvsock_addr_init 7) ≠ SHV_SERVICE_ID_ANY
           → a' = hvsock_addr_init 7)
        ∧ (shv_service_id (hvsock_addr_init 7) = SHV_SERVICE_ID_ANY
           → shv_service_id a' ∈ @nil Z).
Proof.
  apply (bind_getname_round_trip 36 (Sample.stream_socket SS_UNCONNECTED)
           1%nat (hvsock_addr_init 7) 36 [] []
           Sample.w_bind
           (commit_bind 1%nat 7 Sample.w_bind)).
  - lia.
  - vm_compute. reflexivity.
  - vm_compute. reflexivity.
Defined.

Lemma __hvsock_bind_failure sk a gens w ret w' gens' :
  __hvsock_bind sk a gens w = Returned (ret, w', gens') → ret ≠ 0 →
  w' = w ∧ gens' = gens ∧ (ret = - EINVAL ∨ ret = - EADDRINUSE).
Proof.
  unfold __hvsock_bind.
  destruct (socks w !! sk) as [s |]; [| discriminate].
  destruct (hvsock_addr_bound (local_addr s)); [intros [= <- <- <-]; auto |].
  destruct (sk_socket s) as [sock |]; [| discriminate].
  destruct (type sock =? SOCK_STREAM); [| intros [= <- <- <-]; auto].
  unfold __hvsock_do_bind.
  destruct (uuid_equals (shv_service_id a) SHV_SERVICE_ID_ANY).
  - destruct (gen_unbound w gens) as [[g gens1] | | |]; try discriminate.
    intros [= <- <- <-] H. contradiction.
  - destruct (__hvsock_find_bound_socket _ w).
    + intros [= <- <- <-]. auto.
    + intros [= <- <- <-] H. contradiction.
Qed.

(** X3.  [hvsock_bind] keeps the bound list sound and fails atomically: when
    the service identifiers of the bound list are pairwise distinct and none
    is the wildcard, they still are after the call (the generator never
    yields the wildcard identifier); a call that fails returns EINVAL or
    EADDRINUSE and changes neither the state nor the generator. *)
Theorem hvsock_bind_keeps_bound_list (sizeof_sockaddr_hv : Z) (sk : sk_id)
    (addr : option sockaddr_hv) (addr_len ret : Z) (gens gens' : list uuid_le)
    (w w' : world) :
  0 <= addr_len < 2 ^ 31 →
  SHV_SERVICE_ID_ANY ∉ gens →
  bound_unique w → bound_addresses w →
  hvsock_bind sizeof_sockaddr_hv sk addr addr_len gens w
  = Returned (ret, w', gens') →
  bound_unique w' ∧ bound_addresses w'
  ∧ (ret ≠ 0 →
     w' = w ∧ gens' = gens ∧ (ret = - EINVAL ∨ ret = - EADDRINUSE)).
Proof.
  intros Hlen Hgen Hu Ha Hbind.
  destruct (decide (addr_len < sizeof_sockaddr_hv
                    ∨ hvsock_addr_validate addr ≠ 0)) as [Hbad | Hgood].
  - rewrite hvsock_bind_invalid in Hbind by assumption.
    injection Hbind as <- <- <-. repeat split; auto.
  - assert (Hsz : sizeof_sockaddr_hv <= addr_len) by lia.
    assert (Hv : hvsock_addr_validate addr = 0).
    { destruct (decide (hvsock_addr_validate addr = 0)); tauto. }
    destruct (proj1 (hvsock_addr_validate_ok addr) Hv) as (a & -> & _).
    rewrite hvsock_bind_valid in Hbind by assumption.
    destruct (__hvsock_bind_invariant sk a gens w ret w' gens' Hgen Hu Ha Hbind)
      as [Hu' Ha'].
    split; [exact Hu' |]. split; [exact Ha' |].
    intros Hret. eapply __hvsock_bind_failure; eauto.
Qed.

Lemma hvsock_bind_keeps_bound_list_witness :
  bound_unique Sample.w_bind ∧ bound_addresses Sample.w_bind
  ∧ (- EADDRINUSE ≠ 0 →
     Sample.w_bind = Sample.w_bind ∧ @nil Z = []
     ∧ (- EADDRINUSE = - EINVAL ∨ - EADDRINUSE = - EADDRINUSE)).
Proof.
  assert (Hu : bound_unique Sample.w_bind).
  { intros a b sa sb Ha Hb Hab.
    apply list_elem_of_singleton in Ha, Hb. congruence. }
  assert (Hb : bound_addresses Sample.w_bind).
  { intros id s Hid Hs. apply list_elem_of_singleton in Hid. subst id.
    injection Hs as <-. reflexivity. }
  apply (hvsock_bind_keeps_bound_list 36 1%nat (Some (hvsock_addr_init 5)) 36
           (- EADDRINUSE) [] [] Sample.w_bind Sample.w_bind).
  - lia.
  - apply not_elem_of_nil.
  - exact Hu.
  - exact Hb.
  - vm_compute. reflexivity.
Defined.



(** ** poll *)

Lemma has_bits_lor a b m : has_bits (Z.lor a b) m = has_bits a m || has_bits b m.
Proof.
  unfold has_bits. rewrite Z.land_lor_distr_l, <- negb_andb. f_equal.
  destruct (Z.land a m =? 0) eqn:Ea, (Z.land b m =? 0) eqn:Eb; cbn;
    rewrite ?Z.eqb_eq, ?Z.eqb_neq in *; rewrite ?Z.lor_eq_0_iff; tauto.
Qed.

Lemma has_bits_if (c : bool) m x B :
  has_bits (if c then Z.lor m x else m) B = has_bits m B || (c && has_bits x B).
Proof.
  destruct c; [apply has_bits_lor |]. cbn. rewrite orb_false_r. reflexivity.
Qed.

(** The bits of the mask [hvsock_poll] returns, one event at a time. *)
Lemma hvsock_poll_bits PKT PAGE MIN sk ch B :
  has_bits (hvsock_poll PKT PAGE MIN sk ch) B
  = (negb (sk_err sk =? 0) && has_bits POLLERR B)
    || (((sk_shutdown sk =? SHUTDOWN_MASK)
         || (has_bits (sk_shutdown sk) SEND_SHUTDOWN
             && has_bits (peer_shutdown sk) SEND_SHUTDOWN))
        && has_bits POLLHUP B)
    || (read_closed sk && has_bits POLLRDHUP B)
    || (((socket_state_eqb (sk_state sk) SS_LISTEN
          && negb (hvsock_is_accept_queue_empty sk))
         || poll_can_read PKT PAGE MIN sk ch
         || read_closed sk)
        && has_bits (Z.lor POLLIN POLLRDNORM) B)
    || ((negb (has_bits (sk_shutdown sk) SEND_SHUTDOWN)
         && (socket_state_eqb (sk_state sk) SS_UNCONNECTED
             || (socket_state_eqb (sk_state sk) SS_CONNECTED
                 && poll_can_write PKT PAGE MIN sk ch)))
        && has_bits (Z.lor POLLOUT POLLWRNORM) B).
Proof.
  assert (Hif : ∀ a b : bool, (if negb a && b then true else a) = a || b)
    by (intros [] []; reflexivity).
  assert (H0 : has_bits 0 B = false) by reflexivity.
  unfold hvsock_poll, poll_can_read, poll_can_write, read_closed,
    get_ringbuffer_rw_status.
  destruct (channel sk); cbv beta iota zeta; cbn [fst snd];
    rewrite !has_bits_if, ?Hif, H0; btauto.
Qed.

(** Rewrites [has_bits (hvsock_poll ..) B] for a constant [B] and evaluates
    the tests of the event constants against [B]. *)
Ltac poll_bit B :=
  rewrite (hvsock_poll_bits _ _ _ _ _ B);
  let v1 := eval vm_compute in (has_bits POLLERR B) in
  let v2 := eval vm_compute in (has_bits POLLHUP B) in
  let v3 := eval vm_compute in (has_bits POLLRDHUP B) in
  let v4 := eval vm_compute in (has_bits (Z.lor POLLIN POLLRDNORM) B) in
  let v5 := eval vm_compute in (has_bits (Z.lor POLLOUT POLLWRNORM) B) in
  change (has_bits POLLERR B) with v1;
  change (has_bits POLLHUP B) with v2;
  change (has_bits POLLRDHUP B) with v3;
  change (has_bits (Z.lor POLLIN POLLRDNORM) B) with v4;
  change (has_bits (Z.lor POLLOUT POLLWRNORM) B) with v5.

(** X5.  When [hvsock_poll] reports a socket writable.  POLLOUT is set
    exactly when local send is not shut down and the sock is either
    UNCONNECTED, or CONNECTED with a channel whose outbound ring has more
    room than a packet of one page; so it is never set after a local send
    shutdown, nor on a listening or connecting sock.  POLLWRNORM goes with
    POLLOUT, and no bit outside the seven events POLLIN, POLLOUT, POLLERR,
    POLLHUP, POLLRDNORM, POLLWRNORM and POLLRDHUP is ever set. *)
Theorem hvsock_poll_writable (HVSOCK_PKT_LEN : Z → Z)
    (PAGE_SIZE HVSOCK_MIN_PKT_LEN : Z) (sk : hvsock_sock) (ch : vmbus_channel) :
  let mask := hvsock_poll HVSOCK_PKT_LEN PAGE_SIZE HVSOCK_MIN_PKT_LEN sk ch in
  has_bits mask POLLOUT
  = negb (has_bits (sk_shutdown sk) SEND_SHUTDOWN)
    && (socket_state_eqb (sk_state sk) SS_UNCONNECTED
        || (socket_state_eqb (sk_state sk) SS_CONNECTED
            && poll_can_write HVSOCK_PKT_LEN PAGE_SIZE HVSOCK_MIN_PKT_LEN sk ch))
  ∧ has_bits mask POLLWRNORM = has_bits mask POLLOUT
  ∧ Z.land mask
      (Z.lnot (Z.lor POLLIN
                 (Z.lor POLLOUT
                    (Z.lor POLLERR
                       (Z.lor POLLHUP
                          (Z.lor POLLRDNORM (Z.lor POLLWRNORM POLLRDHUP)))))))
    = 0.
Proof.
  intros mask. subst mask. split; [| split].
  - poll_bit POLLOUT. btauto.
  - poll_bit POLLWRNORM. poll_bit POLLOUT. btauto.
  - match goal with |- Z.land _ ?B = 0 =>
      pose proof (hvsock_poll_bits HVSOCK_PKT_LEN PAGE_SIZE HVSOCK_MIN_PKT_LEN
                    sk ch B) as H;
      change (has_bits POLLERR B) with false in H;
      change (has_bits POLLHUP B) with false in H;
      change (has_bits POLLRDHUP B) with false in H;
      change (has_bits (Z.lor POLLIN POLLRDNORM) B) with false in H;
      change (has_bits (Z.lor POLLOUT POLLWRNORM) B) with false in H
    end.
    rewrite !andb_false_r in H. cbn [orb] in H.
    unfold has_bits in H. apply negb_false_iff, Z.eqb_eq in H. exact H.
Qed.

(** X6.  When [hvsock_poll] reports a socket readable.  POLLIN is set
    exactly when the sock listens with a connection queued, or it has a
    channel with a packet in the inbound ring or unread bytes of the pending
    packet, or the receive side is closed (local receive shutdown or peer
    send shutdown) - a closed receive side alone makes the socket readable,
    so that a reader gets the end of file.  POLLRDNORM goes with POLLIN, and
    POLLRDHUP is set exactly when the receive side is closed. *)
Theorem hvsock_poll_readable (HVSOCK_PKT_LEN : Z → Z)
    (PAGE_SIZE HVSOCK_MIN_PKT_LEN : Z) (sk : hvsock_sock) (ch : vmbus_channel) :
  let mask := hvsock_poll HVSOCK_PKT_LEN PAGE_SIZE HVSOCK_MIN_PKT_LEN sk ch in
  has_bits mask POLLIN
  = (socket_state_eqb (sk_state sk) SS_LISTEN
     && negb (hvsock_is_accept_queue_empty sk))
    || poll_can_read HVSOCK_PKT_LEN PAGE_SIZE HVSOCK_MIN_PKT_LEN sk ch
    || read_closed sk
  ∧ has_bits mask POLLRDNORM = has_bits mask POLLIN
  ∧ has_bits mask POLLRDHUP = read_closed sk.
Proof.
  intros mask. subst mask. split; [| split].
  - poll_bit POLLIN. btauto.
  - poll_bit POLLRDNORM. poll_bit POLLIN. btauto.
  - poll_bit POLLRDHUP. btauto.
Qed.

(** ** Rescission as the socket calls see it *)

Lemma close_connection_cell ch w sk s sock :
  __hvsock_find_connected_socket_by_channel ch w = Some sk →
  socks w !! sk = Some s → sk_socket s = Some sock →
  ∃ w',
    hvsock_close_connection ch w = Returned w'
    ∧ socks w' !! sk
      = Some (wake StateChange
                (set_peer_shutdown (Z.lor (peer_shutdown s) SHUTDOWN_MASK)
                   (set_sock_done true
                      (set_sk_state SS_UNCONNECTED
                         (set_sk_socket
                            (Some (set_state SS_UNCONNECTED sock)) s)))))
    ∧ (∀ j, j ≠ sk → socks w' !! j = socks w !! j)
    ∧ hvsock_bound_list w' = hvsock_bound_list w
    ∧ hvsock_connected_list w' = hvsock_connected_list w.
Proof.
  intros Hfind Hs Hsock.
  rewrite (close_connection_attached ch w sk s sock Hfind Hs Hsock).
  eexists. split; [reflexivity |]. world_norm.
  split; [apply list_lookup_insert_eq; eapply lookup_lt_Some; exact Hs |].
  split; [| split; reflexivity].
  intros j Hj. apply list_lookup_insert_ne. congruence.
Qed.

Lemma has_bits_lor_mask x b :
  has_bits SHUTDOWN_MASK b = true →
  has_bits (Z.lor x SHUTDOWN_MASK) b = true.
Proof. intros H. rewrite has_bits_lor, H. apply orb_true_r. Qed.

(** X7.  What poll reports once the host has rescinded the channel of a
    socket: the socket is readable (POLLIN, POLLRDNORM) and flagged POLLRDHUP
    whatever the rings hold; it is reported writable exactly when local send
    is not shut down (the sock is UNCONNECTED by then), and hung up (POLLHUP)
    exactly when local send is shut down. *)
Theorem poll_after_rescission (HVSOCK_PKT_LEN : Z → Z)
    (PAGE_SIZE HVSOCK_MIN_PKT_LEN : Z) (ch : channel_id) (w : world)
    (sk : sk_id) (s : hvsock_sock) (sock : socket) (c : vmbus_channel) :
  __hvsock_find_connected_socket_by_channel ch w = Some sk →
  socks w !! sk = Some s → sk_socket s = Some sock →
  ∃ w' s',
    hvsock_close_connection ch w = Returned w'
    ∧ socks w' !! sk = Some s'
    ∧ let mask :=
        hvsock_poll HVSOCK_PKT_LEN PAGE_SIZE HVSOCK_MIN_PKT_LEN s' c in
      has_bits mask POLLIN = true
      ∧ has_bits mask POLLRDNORM = true
      ∧ has_bits mask POLLRDHUP = true
      ∧ has_bits mask POLLOUT = negb (has_bits (sk_shutdown s) SEND_SHUTDOWN)
      ∧ has_bits mask POLLHUP = has_bits (sk_shutdown s) SEND_SHUTDOWN.
Proof.
  intros Hfind Hs Hsock.
  destruct (close_connection_cell ch w sk s sock Hfind Hs Hsock)
    as (w' & Hrun & Hcell & _).
  eexists w', _. split; [exact Hrun |]. split; [exact Hcell |].
  set (s' := wake _ _).
  assert (Hclosed : read_closed s' = true).
  { unfold read_closed.
    change (peer_shutdown s') with (Z.lor (peer_shutdown s) SHUTDOWN_MASK).
    rewrite has_bits_lor_mask by reflexivity. apply orb_true_r. }
  assert (Hpeer : has_bits (peer_shutdown s') SEND_SHUTDOWN = true).
  { change (peer_shutdown s') with (Z.lor (peer_shutdown s) SHUTDOWN_MASK).
    apply has_bits_lor_mask. reflexivity. }
  assert (Hst : sk_state s' = SS_UNCONNECTED) by reflexivity.
  assert (Hsd : sk_shutdown s' = sk_shutdown s) by reflexivity.
  cbv zeta. repeat split.
  - poll_bit POLLIN. rewrite Hclosed. btauto.
  - poll_bit POLLRDNORM. rewrite Hclosed. btauto.
  - poll_bit POLLRDHUP. rewrite Hclosed. btauto.
  - poll_bit POLLOUT. rewrite Hst, Hsd. cbn [socket_state_eqb]. btauto.
  - poll_bit POLLHUP. rewrite Hpeer, Hsd.
    destruct (sk_shutdown s =? SHUTDOWN_MASK) eqn:E.
    + apply Z.eqb_eq in E. rewrite E.
      change (has_bits SHUTDOWN_MASK SEND_SHUTDOWN) with true. btauto.
    + btauto.
Qed.

Lemma poll_after_rescission_witness :
  ∃ w' s',
    hvsock_close_connection 3%nat
      {| socks := [Sample.connected 5 9 3%nat]; hvsock_bound_list := [0%nat];
         hvsock_connected_list := [0%nat]; chan_calls := [] |}
    = Returned w'
    ∧ socks w' !! 0%nat = Some s'
    ∧ let mask :=
        hvsock_poll Sample.pkt_len Sample.page Sample.min_pkt s'
          Sample.one_packet in
      has_bits mask POLLIN = true
      ∧ has_bits mask POLLRDNORM = true
      ∧ has_bits mask POLLRDHUP = true
      ∧ has_bits mask POLLOUT
        = negb (has_bits (sk_shutdown (Sample.connected 5 9 3%nat))
                  SEND_SHUTDOWN)
      ∧ has_bits mask POLLHUP
        = has_bits (sk_shutdown (Sample.connected 5 9 3%nat)) SEND_SHUTDOWN.
Proof.
  apply (poll_after_rescission Sample.pkt_len Sample.page Sample.min_pkt 3%nat
           {| socks := [Sample.connected 5 9 3%nat];
              hvsock_bound_list := [0%nat];
              hvsock_connected_list := [0%nat]; chan_calls := [] |}
           0%nat (Sample.connected 5 9 3%nat)
           (Sample.stream_socket SS_CONNECTED) Sample.one_packet);
    reflexivity.
Defined.

(** X8.  What the I/O calls return once the host has rescinded the channel
    of a socket: every [hvsock_recvmsg] returns 0, the end of file, without
    touching the receive cursor or the ring (packets still in the ring are
    never delivered), and every [hvsock_sendmsg] of a non-zero length with
    valid flags and no destination fails with EPIPE, nothing handed to the
    ring. *)
Theorem io_after_rescission (HVSOCK_PKT_LEN : Z → Z)
    (PAGE_SIZE HVSOCK_MIN_PKT_LEN HVSOCK_SND_BUF_SZ HVSOCK_RCV_BUF_SZ : Z)
    (ch : channel_id) (w : world) (sk : sk_id) (s : hvsock_sock)
    (sock : socket) :
  __hvsock_find_connected_socket_by_channel ch w = Some sk →
  socks w !! sk = Some s → sk_socket s = Some sock →
  ∃ w' s',
    hvsock_close_connection ch w = Returned w'
    ∧ socks w' !! sk = Some s'
    ∧ (∀ c msg len flags sleeps,
         hvsock_recvmsg HVSOCK_PKT_LEN PAGE_SIZE HVSOCK_MIN_PKT_LEN
           HVSOCK_RCV_BUF_SZ s' c msg len flags sleeps
         = Returned (0, Build_recv_st s' c msg len 0))
    ∧ (∀ c msg len sleeps,
         len ≠ 0 → Z.land (msg_flags msg) (Z.lnot MSG_DONTWAIT) = 0 →
         msg_namelen msg = 0 →
         hvsock_sendmsg HVSOCK_PKT_LEN PAGE_SIZE HVSOCK_MIN_PKT_LEN
           HVSOCK_SND_BUF_SZ s' c msg len sleeps
         = Returned (- EPIPE, Build_send_st s' c msg len 0 [])).
Proof.
  intros Hfind Hs Hsock.
  destruct (close_connection_cell ch w sk s sock Hfind Hs Hsock)
    as (w' & Hrun & Hcell & _).
  eexists w', _. split; [exact Hrun |]. split; [exact Hcell |].
  set (s' := wake _ _).
  assert (Hst : sk_state s' = SS_UNCONNECTED) by reflexivity.
  assert (Hdone : sock_done s' = true) by reflexivity.
  assert (Hstop : send_stop s' = true).
  { unfold send_stop.
    change (peer_shutdown s') with (Z.lor (peer_shutdown s) SHUTDOWN_MASK).
    rewrite (has_bits_lor_mask _ RCV_SHUTDOWN) by reflexivity.
    apply orb_true_r. }
  split.
  - intros c msg len flags sleeps. unfold hvsock_recvmsg.
    rewrite Hst, Hdone. reflexivity.
  - intros c msg len sleeps Hlen Hflags Hname. unfold hvsock_sendmsg.
    apply Z.eqb_neq in Hlen. rewrite Hlen, Hflags, Hname, Hstop. reflexivity.
Qed.

Lemma io_after_rescission_witness :
  ∃ w' s',
    hvsock_close_connection 3%nat
      {| socks := [Sample.connected 5 9 3%nat]; hvsock_bound_list := [0%nat];
         hvsock_connected_list := [0%nat]; chan_calls := [] |}
    = Returned w'
    ∧ socks w' !! 0%nat = Some s'
    ∧ (∀ c msg len flags sleeps,
         hvsock_recvmsg Sample.pkt_len Sample.page Sample.min_pkt
           Sample.rcv_buf s' c msg len flags sleeps
         = Returned (0, Build_recv_st s' c msg len 0))
    ∧ (∀ c msg len sleeps,
         len ≠ 0 → Z.land (msg_flags msg) (Z.lnot MSG_DONTWAIT) = 0 →
         msg_namelen msg = 0 →
         hvsock_sendmsg Sample.pkt_len Sample.page Sample.min_pkt
           Sample.snd_buf s' c msg len sleeps
         = Returned (- EPIPE, Build_send_st s' c msg len 0 [])).
Proof.
  apply (io_after_rescission Sample.pkt_len Sample.page Sample.min_pkt
           Sample.snd_buf Sample.rcv_buf 3%nat
           {| socks := [Sample.connected 5 9 3%nat];
              hvsock_bound_list := [0%nat];
              hvsock_connected_list := [0%nat]; chan_calls := [] |}
           0%nat (Sample.connected 5 9 3%nat)
           (Sample.stream_socket SS_CONNECTED));
    reflexivity.
Defined.

(** ** The channel callback *)

Lemma hvsock_poll_wake PKT PAGE MIN k sk ch :
  hvsock_poll PKT PAGE MIN (wake k sk) ch = hvsock_poll PKT PAGE MIN sk ch.
Proof. reflexivity. Qed.

(** X9.  The channel callback and poll agree.  [hvsock_on_channel_cb] only
    appends wake-ups to the sock: data-ready exactly when the sock has a
    channel whose inbound ring holds a minimal packet, write-space exactly
    when it has a channel whose outbound ring has more room than a packet of
    one page.  A data-ready wake-up is never spurious for poll (POLLIN is
    then set), and a write-space wake-up finds POLLOUT set on a CONNECTED
    sock whose send side is not shut down. *)
Theorem channel_callback_agrees_with_poll (HVSOCK_PKT_LEN : Z → Z)
    (PAGE_SIZE HVSOCK_MIN_PKT_LEN : Z) (sk : hvsock_sock) (ch : vmbus_channel) :
  let sk' :=
    hvsock_on_channel_cb HVSOCK_PKT_LEN PAGE_SIZE HVSOCK_MIN_PKT_LEN sk ch in
  let mask := hvsock_poll HVSOCK_PKT_LEN PAGE_SIZE HVSOCK_MIN_PKT_LEN sk' ch in
  ∃ ks,
    sk' = set_sk_wq (sk_wq sk ++ ks) sk
    ∧ (DataReady ∈ ks
       ↔ channel sk ≠ None ∧ HVSOCK_MIN_PKT_LEN <= avl_read_bytes ch)
    ∧ (WriteSpace ∈ ks
       ↔ channel sk ≠ None ∧ HVSOCK_PKT_LEN PAGE_SIZE < avl_write_bytes ch)
    ∧ (DataReady ∈ ks → has_bits mask POLLIN = true)
    ∧ (WriteSpace ∈ ks → sk_state sk = SS_CONNECTED →
       has_bits (sk_shutdown sk) SEND_SHUTDOWN = false →
       has_bits mask POLLOUT = true).
Proof.
  intros sk' mask. subst mask sk'.
  unfold hvsock_on_channel_cb, get_ringbuffer_rw_status.
  destruct (channel sk) as [c |] eqn:Ech.
  - destruct (HVSOCK_MIN_PKT_LEN <=? avl_read_bytes ch) eqn:Er;
      destruct (HVSOCK_PKT_LEN PAGE_SIZE <? avl_write_bytes ch) eqn:Ew;
      rewrite ?Z.leb_le, ?Z.leb_gt, ?Z.ltb_lt, ?Z.ltb_ge in *;
      rewrite ?hvsock_poll_wake.
    + exists [DataReady; WriteSpace].
      split; [unfold wake; cbn; rewrite <- app_assoc; reflexivity |].
      split; [split; [intros _; split; [discriminate | exact Er]
                     | intros _; apply list_elem_of_here] |].
      split; [split; [intros _; split; [discriminate | exact Ew]
                     | intros _; apply list_elem_of_further, list_elem_of_here] |].
      split.
      * intros _. poll_bit POLLIN. unfold poll_can_read, get_ringbuffer_rw_status.
        rewrite Ech. cbn [fst]. apply Z.leb_le in Er. rewrite Er. btauto.
      * intros _ Hst Hsd. poll_bit POLLOUT.
        unfold poll_can_write, get_ringbuffer_rw_status.
        rewrite Ech, Hst, Hsd. cbn [snd socket_state_eqb].
        apply Z.ltb_lt in Ew. rewrite Ew. btauto.
    + exists [DataReady].
      split; [reflexivity |].
      split; [split; [intros _; split; [discriminate | exact Er]
                     | intros _; apply list_elem_of_here] |].
      split; [split; [intros H; apply list_elem_of_singleton in H; discriminate
                     | intros [_ H]; lia] |].
      split.
      * intros _. poll_bit POLLIN. unfold poll_can_read, get_ringbuffer_rw_status.
        rewrite Ech. cbn [fst]. apply Z.leb_le in Er. rewrite Er. btauto.
      * intros H. apply list_elem_of_singleton in H. discriminate.
    + exists [WriteSpace].
      split; [reflexivity |].
      split; [split; [intros H; apply list_elem_of_singleton in H; discriminate
                     | intros [_ H]; lia] |].
      split; [split; [intros _; split; [discriminate | exact Ew]
                     | intros _; apply list_elem_of_here] |].
      split.
      * intros H. apply list_elem_of_singleton in H. discriminate.
      * intros _ Hst Hsd. poll_bit POLLOUT.
        unfold poll_can_write, get_ringbuffer_rw_status.
        rewrite Ech, Hst, Hsd. cbn [snd socket_state_eqb].
        apply Z.ltb_lt in Ew. rewrite Ew. btauto.
    + exists [].
      split; [rewrite app_nil_r; destruct sk; reflexivity |].
      split; [split; [intros H; apply not_elem_of_nil in H; contradiction
                     | intros [_ H]; lia] |].
      split; [split; [intros H; apply not_elem_of_nil in H; contradiction
                     | intros [_ H]; lia] |].
      split; intros H; apply not_elem_of_nil in H; contradiction.
  - exists [].
    split; [rewrite app_nil_r; destruct sk; reflexivity |].
    split; [split; [intros H; apply not_elem_of_nil in H; contradiction
                   | intros [H _]; congruence] |].
    split; [split; [intros H; apply not_elem_of_nil in H; contradiction
                   | intros [H _]; congruence] |].
    split; intros H; apply not_elem_of_nil in H; contradiction.
Qed.

(** ** accept, once more *)

Lemma dequeue_accept_cells listener w l c rest :
  socks w !! listener = Some l → accept_queue l = c :: rest →
  ∃ w',
    hvsock_dequeue_accept listener w = (Some c, w')
    ∧ socks w' !! listener
      = Some (sock_put
                (set_sk_ack_backlog (u16 (sk_ack_backlog l - 1))
                   (set_accept_queue rest l)))
    ∧ (∀ j, j ≠ listener → socks w' !! j = socks w !! j)
    ∧ hvsock_bound_list w' = hvsock_bound_list w
    ∧ hvsock_connected_list w' = hvsock_connected_list w
    ∧ chan_calls w' = chan_calls w.
Proof.
  intros Hl Hq. unfold hvsock_dequeue_accept. rewrite Hl, Hq.
  eexists. split; [reflexivity |].
  split; [rewrite !lookup_upd_eq, Hl; reflexivity |].
  split; [| repeat split].
  intros j Hj. rewrite !lookup_upd_ne by congruence. reflexivity.
Qed.

Lemma accept_wait_head listener timeout sleeps w l c rest w' :
  socks w !! listener = Some l → accept_queue l = c :: rest →
  hvsock_dequeue_accept listener w = (Some c, w') →
  accept_wait listener timeout sleeps w = Returned (inl (Some c), w').
Proof.
  intros Hl Hq Hdq. destruct sleeps; cbn [accept_wait]; rewrite Hdq; reflexivity.
Qed.

(** A successful accept, cell by cell. *)
Lemma accept_head_cells sock listener newsock flags sleeps w l c rest s :
  socks w !! listener = Some l →
  type sock = SOCK_STREAM → sk_state l = SS_LISTEN → sk_err l = 0 →
  accept_queue l = c :: rest → c ≠ listener → socks w !! c = Some s →
  ∃ w',
    hvsock_accept sock listener newsock flags sleeps w = Returned (0, Some c, w')
    ∧ socks w' !! listener
      = Some (sock_put
                (set_sk_ack_backlog (u16 (sk_ack_backlog l - 1))
                   (set_accept_queue rest l)))
    ∧ socks w' !! c
      = Some (sock_put
                (set_sk_socket (Some (set_state SS_CONNECTED newsock)) s))
    ∧ (∀ j, j ≠ listener → j ≠ c → socks w' !! j = socks w !! j)
    ∧ hvsock_bound_list w' = hvsock_bound_list w
    ∧ hvsock_connected_list w' = hvsock_connected_list w.
Proof.
  intros Hl Hty Hst Herr Hq Hne Hs.
  destruct (dequeue_accept_cells listener w l c rest Hl Hq)
    as (w1 & Hdq & Hl1 & Hrest & Hb & Hc & _).
  unfold hvsock_accept. rewrite Hl, Hty, Hst. cbn [Z.eqb negb socket_state_eqb].
  rewrite (accept_wait_head listener _ sleeps w l c rest w1 Hl Hq Hdq), Hl1.
  change (sk_err (sock_put _)) with (sk_err l). rewrite Herr.
  cbn [Z.eqb negb].
  eexists. split; [reflexivity |].
  split; [rewrite !lookup_upd_ne by congruence; exact Hl1 |].
  split; [rewrite !lookup_upd_eq, (Hrest c Hne), Hs; reflexivity |].
  split; [| split; assumption].
  intros j Hj1 Hj2. rewrite !lookup_upd_ne by congruence. apply Hrest. exact Hj1.
Qed.

(** X10.  A listener is readable while a connection is queued.  On a
    listener without a channel whose receive side is not closed and whose
    queue is empty, poll does not report POLLIN; after a host's connection
    has been queued by [hvsock_open_connection] it does; and after
    [hvsock_accept] has taken that connection it no longer does. *)
Theorem listener_readable_while_queued (HVSOCK_PKT_LEN : Z → Z)
    (PAGE_SIZE HVSOCK_MIN_PKT_LEN : Z) (ch : channel_id)
    (instance service_id : uuid_le) (w : world) (sk : sk_id) (l : hvsock_sock)
    (sock newsock : socket) (flags : Z) (sleeps : list (sleep world))
    (c0 : vmbus_channel) :
  __hvsock_find_bound_socket (hvsock_addr_init instance) w = None →
  __hvsock_find_bound_socket (hvsock_addr_init service_id) w = Some sk →
  socks w !! sk = Some l →
  sk_state l = SS_LISTEN → sk_err l = 0 → accept_queue l = [] →
  sk_ack_backlog l < sk_max_ack_backlog l →
  type sock = SOCK_STREAM →
  channel l = None → read_closed l = false →
  let readable (x : hvsock_sock) :=
    has_bits (hvsock_poll HVSOCK_PKT_LEN PAGE_SIZE HVSOCK_MIN_PKT_LEN x c0)
      POLLIN in
  ∃ w1 w2 l1 l2 c,
    hvsock_open_connection ch instance service_id true 0 w = Returned (0, w1)
    ∧ socks w1 !! sk = Some l1
    ∧ hvsock_accept sock sk newsock flags sleeps w1 = Returned (0, Some c, w2)
    ∧ socks w2 !! sk = Some l2
    ∧ readable l = false ∧ readable l1 = true ∧ readable l2 = false.
Proof.
  intros Hno Hfind Hl Hst Herr Hq Hroom Hty Hch Hclosed readable.
  destruct (passive_open_accepts ch instance service_id w sk l
              Hno Hfind Hl Hst Hroom)
    as (w1 & child & l1 & Hopen & Hchild & Hl1 & Hlen & Hrest & Hconn & Hbound
        & Echild & El1).
  assert (Hlt : (sk < length (socks w))%nat) by (eapply lookup_lt_Some; eauto).
  assert (Hst1 : sk_state l1 = SS_LISTEN) by (subst l1; exact Hst).
  assert (Herr1 : sk_err l1 = 0) by (subst l1; exact Herr).
  assert (Hq1 : accept_queue l1 = [length (socks w)]).
  { subst l1. change (accept_queue l ++ [length (socks w)] = [length (socks w)]).
    rewrite Hq. reflexivity. }
  assert (Hne : length (socks w) ≠ sk) by lia.
  destruct (accept_head_cells sock sk newsock flags sleeps w1 l1
              (length (socks w)) [] child Hl1 Hty Hst1 Herr1 Hq1 Hne Hchild)
    as (w2 & Hacc & Hl2 & _).
  eexists w1, w2, l1, _, (length (socks w)).
  split; [exact Hopen |]. split; [exact Hl1 |]. split; [exact Hacc |].
  split; [exact Hl2 |].
  assert (Hcan : ∀ x, channel x = None →
            poll_can_read HVSOCK_PKT_LEN PAGE_SIZE HVSOCK_MIN_PKT_LEN x c0
            = false).
  { intros x Hx. unfold poll_can_read. rewrite Hx. reflexivity. }
  subst readable. cbv beta. repeat split.
  - poll_bit POLLIN. rewrite Hcan, Hclosed, Hst by exact Hch.
    unfold hvsock_is_accept_queue_empty. rewrite Hq.
    cbn [socket_state_eqb]. btauto.
  - poll_bit POLLIN. rewrite Hst1.
    unfold hvsock_is_accept_queue_empty. rewrite Hq1.
    cbn [socket_state_eqb]. btauto.
  - poll_bit POLLIN. rewrite Hcan by (subst l1; exact Hch).
    assert (Hc2 : ∀ x, read_closed (sock_put x) = read_closed x)
      by reflexivity.
    rewrite Hc2.
    change (read_closed (set_sk_ack_backlog (u16 (sk_ack_backlog l1 - 1))
                           (set_accept_queue [] l1)))
      with (read_closed l1).
    replace (read_closed l1) with (read_closed l) by (subst l1; reflexivity).
    rewrite Hclosed.
    change (hvsock_is_accept_queue_empty
              (sock_put (set_sk_ack_backlog (u16 (sk_ack_backlog l1 - 1))
                           (set_accept_queue [] l1))))
      with true.
    btauto.
Qed.

Lemma listener_readable_while_queued_witness :
  let readable (x : hvsock_sock) :=
    has_bits (hvsock_poll Sample.pkt_len Sample.page Sample.min_pkt x
                Sample.idle_channel) POLLIN in
  ∃ w1 w2 l1 l2 c,
    hvsock_open_connection 3%nat 5 9 true 0 Sample.w_listen = Returned (0, w1)
    ∧ socks w1 !! 0%nat = Some l1
    ∧ hvsock_accept (Sample.stream_socket SS_UNCONNECTED) 0%nat
        (Sample.stream_socket SS_UNCONNECTED) 0 [] w1
      = Returned (0, Some c, w2)
    ∧ socks w2 !! 0%nat = Some l2
    ∧ readable (Sample.listener 9 1 []) = false
    ∧ readable l1 = true ∧ readable l2 = false.
Proof.
  apply (listener_readable_while_queued Sample.pkt_len Sample.page
           Sample.min_pkt 3%nat 5 9 Sample.w_listen 0%nat
           (Sample.listener 9 1 [])
           (Sample.stream_socket SS_UNCONNECTED)
           (Sample.stream_socket SS_UNCONNECTED) 0 [] Sample.idle_channel);
    (reflexivity || (vm_compute; reflexivity)).
Defined.

(** X11.  accept on a listener that carries an error.  The call returns the
    negated error without sleeping; when a connection is queued it is taken
    off the queue all the same (backlog count decremented, the queue's
    reference dropped) and is not handed out: it stays on the connected
    list with no socket attached to it. *)
Theorem accept_on_listener_with_error (sock : socket) (listener : sk_id)
    (newsock : socket) (flags : Z) (sleeps : list (sleep world)) (w : world)
    (l : hvsock_sock) :
  socks w !! listener = Some l →
  type sock = SOCK_STREAM → sk_state l = SS_LISTEN → sk_err l ≠ 0 →
  (accept_queue l = [] →
   hvsock_accept sock listener newsock flags sleeps w
   = Returned (- sk_err l, None, w))
  ∧ (∀ c rest s,
       accept_queue l = c :: rest → c ≠ listener → socks w !! c = Some s →
       ∃ w',
         hvsock_accept sock listener newsock flags sleeps w
         = Returned (- sk_err l, None, w')
         ∧ socks w' !! listener
           = Some (sock_put
                     (set_sk_ack_backlog (u16 (sk_ack_backlog l - 1))
                        (set_accept_queue rest l)))
         ∧ socks w' !! c = Some (sock_put s)
         ∧ hvsock_connected_list w' = hvsock_connected_list w
         ∧ hvsock_bound_list w' = hvsock_bound_list w).
Proof.
  intros Hl Hty Hst Herr. apply Z.eqb_neq in Herr. split.
  - intros Hq. unfold hvsock_accept. rewrite Hl, Hty, Hst.
    cbn [Z.eqb negb socket_state_eqb].
    assert (Hwait : ∀ timeout,
              accept_wait listener timeout sleeps w = Returned (inl None, w)).
    { intros timeout. destruct sleeps as [| sl sleeps]; cbn [accept_wait];
        rewrite dequeue_empty by (intros x Hx; congruence);
        rewrite Hl, Herr; reflexivity. }
    rewrite Hwait, Hl, Herr. reflexivity.
  - intros c rest s Hq Hne Hs.
    destruct (dequeue_accept_cells listener w l c rest Hl Hq)
      as (w1 & Hdq & Hl1 & Hrest & Hb & Hc & _).
    unfold hvsock_accept. rewrite Hl, Hty, Hst.
    cbn [Z.eqb negb socket_state_eqb].
    rewrite (accept_wait_head listener _ sleeps w l c rest w1 Hl Hq Hdq), Hl1.
    change (sk_err (sock_put _)) with (sk_err l). rewrite Herr.
    cbn [negb].
    destruct (- sk_err l =? 0) eqn:E;
      [apply Z.eqb_eq in E; apply Z.eqb_neq in Herr; lia |].
    cbn [negb].
    eexists. split; [reflexivity |].
    split; [rewrite lookup_upd_ne by congruence; exact Hl1 |].
    split; [rewrite lookup_upd_eq, (Hrest c Hne), Hs; reflexivity |].
    split; assumption.
Qed.

Lemma accept_on_listener_with_error_witness :
  hvsock_accept (Sample.stream_socket SS_UNCONNECTED) 0%nat
    (Sample.stream_socket SS_UNCONNECTED) 0 []
    {| socks := [set_sk_err EIO (Sample.listener 9 1 [])];
       hvsock_bound_list := [0%nat]; hvsock_connected_list := [];
       chan_calls := [] |}
  = Returned (- sk_err (set_sk_err EIO (Sample.listener 9 1 [])), None,
              {| socks := [set_sk_err EIO (Sample.listener 9 1 [])];
                 hvsock_bound_list := [0%nat]; hvsock_connected_list := [];
                 chan_calls := [] |}).
Proof.
  apply (accept_on_listener_with_error (Sample.stream_socket SS_UNCONNECTED)
           0%nat (Sample.stream_socket SS_UNCONNECTED) 0 []
           {| socks := [set_sk_err EIO (Sample.listener 9 1 [])];
              hvsock_bound_list := [0%nat]; hvsock_connected_list := [];
              chan_calls := [] |}
           (set_sk_err EIO (Sample.listener 9 1 [])));
    (reflexivity || discriminate).
Defined.

(** X12.  A blocked accept is completed by the handshake.  While
    [hvsock_accept] sleeps on a listener with an empty queue, the channel
    offer of a host's connection is processed; when the sleep ends without
    a signal and with time left, the call returns the sock the handshake
    derived, attached to the new socket, with the connecting origin as its
    remote address. *)
Theorem blocked_accept_woken_by_handshake (ch : channel_id)
    (instance service_id : uuid_le) (w w1 : world) (sk : sk_id)
    (l : hvsock_sock) (sock newsock : socket) (flags : Z)
    (sl : sleep world) (sleeps : list (sleep world)) :
  __hvsock_find_bound_socket (hvsock_addr_init instance) w = None →
  __hvsock_find_bound_socket (hvsock_addr_init service_id) w = Some sk →
  socks w !! sk = Some l →
  sk_state l = SS_LISTEN → sk_err l = 0 → accept_queue l = [] →
  sk_ack_backlog l < sk_max_ack_backlog l →
  type sock = SOCK_STREAM →
  hvsock_open_connection ch instance service_id true 0 w = Returned (0, w1) →
  meanwhile sl w = w1 →
  signal_pending sl = false →
  schedule_timeout (sock_sndtimeo l (Z.land flags O_NONBLOCK)) (remaining sl)
  ≠ 0 →
  ∃ w2 s,
    hvsock_accept sock sk newsock flags (sl :: sleeps) w
    = Returned (0, Some (length (socks w)), w2)
    ∧ socks w2 !! length (socks w) = Some s
    ∧ sk_socket s = Some (set_state SS_CONNECTED newsock)
    ∧ sk_state s = SS_CONNECTED
    ∧ channel s = Some ch
    ∧ local_addr s = hvsock_addr_init service_id
    ∧ remote_addr s = hvsock_addr_init instance.
Proof.
  intros Hno Hfind Hl Hst Herr Hq Hroom Hty Hopen Hmean Hsig Htime.
  destruct (passive_open_accepts ch instance service_id w sk l
              Hno Hfind Hl Hst Hroom)
    as (w1' & child & l1 & Hopen' & Hchild & Hl1 & Hlen & Hrest & Hconn & Hbound
        & Echild & El1).
  rewrite Hopen in Hopen'. injection Hopen' as <-.
  assert (Hlt : (sk < length (socks w))%nat) by (eapply lookup_lt_Some; eauto).
  assert (Hst1 : sk_state l1 = SS_LISTEN) by (subst l1; exact Hst).
  assert (Herr1 : sk_err l1 = 0) by (subst l1; exact Herr).
  assert (Hq1 : accept_queue l1 = [length (socks w)]).
  { subst l1. change (accept_queue l ++ [length (socks w)] = [length (socks w)]).
    rewrite Hq. reflexivity. }
  assert (Hne : length (socks w) ≠ sk) by lia.
  destruct (dequeue_accept_cells sk w1 l1 (length (socks w)) [] Hl1 Hq1)
    as (wd & Hdq & Hld & Hrestd & _).
  unfold hvsock_accept. rewrite Hl, Hty, Hst.
  cbn [Z.eqb negb socket_state_eqb accept_wait].
  rewrite dequeue_empty by (intros s Hs; congruence).
  rewrite Hl, Herr, Hmean, Hsig. cbn [Z.eqb negb].
  apply Z.eqb_neq in Htime. rewrite Htime.
  rewrite (accept_wait_head sk _ sleeps w1 l1 _ [] wd Hl1 Hq1 Hdq), Hld.
  change (sk_err (sock_put _)) with (sk_err l1). rewrite Herr1.
  cbn [Z.eqb negb].
  eexists _, _. split; [reflexivity |].
  split; [rewrite !lookup_upd_eq, (Hrestd _ Hne), Hchild; reflexivity |].
  subst child. repeat split.
Qed.

Lemma blocked_accept_woken_by_handshake_witness :
  ∃ w2 s,
    hvsock_accept (Sample.stream_socket SS_UNCONNECTED) 0%nat
      (Sample.stream_socket SS_UNCONNECTED) 0
      [ {| meanwhile := λ w,
             match hvsock_open_connection 3%nat 5 9 true 0 w with
             | Returned (_, w') => w'
             | _ => w
             end;
           remaining := 10; signal_pending := false |} ]
      Sample.w_listen
    = Returned (0, Some (length (socks Sample.w_listen)), w2)
    ∧ socks w2 !! length (socks Sample.w_listen) = Some s
    ∧ sk_socket s
      = Some (set_state SS_CONNECTED (Sample.stream_socket SS_UNCONNECTED))
    ∧ sk_state s = SS_CONNECTED
    ∧ channel s = Some 3%nat
    ∧ local_addr s = hvsock_addr_init 9
    ∧ remote_addr s = hvsock_addr_init 5.
Proof.
  apply (blocked_accept_woken_by_handshake 3%nat 5 9 Sample.w_listen
           (match hvsock_open_connection 3%nat 5 9 true 0 Sample.w_listen with
            | Returned (_, w') => w'
            | _ => Sample.w_listen
            end)
           0%nat (Sample.listener 9 1 [])
           (Sample.stream_socket SS_UNCONNECTED)
           (Sample.stream_socket SS_UNCONNECTED) 0 _ []);
    try (vm_compute; reflexivity).
  vm_compute. discriminate.
Defined.

(** ** The backlog accounting of listeners *)

Lemma listeners_sound_from w w' :
  listeners_sound w →
  (∀ id l', socks w' !! id = Some l' → sk_state l' = SS_LISTEN →
            backlog_sound l'
            ∨ ∃ l, socks w !! id = Some l ∧ same_listening l l') →
  listeners_sound w'.
Proof.
  intros Hw H id l' Hl' Hst'.
  destruct (H id l' Hl' Hst') as [Hs | (l & Hl & Hst & Hq & Hb & Hm)];
    [exact Hs |].
  destruct (Hw id l Hl) as (H1 & H2 & H3); [congruence |].
  unfold backlog_sound. rewrite Hq, Hb, Hm. auto.
Qed.

Lemma listeners_sound_upd id f w :
  (∀ s, same_listening s (f s)) →
  listeners_sound w → listeners_sound (upd id f w).
Proof.
  intros Hf Hw. apply (listeners_sound_from w); [exact Hw |].
  intros j l' Hl' _. right. rewrite socks_upd in Hl'.
  destruct (decide (j = id)) as [-> | Hne].
  - rewrite list_lookup_alter_eq in Hl'.
    destruct (socks w !! id) as [l |]; [| discriminate].
    injection Hl' as <-. exists l. split; [reflexivity | apply Hf].
  - rewrite list_lookup_alter_ne in Hl' by congruence.
    exists l'. split; [exact Hl' |]. repeat split.
Qed.

Lemma listeners_sound_upd_state id f w :
  (∀ s, sk_state (f s) ≠ SS_LISTEN) →
  listeners_sound w → listeners_sound (upd id f w).
Proof.
  intros Hf Hw. apply (listeners_sound_from w); [exact Hw |].
  intros j l' Hl' Hst'. right. rewrite socks_upd in Hl'.
  destruct (decide (j = id)) as [-> | Hne].
  - rewrite list_lookup_alter_eq in Hl'.
    destruct (socks w !! id) as [l |]; [| discriminate].
    injection Hl' as <-. exfalso. exact (Hf l Hst').
  - rewrite list_lookup_alter_ne in Hl' by congruence.
    exists l'. split; [exact Hl' |]. repeat split.
Qed.

Lemma listeners_sound_socks w w' :
  socks w' = socks w → listeners_sound w → listeners_sound w'.
Proof. intros E Hw id l. rewrite E. apply Hw. Qed.

Lemma listeners_sound_alloc s w :
  sk_state s ≠ SS_LISTEN →
  listeners_sound w → listeners_sound (set_socks (socks w ++ [s]) w).
Proof.
  intros Hs Hw. apply (listeners_sound_from w); [exact Hw |].
  intros j l' Hl' Hst'. right. rewrite socks_set_socks in Hl'.
  apply lookup_app_Some in Hl'. destruct Hl' as [Hl' | [_ Hl']].
  - exists l'. split; [exact Hl' |]. repeat split.
  - apply list_lookup_singleton_Some in Hl'. destruct Hl' as [_ <-].
    contradiction.
Qed.

Lemma listeners_sound_enqueue listener c w :
  (∀ l, socks w !! listener = Some l → sk_state l = SS_LISTEN →
        sk_ack_backlog l < sk_max_ack_backlog l) →
  listeners_sound w → listeners_sound (hvsock_enqueue_accept listener c w).
Proof.
  intros Hroom Hw id l' Hl' Hst'. rewrite socks_enqueue_accept in Hl'.
  destruct (decide (id = listener)) as [-> | Hne].
  - rewrite !list_lookup_alter_eq in Hl'.
    destruct (decide (listener = c)) as [<- | Hc].
    + rewrite list_lookup_alter_eq in Hl'.
      destruct (socks w !! listener) as [l |] eqn:El; [| discriminate].
      injection Hl' as <-.
      destruct (Hw listener l El Hst') as (H1 & H2 & H3).
      specialize (Hroom l eq_refl Hst').
      unfold backlog_sound. cbn. rewrite length_app. cbn.
      rewrite u16_small by lia. lia.
    + rewrite list_lookup_alter_ne in Hl' by congruence.
      destruct (socks w !! listener) as [l |] eqn:El; [| discriminate].
      injection Hl' as <-.
      destruct (Hw listener l El Hst') as (H1 & H2 & H3).
      specialize (Hroom l eq_refl Hst').
      unfold backlog_sound. cbn. rewrite length_app. cbn.
      rewrite u16_small by lia. lia.
  - rewrite !list_lookup_alter_ne in Hl' by congruence.
    destruct (decide (id = c)) as [-> | Hc].
    + rewrite list_lookup_alter_eq in Hl'.
      destruct (socks w !! c) as [l |] eqn:El; [| discriminate].
      injection Hl' as <-. exact (Hw c l El Hst').
    + rewrite list_lookup_alter_ne in Hl' by congruence.
      exact (Hw id l' Hl' Hst').
Qed.

Lemma listeners_sound_call_chan c w :
  listeners_sound w → listeners_sound (call_chan c w).
Proof. apply listeners_sound_socks. reflexivity. Qed.

Lemma listeners_sound_insert_connected sk w :
  listeners_sound w → listeners_sound (hvsock_insert_connected sk w).
Proof.
  intros Hw. apply (listeners_sound_socks (upd sk sock_hold w));
    [reflexivity |].
  apply listeners_sound_upd; [intros s; repeat split | exact Hw].
Qed.

Ltac sound_chain :=
  repeat first
    [ assumption
    | apply listeners_sound_call_chan
    | apply listeners_sound_insert_connected
    | apply listeners_sound_upd; [intros ?; repeat split; reflexivity |]
    | apply listeners_sound_upd_state; [intros ? ?; discriminate |]
    | apply listeners_sound_alloc; [discriminate |] ].

Lemma open_connection_listeners_sound ch instance service_id alloc_ok open_ret
    w ret w' :
  listeners_sound w →
  hvsock_open_connection ch instance service_id alloc_ok open_ret w
  = Returned (ret, w') →
  listeners_sound w'.
Proof.
  intros Hw. unfold hvsock_open_connection.
  destruct (__hvsock_find_bound_socket (hvsock_addr_init instance) w)
    as [sk |].
  - destruct (socks w !! sk) as [s |] eqn:Es; [| discriminate].
    destruct (negb (socket_state_eqb (sk_state s) SS_CONNECTING));
      [intros [= <- <-]; exact Hw |].
    cbv zeta.
    destruct (negb (open_ret =? 0)).
    + intros [= <- <-]. sound_chain.
    + destruct (sk_socket s) as [sock |]; [| discriminate].
      intros [= <- <-]. sound_chain.
  - destruct (__hvsock_find_bound_socket (hvsock_addr_init service_id) w)
      as [sk |]; [| intros [= <- <-]; exact Hw].
    destruct (socks w !! sk) as [l |] eqn:El; [| discriminate].
    destruct (negb (socket_state_eqb (sk_state l) SS_LISTEN));
      [intros [= <- <-]; exact Hw |].
    destruct (sk_max_ack_backlog l <=? sk_ack_backlog l) eqn:Efull;
      [intros [= <- <-]; exact Hw |].
    destruct (negb alloc_ok); [intros [= <- <-]; exact Hw |].
    cbv zeta.
    destruct (negb (open_ret =? 0)).
    + intros [= <- <-]. sound_chain.
    + intros [= <- <-]. sound_chain.
      apply listeners_sound_enqueue; [| sound_chain].
      intros l0 Hl0 _. revert Hl0. world_norm.
      assert (Hlt : (sk < length (socks w))%nat)
        by (eapply lookup_lt_Some; eauto).
      assert (Hne : length (socks w) ≠ sk) by lia.
      alter_lookup. rewrite lookup_app_l by exact Hlt. rewrite El.
      intros [= <-]. apply Z.leb_gt in Efull. exact Efull.
Qed.

Lemma dequeue_listeners_sound listener w :
  listeners_sound w → listeners_sound (snd (hvsock_dequeue_accept listener w)).
Proof.
  intros Hw. unfold hvsock_dequeue_accept.
  destruct (socks w !! listener) as [l |] eqn:El; [| exact Hw].
  destruct (accept_queue l) as [| c rest] eqn:Eq; [exact Hw |].
  cbn [snd]. intros id l' Hl' Hst'. revert Hl'. world_norm.
  destruct (decide (id = listener)) as [-> | Hne]; alter_lookup.
  - rewrite El. intros [= <-].
    destruct (Hw listener l El Hst') as (H1 & H2 & H3).
    rewrite Eq in H1. cbn [length] in H1.
    unfold backlog_sound. cbn. rewrite u16_small by lia. lia.
  - intros Hl'. exact (Hw id l' Hl' Hst').
Qed.

Lemma accept_wait_listeners_sound listener sleeps : ∀ timeout w r w',
  listeners_sound w →
  Forall (λ sl, ∀ w0, listeners_sound w0 → listeners_sound (meanwhile sl w0))
    sleeps →
  accept_wait listener timeout sleeps w = Returned (r, w') →
  listeners_sound w'.
Proof.
  induction sleeps as [| sl sleeps IH]; intros timeout w r w' Hw Hsl;
    cbn [accept_wait];
    pose proof (dequeue_listeners_sound listener w Hw) as Hdq;
    destruct (hvsock_dequeue_accept listener w) as [[c |] w1];
    cbn [snd] in Hdq; try (intros [= <- <-]; exact Hdq).
  - destruct (socks w1 !! listener) as [l |]; [| discriminate].
    destruct (negb (sk_err l =? 0)); [intros [= <- <-]; exact Hdq |].
    discriminate.
  - destruct (socks w1 !! listener) as [l |]; [| discriminate].
    destruct (negb (sk_err l =? 0)); [intros [= <- <-]; exact Hdq |].
    apply Forall_cons in Hsl. destruct Hsl as [Hsl1 Hsl].
    cbv zeta.
    destruct (signal_pending sl); [intros [= <- <-]; auto |].
    destruct (_ =? 0); [intros [= <- <-]; auto |].
    apply IH; auto.
Qed.

Lemma accept_listeners_sound sock listener newsock flags sleeps w ret c w' :
  listeners_sound w →
  Forall (λ sl, ∀ w0, listeners_sound w0 → listeners_sound (meanwhile sl w0))
    sleeps →
  hvsock_accept sock listener newsock flags sleeps w = Returned (ret, c, w') →
  listeners_sound w'.
Proof.
  intros Hw Hsl. unfold hvsock_accept.
  destruct (socks w !! listener) as [l |]; [| discriminate].
  destruct (negb (type sock =? SOCK_STREAM)); [intros [= <- <- <-]; exact Hw |].
  destruct (negb (socket_state_eqb (sk_state l) SS_LISTEN));
    [intros [= <- <- <-]; exact Hw |].
  cbv zeta.
  destruct (accept_wait listener _ sleeps w) as [[[conn | r] w1] | | |] eqn:Ew;
    try discriminate;
    pose proof (accept_wait_listeners_sound listener sleeps _ w _ w1 Hw Hsl Ew)
      as Hw1.
  - destruct (socks w1 !! listener) as [l1 |]; [| discriminate].
    destruct conn as [c1 |].
    + destruct (negb (_ =? 0)); intros [= <- <- <-]; sound_chain.
    + intros [= <- <- <-]. exact Hw1.
  - intros [= <- <- <-]. exact Hw1.
Qed.

(** X13.  The backlog accounting of listeners is an invariant of the
    handshake and of accept.  When every listening sock has a backlog count
    equal to the length of its accept queue and at most its limit (at most
    128), this still holds after [hvsock_open_connection], whatever it
    returns, and after [hvsock_accept], whatever it returns, provided the
    contexts that run while accept sleeps keep it too.  In particular a
    listener never has more connections queued than its limit. *)
Theorem backlog_accounting_preserved (w : world) :
  listeners_sound w →
  (∀ ch instance service_id alloc_ok open_ret ret w',
     hvsock_open_connection ch instance service_id alloc_ok open_ret w
     = Returned (ret, w') →
     listeners_sound w')
  ∧ (∀ sock listener newsock flags sleeps ret c w',
       Forall (λ sl, ∀ w0, listeners_sound w0 →
                           listeners_sound (meanwhile sl w0)) sleeps →
       hvsock_accept sock listener newsock flags sleeps w
       = Returned (ret, c, w') →
       listeners_sound w').
Proof.
  intros Hw. split.
  - intros ch instance service_id alloc_ok open_ret ret w'.
    apply open_connection_listeners_sound. exact Hw.
  - intros sock listener newsock flags sleeps ret c w' Hsl.
    apply accept_listeners_sound; assumption.
Qed.

Lemma backlog_accounting_preserved_witness :
  listeners_sound Sample.w_listen
  ∧ ∀ ret w',
      hvsock_open_connection 3%nat 5 9 true 0 Sample.w_listen
      = Returned (ret, w') →
      listeners_sound w'.
Proof.
  assert (Hw : listeners_sound Sample.w_listen).
  { intros id l Hl _. destruct id as [| id]; [| discriminate Hl].
    injection Hl as <-. unfold backlog_sound. cbn. lia. }
  split; [exact Hw |].
  intros ret w'.
  apply (proj1 (backlog_accounting_preserved Sample.w_listen Hw)).
Defined.



(** ** release and the reference counts *)

Lemma release_prelude_cell sk w s :
  socks w !! sk = Some s →
  ∃ s', socks (release_prelude sk w) !! sk = Some s'
        ∧ released (links sk w) s s'.
Proof.
  intros Hs. unfold release_prelude, links.
  assert (Hc : ∀ w0, hvsock_connected_list w0 = hvsock_connected_list w →
                __hvsock_in_connected_list sk w0
                = __hvsock_in_connected_list sk w).
  { intros w0 E. unfold __hvsock_in_connected_list. rewrite E. reflexivity. }
  destruct (__hvsock_in_bound_list sk w);
    [rewrite (Hc (__hvsock_remove_bound sk w)) by reflexivity |];
    destruct (__hvsock_in_connected_list sk w);
    unfold __hvsock_remove_bound, __hvsock_remove_connected;
    rewrite !lookup_upd_eq;
    repeat (first [rewrite bound_upd | rewrite connected_upd]);
    change (socks (set_bound_list ?l ?w0)) with (socks w0);
    change (socks (set_connected_list ?l ?w0)) with (socks w0);
    rewrite ?lookup_upd_eq;
    change (socks (set_bound_list ?l ?w0)) with (socks w0);
    rewrite Hs; cbn [fmap option_fmap option_map];
    (eexists; split; [reflexivity |]);
    unfold released; cbn; repeat split; lia.
Qed.

Lemma release_leaf_cell fuel sk w s :
  socks w !! sk = Some s → accept_queue s = [] →
  ∃ w' s',
    __hvsock_release (S (S fuel)) sk w = Returned w'
    ∧ socks w' !! sk = Some s'
    ∧ released (links sk w + 1) s s'
    ∧ (∀ j, j ≠ sk → socks w' !! j = socks w !! j)
    ∧ hvsock_bound_list w' = list_del sk (hvsock_bound_list w)
    ∧ hvsock_connected_list w' = list_del sk (hvsock_connected_list w).
Proof.
  intros Hs Hq.
  rewrite release_leaf by (intros s0 Hs0; congruence).
  destruct (release_prelude_cell sk w s Hs) as (s1 & Hs1 & Hrel).
  destruct (release_prelude_lists sk w) as [Hb Hc].
  eexists _, _. split; [reflexivity |].
  split; [rewrite lookup_upd_eq, Hs1; reflexivity |].
  split.
  { destruct Hrel as (H1 & H2 & H3 & H4 & H5 & H6).
    unfold released. cbn. repeat split; try assumption. lia. }
  split; [| split; assumption].
  intros j Hj. rewrite lookup_upd_ne by congruence.
  apply release_prelude_cells. exact Hj.
Qed.

Lemma links_list_del c x w w' :
  x ≠ c →
  hvsock_bound_list w' = list_del c (hvsock_bound_list w) →
  hvsock_connected_list w' = list_del c (hvsock_connected_list w) →
  links x w' = links x w.
Proof.
  intros Hne Hb Hc. unfold links, __hvsock_in_bound_list,
    __hvsock_in_connected_list. rewrite Hb, Hc.
  assert (H : ∀ l, bool_decide (x ∈ list_del c l) = bool_decide (x ∈ l)).
  { intros l. apply bool_decide_ext. rewrite elem_of_list_del. tauto. }
  rewrite !H. reflexivity.
Qed.

Lemma links_same_lists x w w' :
  hvsock_bound_list w' = hvsock_bound_list w →
  hvsock_connected_list w' = hvsock_connected_list w →
  links x w' = links x w.
Proof.
  intros Hb Hc. unfold links, __hvsock_in_bound_list,
    __hvsock_in_connected_list. rewrite Hb, Hc. reflexivity.
Qed.

Lemma release_pending_cells q : ∀ sk w l,
  socks w !! sk = Some l → accept_queue l = q → NoDup q →
  (∀ c, c ∈ q → c ≠ sk ∧ ∃ s, socks w !! c = Some s ∧ accept_queue s = []) →
  ∃ w' l',
    release_pending (length q + 2) sk w = Returned w'
    ∧ socks w' !! sk = Some l'
    ∧ accept_queue l' = []
    ∧ sk_refcnt l' = sk_refcnt l - Z.of_nat (length q) - 1
    ∧ sk_socket l' = sk_socket l ∧ sk_shutdown l' = sk_shutdown l
    ∧ sock_dead l' = sock_dead l
    ∧ (∀ c s, c ∈ q → socks w !! c = Some s →
         ∃ s', socks w' !! c = Some s' ∧ released (links c w + 2) s s')
    ∧ (∀ j, j ≠ sk → j ∉ q → socks w' !! j = socks w !! j)
    ∧ (∀ x, x ∈ hvsock_bound_list w' ↔ x ∈ hvsock_bound_list w ∧ x ∉ q)
    ∧ (∀ x, x ∈ hvsock_connected_list w'
            ↔ x ∈ hvsock_connected_list w ∧ x ∉ q).
Proof.
  induction q as [| c rest IH]; intros sk w l Hl Hq Hnd Hkids.
  - cbn [length Nat.add release_pending].
    rewrite dequeue_empty by (intros s Hs; congruence).
    eexists _, _. split; [reflexivity |].
    split; [rewrite lookup_upd_eq, Hl; reflexivity |].
    split; [exact Hq |]. split; [cbn; lia |].
    split; [reflexivity |]. split; [reflexivity |]. split; [reflexivity |].
    split; [intros c s Hc; apply not_elem_of_nil in Hc; contradiction |].
    split; [intros j Hj _; rewrite lookup_upd_ne by congruence; reflexivity |].
    split; intros x; rewrite ?bound_upd, ?connected_upd;
      (split; [intros H; split; [exact H | apply not_elem_of_nil] | tauto]).
  - apply NoDup_cons in Hnd. destruct Hnd as [Hcrest Hnd].
    destruct (Hkids c (list_elem_of_here _ _)) as [Hcsk (s & Hs & Hsq)].
    destruct (dequeue_accept_cells sk w l c rest Hl Hq)
      as (w1 & Hdq & Hl1 & Hrest1 & Hb1 & Hc1 & _).
    cbn [length Nat.add release_pending]. rewrite Hdq.
    replace (length rest + 2)%nat with (S (S (length rest))) by lia.
    assert (Hs1 : socks w1 !! c = Some s) by (rewrite Hrest1; assumption).
    destruct (release_leaf_cell (length rest) c w1 s Hs1 Hsq)
      as (w2 & s2 & Hrel & Hs2 & Hreleased & Hrest2 & Hb2 & Hc2).
    rewrite Hrel.
    replace (S (S (length rest))) with (length rest + 2)%nat by lia.
    set (w3 := upd c sock_put w2).
    set (l1 := sock_put _) in Hl1.
    assert (Hl3 : socks w3 !! sk = Some l1).
    { unfold w3. rewrite lookup_upd_ne by congruence.
      rewrite Hrest2 by congruence. exact Hl1. }
    assert (Hkids3 : ∀ c', c' ∈ rest →
              c' ≠ sk ∧ ∃ s', socks w3 !! c' = Some s' ∧ accept_queue s' = []).
    { intros c' Hc'.
      destruct (Hkids c' (list_elem_of_further _ _ _ Hc'))
        as [Hne (s' & Hs' & Hq')].
      split; [exact Hne |]. exists s'. split; [| exact Hq'].
      assert (c' ≠ c) by (intros ->; contradiction).
      unfold w3. rewrite lookup_upd_ne by congruence.
      rewrite Hrest2, Hrest1 by congruence. exact Hs'. }
    destruct (IH sk w3 l1 Hl3 eq_refl Hnd Hkids3)
      as (w' & l' & Hrun & Hl' & Hq' & Hcnt & Hsock & Hsd & Hdead & Hch
          & Hother & Hbl & Hcl).
    exists w', l'. split; [exact Hrun |]. split; [exact Hl' |].
    split; [exact Hq' |].
    split.
    { rewrite Hcnt. change (sk_refcnt l1) with (sk_refcnt l - 1).
      cbn [length]. lia. }
    split; [rewrite Hsock; reflexivity |].
    split; [rewrite Hsd; reflexivity |].
    split; [rewrite Hdead; reflexivity |].
    split.
    { intros c' s' Hc' Hs'. apply elem_of_cons in Hc'.
      destruct Hc' as [-> | Hc'].
      - rewrite Hs in Hs'. injection Hs' as <-.
        rewrite (Hother c Hcsk Hcrest).
        unfold w3. rewrite lookup_upd_eq, Hs2. cbn.
        eexists. split; [reflexivity |].
        rewrite (links_same_lists c w w1 Hb1 Hc1) in Hreleased.
        destruct Hreleased as (H1 & H2 & H3 & H4 & H5 & H6).
        unfold released. cbn. repeat split; try assumption. lia.
      - assert (Hne : c' ≠ c) by (intros ->; contradiction).
        assert (Hne2 : c' ≠ sk) by (apply Hkids, list_elem_of_further, Hc').
        assert (Hs3 : socks w3 !! c' = Some s').
        { unfold w3. rewrite lookup_upd_ne by congruence.
          rewrite Hrest2, Hrest1 by congruence. exact Hs'. }
        destruct (Hch c' s' Hc' Hs3) as (s'' & Hs'' & Hrel'').
        exists s''. split; [exact Hs'' |].
        assert (El : links c' w3 = links c' w).
        { rewrite (links_list_del c c' w1 w3 Hne); [| exact Hb2 | exact Hc2].
          apply links_same_lists; assumption. }
        rewrite El in Hrel''. exact Hrel''. }
    split.
    { intros j Hj1 Hj2. apply not_elem_of_cons in Hj2. destruct Hj2 as [Hjc Hj2].
      rewrite (Hother j Hj1 Hj2). unfold w3.
      rewrite lookup_upd_ne by congruence.
      rewrite Hrest2, Hrest1 by congruence. reflexivity. }
    split; intros x; [rewrite Hbl | rewrite Hcl]; unfold w3;
      rewrite ?bound_upd, ?connected_upd, ?Hb2, ?Hc2, ?Hb1, ?Hc1,
        elem_of_list_del, not_elem_of_cons; tauto.
Qed.

(** X15.  What [hvsock_release] does to a sock nothing is queued on: the
    call returns 0 with the socket FREE and detached; the sock has left the
    bound and the connected list, is orphaned, dead and shut down both ways,
    and has lost one reference for each list it was on plus the one of its
    socket; no other sock changes.  A socket without a sock (an accept that
    was interrupted) is only marked FREE. *)
Theorem hvsock_release_drops_references (sock : socket) (sk : sk_id)
    (w : world) (s : hvsock_sock) :
  socks w !! sk = Some s → accept_queue s = [] →
  (∃ w' s',
     hvsock_release 2 sock (Some sk) w
     = Returned (0, set_state SS_FREE sock, None, w')
     ∧ socks w' !! sk = Some s'
     ∧ released (links sk w + 1) s s'
     ∧ (sk ∉ hvsock_bound_list w') ∧ (sk ∉ hvsock_connected_list w')
     ∧ (∀ j, j ≠ sk → socks w' !! j = socks w !! j))
  ∧ hvsock_release 2 sock None w = Returned (0, set_state SS_FREE sock, None, w).
Proof.
  intros Hs Hq. split; [| reflexivity].
  destruct (release_leaf_cell 0 sk w s Hs Hq)
    as (w' & s' & Hrun & Hs' & Hrel & Hrest & Hb & Hc).
  exists w', s'. unfold hvsock_release. rewrite Hrun.
  split; [reflexivity |]. split; [exact Hs' |]. split; [exact Hrel |].
  split; [rewrite Hb, elem_of_list_del; tauto |].
  split; [rewrite Hc, elem_of_list_del; tauto |].
  exact Hrest.
Qed.

Lemma hvsock_release_drops_references_witness :
  (∃ w' s',
     hvsock_release 2 (Sample.stream_socket SS_UNCONNECTED) (Some 0%nat)
       Sample.w_bind
     = Returned (0, set_state SS_FREE (Sample.stream_socket SS_UNCONNECTED),
                 None, w')
     ∧ socks w' !! 0%nat = Some s'
     ∧ released (links 0%nat Sample.w_bind + 1) (Sample.bound_sock 5) s'
     ∧ (0%nat ∉ hvsock_bound_list w') ∧ (0%nat ∉ hvsock_connected_list w')
     ∧ (∀ j, j ≠ 0%nat → socks w' !! j = socks Sample.w_bind !! j))
  ∧ hvsock_release 2 (Sample.stream_socket SS_UNCONNECTED) None Sample.w_bind
    = Returned (0, set_state SS_FREE (Sample.stream_socket SS_UNCONNECTED),
                None, Sample.w_bind).
Proof.
  apply (hvsock_release_drops_references
           (Sample.stream_socket SS_UNCONNECTED) 0%nat Sample.w_bind
           (Sample.bound_sock 5)); reflexivity.
Defined.

(** X16.  The references of a connection balance.  The sock a host's
    connection derives holds three references once queued (its own, the
    connected list's and the accept queue's); [hvsock_accept] drops the
    queue's, and the [hvsock_release] of the accepted socket drops the other
    two, so that the count ends at zero with the sock off both lists.  The
    listener's count is the same after the connection was queued and
    accepted as before. *)
Theorem connection_references_balance (ch : channel_id)
    (instance service_id : uuid_le) (w : world) (sk : sk_id) (l : hvsock_sock)
    (sock newsock : socket) (flags : Z) (sleeps : list (sleep world)) :
  __hvsock_find_bound_socket (hvsock_addr_init instance) w = None →
  __hvsock_find_bound_socket (hvsock_addr_init service_id) w = Some sk →
  socks w !! sk = Some l →
  sk_state l = SS_LISTEN → sk_err l = 0 → accept_queue l = [] →
  sk_ack_backlog l < sk_max_ack_backlog l →
  type sock = SOCK_STREAM →
  lists_allocated w →
  ∃ w1 w2 w3 c s1 s2 s3 l2,
    hvsock_open_connection ch instance service_id true 0 w = Returned (0, w1)
    ∧ socks w1 !! c = Some s1 ∧ sk_refcnt s1 = 3
    ∧ hvsock_accept sock sk newsock flags sleeps w1 = Returned (0, Some c, w2)
    ∧ socks w2 !! c = Some s2 ∧ sk_refcnt s2 = 2
    ∧ socks w2 !! sk = Some l2 ∧ sk_refcnt l2 = sk_refcnt l
    ∧ hvsock_release 2 (set_state SS_CONNECTED newsock) (Some c) w2
      = Returned (0, set_state SS_FREE (set_state SS_CONNECTED newsock), None,
                  w3)
    ∧ socks w3 !! c = Some s3 ∧ sk_refcnt s3 = 0
    ∧ (c ∉ hvsock_bound_list w3) ∧ (c ∉ hvsock_connected_list w3).
Proof.
  intros Hno Hfind Hl Hst Herr Hq Hroom Hty [Halloc _].
  destruct (passive_open_accepts ch instance service_id w sk l
              Hno Hfind Hl Hst Hroom)
    as (w1 & child & l1 & Hopen & Hchild & Hl1 & Hlen & Hrest & Hconn & Hbound
        & Echild & El1).
  assert (Hlt : (sk < length (socks w))%nat) by (eapply lookup_lt_Some; eauto).
  assert (Hst1 : sk_state l1 = SS_LISTEN) by (subst l1; exact Hst).
  assert (Herr1 : sk_err l1 = 0) by (subst l1; exact Herr).
  assert (Hq1 : accept_queue l1 = [length (socks w)]).
  { subst l1. change (accept_queue l ++ [length (socks w)] = [length (socks w)]).
    rewrite Hq. reflexivity. }
  assert (Hne : length (socks w) ≠ sk) by lia.
  destruct (accept_head_cells sock sk newsock flags sleeps w1 l1
              (length (socks w)) [] child Hl1 Hty Hst1 Herr1 Hq1 Hne Hchild)
    as (w2 & Hacc & Hl2 & Hc2 & _ & Hb2 & Hcn2).
  set (s2 := sock_put _) in Hc2.
  assert (Hq2 : accept_queue s2 = []) by (subst s2 child; reflexivity).
  destruct (release_leaf_cell 0 (length (socks w)) w2 s2 Hc2 Hq2)
    as (w3 & s3 & Hrun & Hs3 & Hrel & _ & Hb3 & Hc3).
  assert (Hlinks : links (length (socks w)) w2 = 1).
  { unfold links, __hvsock_in_bound_list, __hvsock_in_connected_list.
    rewrite Hb2, Hbound, Hcn2, Hconn.
    rewrite bool_decide_eq_false_2.
    - rewrite bool_decide_eq_true_2 by apply list_elem_of_here. reflexivity.
    - intros Hin. apply Halloc in Hin. lia. }
  eexists w1, w2, w3, (length (socks w)), child, s2, s3, _.
  split; [exact Hopen |]. split; [exact Hchild |].
  split; [subst child; reflexivity |].
  split; [exact Hacc |]. split; [exact Hc2 |].
  split; [subst s2 child; reflexivity |].
  split; [exact Hl2 |].
  split; [subst l1; cbn; lia |].
  split; [unfold hvsock_release; rewrite Hrun; reflexivity |].
  split; [exact Hs3 |].
  split.
  { destruct Hrel as [Hcnt _]. rewrite Hcnt, Hlinks.
    subst s2 child. cbn. reflexivity. }
  split; [rewrite Hb3, elem_of_list_del; tauto |].
  rewrite Hc3, elem_of_list_del; tauto.
Qed.

Lemma connection_references_balance_witness :
  ∃ w1 w2 w3 c s1 s2 s3 l2,
    hvsock_open_connection 3%nat 5 9 true 0 Sample.w_listen = Returned (0, w1)
    ∧ socks w1 !! c = Some s1 ∧ sk_refcnt s1 = 3
    ∧ hvsock_accept (Sample.stream_socket SS_UNCONNECTED) 0%nat
        (Sample.stream_socket SS_UNCONNECTED) 0 [] w1
      = Returned (0, Some c, w2)
    ∧ socks w2 !! c = Some s2 ∧ sk_refcnt s2 = 2
    ∧ socks w2 !! 0%nat = Some l2
    ∧ sk_refcnt l2 = sk_refcnt (Sample.listener 9 1 [])
    ∧ hvsock_release 2
        (set_state SS_CONNECTED (Sample.stream_socket SS_UNCONNECTED))
        (Some c) w2
      = Returned (0, set_state SS_FREE
                       (set_state SS_CONNECTED
                          (Sample.stream_socket SS_UNCONNECTED)), None, w3)
    ∧ socks w3 !! c = Some s3 ∧ sk_refcnt s3 = 0
    ∧ (c ∉ hvsock_bound_list w3) ∧ (c ∉ hvsock_connected_list w3).
Proof.
  apply (connection_references_balance 3%nat 5 9 Sample.w_listen 0%nat
           (Sample.listener 9 1 [])
           (Sample.stream_socket SS_UNCONNECTED)
           (Sample.stream_socket SS_UNCONNECTED) 0 []);
    try reflexivity.
  split; intros id Hid.
  - apply list_elem_of_singleton in Hid. subst id. cbn. lia.
  - apply not_elem_of_nil in Hid. contradiction.
Defined.

(** X17.  Releasing a listener with connections still queued.  When the
    accept queue of a sock holds distinct other socks, none with a queue of
    its own, [hvsock_release] returns; the sock ends orphaned, dead, shut
    down, off both lists and with an empty queue, having lost one reference
    per queued sock besides its own ones; and every queued sock was released
    in turn: it is off both lists, orphaned, dead and shut down, and has
    lost the reference of each list it was on, the one the queue held and
    its own.  The socks of a passive handshake (three references, on the
    connected list) thus end with none. *)
Theorem release_listener_with_pending (sock : socket) (sk : sk_id) (w : world)
    (l : hvsock_sock) :
  socks w !! sk = Some l →
  NoDup (accept_queue l) →
  (∀ c, c ∈ accept_queue l →
        c ≠ sk ∧ ∃ s, socks w !! c = Some s ∧ accept_queue s = []) →
  ∃ w' l',
    hvsock_release (length (accept_queue l) + 3) sock (Some sk) w
    = Returned (0, set_state SS_FREE sock, None, w')
    ∧ socks w' !! sk = Some l'
    ∧ accept_queue l' = []
    ∧ sk_refcnt l'
      = sk_refcnt l - Z.of_nat (length (accept_queue l)) - 1 - links sk w
    ∧ sk_socket l' = None ∧ sock_dead l' = true
    ∧ sk_shutdown l' = SHUTDOWN_MASK
    ∧ (sk ∉ hvsock_bound_list w') ∧ (sk ∉ hvsock_connected_list w')
    ∧ (∀ c s, c ∈ accept_queue l → socks w !! c = Some s →
         ∃ s', socks w' !! c = Some s' ∧ released (links c w + 2) s s'
               ∧ (c ∉ hvsock_bound_list w') ∧ (c ∉ hvsock_connected_list w'))
    ∧ (∀ j, j ≠ sk → j ∉ accept_queue l → socks w' !! j = socks w !! j).
Proof.
  intros Hl Hnd Hkids.
  destruct (release_prelude_cell sk w l Hl) as (l0 & Hl0 & Hrel0).
  destruct Hrel0 as (Hcnt0 & Hsock0 & Hdead0 & Hsd0 & Hq0 & _).
  destruct (release_prelude_lists sk w) as [Hb0 Hc0].
  set (w0 := release_prelude sk w) in *.
  assert (Hkids0 : ∀ c, c ∈ accept_queue l0 →
            c ≠ sk ∧ ∃ s, socks w0 !! c = Some s ∧ accept_queue s = []).
  { intros c Hc. rewrite Hq0 in Hc. destruct (Hkids c Hc) as [Hne Hs].
    split; [exact Hne |]. unfold w0.
    rewrite (proj2 (release_prelude_cells sk w c) Hne). exact Hs. }
  assert (Hnd0 : NoDup (accept_queue l0)) by (rewrite Hq0; exact Hnd).
  destruct (release_pending_cells (accept_queue l0) sk w0 l0 Hl0 eq_refl
              Hnd0 Hkids0)
    as (w' & l' & Hrun & Hl' & Hq' & Hcnt & Hsock & Hsd & Hdead & Hch
        & Hother & Hbl & Hcl).
  exists w', l'. unfold hvsock_release.
  replace (length (accept_queue l) + 3)%nat
    with (S (length (accept_queue l0) + 2)) by (rewrite Hq0; lia).
  rewrite release_unfold. fold w0. rewrite Hrun.
  split; [reflexivity |]. split; [exact Hl' |]. split; [exact Hq' |].
  split; [rewrite Hcnt, Hcnt0, Hq0; lia |].
  split; [congruence |]. split; [congruence |]. split; [congruence |].
  split; [rewrite Hbl, Hb0, elem_of_list_del; tauto |].
  split; [rewrite Hcl, Hc0, elem_of_list_del; tauto |].
  split.
  - intros c s Hc Hs. destruct (Hkids c Hc) as [Hne _].
    assert (Hs0 : socks w0 !! c = Some s).
    { unfold w0. rewrite (proj2 (release_prelude_cells sk w c) Hne). exact Hs. }
    assert (Hc0' : c ∈ accept_queue l0) by (rewrite Hq0; exact Hc).
    destruct (Hch c s Hc0' Hs0) as (s' & Hs' & Hrel).
    exists s'. split; [exact Hs' |].
    rewrite (links_list_del sk c w w0 Hne Hb0 Hc0) in Hrel.
    split; [exact Hrel |].
    split; [rewrite Hbl | rewrite Hcl]; tauto.
  - intros j Hj1 Hj2. rewrite Hother; [| exact Hj1 | rewrite Hq0; exact Hj2].
    unfold w0. apply release_prelude_cells. exact Hj1.
Qed.

Lemma release_listener_with_pending_witness :
  ∃ w' l',
    hvsock_release 4 (Sample.stream_socket SS_UNCONNECTED) (Some 0%nat)
      Sample.w_queued
    = Returned (0, set_state SS_FREE (Sample.stream_socket SS_UNCONNECTED),
                None, w')
    ∧ socks w' !! 0%nat = Some l'
    ∧ accept_queue l' = []
    ∧ sk_refcnt l' = 3 - 1 - 1 - links 0%nat Sample.w_queued
    ∧ sk_socket l' = None ∧ sock_dead l' = true
    ∧ sk_shutdown l' = SHUTDOWN_MASK
    ∧ (0%nat ∉ hvsock_bound_list w') ∧ (0%nat ∉ hvsock_connected_list w')
    ∧ (∀ c s, c ∈ [1%nat] → socks Sample.w_queued !! c = Some s →
         ∃ s', socks w' !! c = Some s'
               ∧ released (links c Sample.w_queued + 2) s s'
               ∧ (c ∉ hvsock_bound_list w') ∧ (c ∉ hvsock_connected_list w'))
    ∧ (∀ j, j ≠ 0%nat → j ∉ [1%nat] →
            socks w' !! j = socks Sample.w_queued !! j).
Proof.
  apply (release_listener_with_pending (Sample.stream_socket SS_UNCONNECTED)
           0%nat Sample.w_queued (sock_hold (Sample.listener 9 2 [1%nat]))).
  - reflexivity.
  - apply NoDup_singleton.
  - intros c Hc. apply list_elem_of_singleton in Hc. subst c.
    split; [discriminate |]. eexists. split; reflexivity.
Defined.

(** ** connect *)

Lemma hvsock_addr_cast_valid sizeof_sockaddr_hv a addr_len :
  0 <= addr_len < 2 ^ 31 → sizeof_sockaddr_hv <= addr_len →
  hvsock_addr_validate (Some a) = 0 →
  hvsock_addr_cast sizeof_sockaddr_hv (Some a) (size_t_of_int addr_len)
  = (0, Some a).
Proof.
  intros Hlen Hsz Hv. unfold hvsock_addr_cast.
  rewrite size_t_of_int_small by exact Hlen.
  destruct (addr_len <? sizeof_sockaddr_hv) eqn:E; [apply Z.ltb_lt in E; lia |].
  rewrite Hv. reflexivity.
Qed.

Lemma hvsock_addr_cast_invalid sizeof_sockaddr_hv addr addr_len :
  0 <= addr_len < 2 ^ 31 →
  addr_len < sizeof_sockaddr_hv ∨ hvsock_addr_validate addr ≠ 0 →
  fst (hvsock_addr_cast sizeof_sockaddr_hv addr (size_t_of_int addr_len)) ≠ 0.
Proof.
  intros Hlen Hbad. unfold hvsock_addr_cast.
  rewrite size_t_of_int_small by exact Hlen.
  destruct (addr_len <? sizeof_sockaddr_hv) eqn:E; [discriminate |].
  apply Z.ltb_ge in E. destruct Hbad as [Hbad | Hbad]; [lia | exact Hbad].
Qed.

(** The socket states from which [hvsock_connect] starts a new attempt. *)
Lemma hvsock_connect_fresh sizeof_sockaddr_hv HZ sk a addr_len flags
    request_ret gens sleeps w s sock :
  socks w !! sk = Some s → sk_socket s = Some sock →
  state sock = SS_UNCONNECTED ∨ state sock = SS_FREE →
  sk_state s ≠ SS_LISTEN →
  0 <= addr_len < 2 ^ 31 → sizeof_sockaddr_hv <= addr_len →
  hvsock_addr_validate (Some a) = 0 →
  hvsock_addr_bound (local_addr s) = true →
  hvsock_connect sizeof_sockaddr_hv HZ sk (Some a) addr_len flags request_ret
    gens sleeps w
  = let request := Some (shv_service_id (local_addr s), shv_service_id a) in
    if request_ret <? 0
    then Returned (Build_connect_result request_ret
                     (upd sk (set_sk_state SS_CONNECTING)
                        (upd sk (set_remote_addr a) w)) gens request None)
    else connect_finish HZ sk flags sleeps (- EINPROGRESS) gens request
           (connect_started sk a w).
Proof.
  intros Hs Hsock Hstate Hst Hlen Hsz Hv Hb.
  unfold hvsock_connect. rewrite Hs, Hsock.
  rewrite (hvsock_addr_cast_valid _ _ _ Hlen Hsz Hv).
  apply socket_state_eqb_neq in Hst. 
  assert (Hab : hvsock_auto_bind sk gens (upd sk (set_remote_addr a) w)
                = Returned (0, upd sk (set_remote_addr a) w, gens)).
  { unfold hvsock_auto_bind. rewrite lookup_upd_eq, Hs. cbn [fmap option_fmap option_map].
    change (local_addr (set_remote_addr a s)) with (local_addr s).
    rewrite Hb. reflexivity. }
  destruct Hstate as [-> | ->]; rewrite Hst; cbn [orb negb Z.eqb];
    rewrite Hab; cbn [negb Z.eqb]; rewrite !lookup_upd_eq, Hs;
    cbn [fmap option_fmap option_map]; reflexivity.
Qed.


Lemma connect_wait_done sk flags timeout sleeps w s :
  socks w !! sk = Some s → sk_state s = SS_CONNECTED ∨ sk_err s ≠ 0 →
  connect_wait sk flags timeout sleeps w = Returned (ConnectLoopEnd, w).
Proof.
  intros Hs Hdone.
  assert (E : negb (socket_state_eqb (sk_state s) SS_CONNECTED)
              && (sk_err s =? 0) = false).
  { destruct Hdone as [-> | He]; [reflexivity |].
    apply Z.eqb_neq in He. rewrite He. apply andb_false_r. }
  destruct sleeps; cbn [connect_wait]; rewrite Hs, E; reflexivity.
Qed.

Lemma connect_wait_sleep sk flags timeout sl sleeps w s :
  socks w !! sk = Some s → sk_state s ≠ SS_CONNECTED → sk_err s = 0 →
  has_bits flags O_NONBLOCK = false →
  connect_wait sk flags timeout (sl :: sleeps) w
  = let w := meanwhile sl w in
    let timeout := schedule_timeout timeout (remaining sl) in
    if signal_pending sl
    then Returned (ConnectOutWaitError (sock_intr_errno timeout), w)
    else if timeout =? 0 then Returned (ConnectOutWaitError (- ETIMEDOUT), w)
    else connect_wait sk flags timeout sleeps w.
Proof.
  intros Hs Hst Herr Hnb. apply socket_state_eqb_neq in Hst.
  cbn [connect_wait]. rewrite Hs, Hst, Herr, Hnb. reflexivity.
Qed.



(** X18.  The calls [hvsock_connect] refuses.  On a socket in state
    CONNECTED the call fails with EISCONN; on a DISCONNECTING socket (one
    that shutdown was called on) with EINVAL; on an unconnected socket with
    EINVAL when its sock listens, when the address is shorter than
    [struct sockaddr_hv] or when it fails validation.  In all these cases
    nothing changes: the state and the identifier generator are as before,
    no request is sent to the host and no timeout work is scheduled. *)
Theorem hvsock_connect_refused (sizeof_sockaddr_hv HZ : Z) (sk : sk_id)
    (addr : option sockaddr_hv) (addr_len flags request_ret : Z)
    (gens : list uuid_le) (sleeps : list (sleep world)) (w : world)
    (s : hvsock_sock) (sock : socket) :
  socks w !! sk = Some s → sk_socket s = Some sock →
  0 <= addr_len < 2 ^ 31 →
  let refused (ret : Z) :=
    hvsock_connect sizeof_sockaddr_hv HZ sk addr addr_len flags request_ret
      gens sleeps w
    = Returned (Build_connect_result ret w gens None None) in
  (state sock = SS_CONNECTED → refused (- EISCONN))
  ∧ (state sock = SS_DISCONNECTING → refused (- EINVAL))
  ∧ (state sock = SS_UNCONNECTED ∨ state sock = SS_FREE →
     sk_state s = SS_LISTEN ∨ addr_len < sizeof_sockaddr_hv
     ∨ hvsock_addr_validate addr ≠ 0 →
     refused (- EINVAL)).
Proof.
  intros Hs Hsock Hlen refused. subst refused. cbv beta.
  unfold hvsock_connect. rewrite Hs, Hsock.
  split; [intros ->; reflexivity |]. split; [intros ->; reflexivity |].
  intros Hstate Hbad.
  assert (E : socket_state_eqb (sk_state s) SS_LISTEN
              || negb (fst (hvsock_addr_cast sizeof_sockaddr_hv addr
                              (size_t_of_int addr_len)) =? 0) = true).
  { destruct Hbad as [-> | Hbad]; [reflexivity |].
    apply (hvsock_addr_cast_invalid sizeof_sockaddr_hv addr addr_len Hlen)
      in Hbad.
    apply Z.eqb_neq in Hbad. rewrite Hbad. apply orb_true_r. }
  destruct (hvsock_addr_cast sizeof_sockaddr_hv addr (size_t_of_int addr_len))
    as [cast_ret remote].
  cbn [fst] in E.
  destruct Hstate as [-> | ->]; rewrite E; reflexivity.
Qed.

Lemma hvsock_connect_refused_witness :
  hvsock_connect 36 1000 0%nat (Some (hvsock_addr_init 9)) 36 0 0 [] []
    {| socks := [Sample.connected 5 9 3%nat]; hvsock_bound_list := [0%nat];
       hvsock_connected_list := [0%nat]; chan_calls := [] |}
  = Returned
      (Build_connect_result (- EISCONN)
         {| socks := [Sample.connected 5 9 3%nat];
            hvsock_bound_list := [0%nat];
            hvsock_connected_list := [0%nat]; chan_calls := [] |}
         [] None None).
Proof.
  apply (hvsock_connect_refused 36 1000 0%nat (Some (hvsock_addr_init 9)) 36 0
           0 [] []
           {| socks := [Sample.connected 5 9 3%nat];
              hvsock_bound_list := [0%nat];
              hvsock_connected_list := [0%nat]; chan_calls := [] |}
           (Sample.connected 5 9 3%nat) (Sample.stream_socket SS_CONNECTED));
    (reflexivity || lia).
Defined.



Lemma connect_started_cell sk a w s :
  socks w !! sk = Some s →
  socks (connect_started sk a w) !! sk
  = Some (set_socket_state SS_CONNECTING
            (set_sk_state SS_CONNECTING (set_remote_addr a s))).
Proof.
  intros Hs. unfold connect_started. rewrite !lookup_upd_eq, Hs. reflexivity.
Qed.

(** X20.  A blocking connect is completed by the handshake.  On a sock
    that is not on the connected list, the call sends the request and
    sleeps; when the host's channel offer for the sock's local identifier is
    processed meanwhile and the sleep ends without a signal and with time
    left, the call returns 0: the sock is CONNECTED as sock and as socket,
    owns the offered channel, keeps the remote address it asked for, has
    been put at the head of the connected list and is still on the bound
    list. *)
Theorem blocking_connect_completed_by_handshake (sizeof_sockaddr_hv HZ : Z)
    (sk : sk_id) (a : sockaddr_hv) (addr_len flags request_ret : Z)
    (gens : list uuid_le) (sl : sleep world) (sleeps : list (sleep world))
    (w w2 : world) (s : hvsock_sock) (sock : socket) (ch : channel_id)
    (service_id : uuid_le) (alloc_ok : bool) :
  socks w !! sk = Some s → sk_socket s = Some sock →
  state sock = SS_UNCONNECTED ∨ state sock = SS_FREE →
  sk_state s ≠ SS_LISTEN → sk_err s = 0 →
  sk ∉ hvsock_connected_list w →
  0 <= addr_len < 2 ^ 31 → sizeof_sockaddr_hv <= addr_len →
  hvsock_addr_validate (Some a) = 0 →
  hvsock_addr_bound (local_addr s) = true →
  0 <= request_ret →
  has_bits flags O_NONBLOCK = false →
  __hvsock_find_bound_socket
    (hvsock_addr_init (shv_service_id (local_addr s))) (connect_started sk a w)
  = Some sk →
  hvsock_open_connection ch (shv_service_id (local_addr s)) service_id
    alloc_ok 0 (connect_started sk a w)
  = Returned (0, w2) →
  meanwhile sl (connect_started sk a w) = w2 →
  signal_pending sl = false →
  schedule_timeout (30 * HZ) (remaining sl) ≠ 0 →
  ∃ s2,
    hvsock_connect sizeof_sockaddr_hv HZ sk (Some a) addr_len flags
      request_ret gens (sl :: sleeps) w
    = Returned
        (Build_connect_result 0 w2 gens
           (Some (shv_service_id (local_addr s), shv_service_id a)) None)
    ∧ socks w2 !! sk = Some s2
    ∧ sk_state s2 = SS_CONNECTED
    ∧ sk_socket s2 = Some (set_state SS_CONNECTED sock)
    ∧ channel s2 = Some ch
    ∧ remote_addr s2 = a
    ∧ local_addr s2 = local_addr s
    ∧ hvsock_connected_list w2 = sk :: hvsock_connected_list w
    ∧ hvsock_bound_list w2 = hvsock_bound_list w.
Proof.
  intros Hs Hsock Hstate Hst Herr _ Hlen Hsz Hv Hb Hreq Hnb Hfind Hopen Hmean
    Hsig Htime.
  pose proof (connect_started_cell sk a w s Hs) as Hs1.
  set (s1 := set_socket_state SS_CONNECTING _) in Hs1.
  assert (Hsock1 : sk_socket s1 = Some (set_state SS_CONNECTING sock)).
  { unfold s1, set_socket_state.
    change (sk_socket (set_sk_socket ?v _)) with v.
    change (sk_socket (set_sk_state SS_CONNECTING (set_remote_addr a s)))
      with (sk_socket s).
    rewrite Hsock. reflexivity. }
  destruct (active_open_connects ch (shv_service_id (local_addr s)) service_id
              alloc_ok (connect_started sk a w) sk s1
              (set_state SS_CONNECTING sock) Hfind Hs1 eq_refl Hsock1)
    as (w2' & Hopen' & Hbl & Hcl & Hcell & _).
  rewrite Hopen in Hopen'. injection Hopen' as <-.
  eexists. split.
  { rewrite (hvsock_connect_fresh sizeof_sockaddr_hv HZ sk a addr_len flags
               request_ret gens (sl :: sleeps) w s sock
               Hs Hsock Hstate Hst Hlen Hsz Hv Hb).
    cbv zeta.
    assert (Hr : (request_ret <? 0) = false) by (apply Z.ltb_ge; exact Hreq).
    rewrite Hr. unfold connect_finish.
    rewrite (connect_wait_sleep sk flags _ sl sleeps _ s1 Hs1);
      [| discriminate | exact Herr | exact Hnb].
    cbv zeta. rewrite Hmean, Hsig.
    apply Z.eqb_neq in Htime. rewrite Htime.
    rewrite (connect_wait_done sk flags _ sleeps w2 _ Hcell)
      by (left; reflexivity).
    rewrite Hcell.
    change (sk_err (wake StateChange _)) with (sk_err s). rewrite Herr.
    reflexivity. }
  split; [exact Hcell |].
  split; [reflexivity |]. split; [reflexivity |]. split; [reflexivity |].
  split; [reflexivity |]. split; [reflexivity |].
  split; [rewrite Hcl; reflexivity |].
  rewrite Hbl. reflexivity.
Qed.

Lemma blocking_connect_completed_by_handshake_witness :
  ∃ s2,
    hvsock_connect 36 1000 0%nat (Some (hvsock_addr_init 9)) 36 0 0 []
      [ {| meanwhile := λ w,
             match hvsock_open_connection 3%nat 5 9 true 0 w with
             | Returned (_, w') => w'
             | _ => w
             end;
           remaining := 10; signal_pending := false |} ]
      {| socks := [Sample.bound_sock 5]; hvsock_bound_list := [0%nat];
         hvsock_connected_list := []; chan_calls := [] |}
    = Returned
        (Build_connect_result 0
           (match hvsock_open_connection 3%nat 5 9 true 0
                    (connect_started 0%nat (hvsock_addr_init 9)
                       {| socks := [Sample.bound_sock 5];
                          hvsock_bound_list := [0%nat];
                          hvsock_connected_list := []; chan_calls := [] |}) with
            | Returned (_, w') => w'
            | _ => Sample.w_bind
            end) []
           (Some (shv_service_id (local_addr (Sample.bound_sock 5)),
                  shv_service_id (hvsock_addr_init 9))) None)
    ∧ socks (match hvsock_open_connection 3%nat 5 9 true 0
                     (connect_started 0%nat (hvsock_addr_init 9)
                        {| socks := [Sample.bound_sock 5];
                           hvsock_bound_list := [0%nat];
                           hvsock_connected_list := []; chan_calls := [] |}) with
             | Returned (_, w') => w'
             | _ => Sample.w_bind
             end) !! 0%nat = Some s2
    ∧ sk_state s2 = SS_CONNECTED
    ∧ sk_socket s2
      = Some (set_state SS_CONNECTED (Sample.stream_socket SS_UNCONNECTED))
    ∧ channel s2 = Some 3%nat
    ∧ remote_addr s2 = hvsock_addr_init 9
    ∧ local_addr s2 = local_addr (Sample.bound_sock 5)
    ∧ hvsock_connected_list
        (match hvsock_open_connection 3%nat 5 9 true 0
                 (connect_started 0%nat (hvsock_addr_init 9)
                    {| socks := [Sample.bound_sock 5];
                       hvsock_bound_list := [0%nat];
                       hvsock_connected_list := []; chan_calls := [] |}) with
         | Returned (_, w') => w'
         | _ => Sample.w_bind
         end)
      = [0%nat]
    ∧ hvsock_bound_list
        (match hvsock_open_connection 3%nat 5 9 true 0
                 (connect_started 0%nat (hvsock_addr_init 9)
                    {| socks := [Sample.bound_sock 5];
                       hvsock_bound_list := [0%nat];
                       hvsock_connected_list := []; chan_calls := [] |}) with
         | Returned (_, w') => w'
         | _ => Sample.w_bind
         end)
      = [0%nat].
Proof.
  apply (blocking_connect_completed_by_handshake 36 1000 0%nat
           (hvsock_addr_init 9) 36 0 0 [] _ []
           {| socks := [Sample.bound_sock 5]; hvsock_bound_list := [0%nat];
              hvsock_connected_list := []; chan_calls := [] |}
           _ (Sample.bound_sock 5) (Sample.stream_socket SS_UNCONNECTED)
           3%nat 9 true);
    try (vm_compute; reflexivity); try lia; try discriminate;
    try apply not_elem_of_nil.
  left. reflexivity.
Defined.

(** X21.  A blocking connect that gives up.  When the first sleep ends with
    a signal pending the call returns EINTR, and when it ends with the 30
    seconds used up it returns ETIMEDOUT; either way the sock is reset to
    UNCONNECTED as sock and as socket.  The request already sent is not
    withdrawn and the sock stays bound, so if nothing else happened
    meanwhile, a channel offer that arrives for it afterwards is refused
    with ENXIO and changes nothing. *)
Theorem blocking_connect_gives_up (sizeof_sockaddr_hv HZ : Z)
    (sk : sk_id) (a : sockaddr_hv) (addr_len flags request_ret : Z)
    (gens : list uuid_le) (sl : sleep world) (sleeps : list (sleep world))
    (w : world) (s : hvsock_sock) (sock : socket) :
  socks w !! sk = Some s → sk_socket s = Some sock →
  state sock = SS_UNCONNECTED ∨ state sock = SS_FREE →
  sk_state s ≠ SS_LISTEN → sk_err s = 0 →
  0 <= addr_len < 2 ^ 31 → sizeof_sockaddr_hv <= addr_len →
  hvsock_addr_validate (Some a) = 0 →
  hvsock_addr_bound (local_addr s) = true →
  0 <= request_ret →
  has_bits flags O_NONBLOCK = false →
  0 < HZ → 30 * HZ < MAX_SCHEDULE_TIMEOUT →
  signal_pending sl = true ∨ remaining sl <= 0 →
  let w1 := meanwhile sl (connect_started sk a w) in
  hvsock_connect sizeof_sockaddr_hv HZ sk (Some a) addr_len flags
    request_ret gens (sl :: sleeps) w
  = Returned
      (Build_connect_result
         (if signal_pending sl then - EINTR else - ETIMEDOUT)
         (connect_reset sk w1) gens
         (Some (shv_service_id (local_addr s), shv_service_id a)) None)
  ∧ (w1 = connect_started sk a w →
     socks (connect_reset sk w1) !! sk
     = Some (set_socket_state SS_UNCONNECTED
               (set_sk_state SS_UNCONNECTED
                  (set_socket_state SS_CONNECTING
                     (set_sk_state SS_CONNECTING (set_remote_addr a s)))))
     ∧ hvsock_bound_list (connect_reset sk w1) = hvsock_bound_list w
     ∧ hvsock_connected_list (connect_reset sk w1) = hvsock_connected_list w
     ∧ ∀ ch service_id alloc_ok open_ret,
         __hvsock_find_bound_socket
           (hvsock_addr_init (shv_service_id (local_addr s)))
           (connect_reset sk w1)
         = Some sk →
         hvsock_open_connection ch (shv_service_id (local_addr s)) service_id
           alloc_ok open_ret (connect_reset sk w1)
         = Returned (- ENXIO, connect_reset sk w1)).
Proof.
  intros Hs Hsock Hstate Hst Herr Hlen Hsz Hv Hb Hreq Hnb Hhz Hmax Hwake w1.
  pose proof (connect_started_cell sk a w s Hs) as Hs1.
  split.
  - rewrite (hvsock_connect_fresh sizeof_sockaddr_hv HZ sk a addr_len flags
               request_ret gens (sl :: sleeps) w s sock
               Hs Hsock Hstate Hst Hlen Hsz Hv Hb).
    cbv zeta.
    assert (Hr : (request_ret <? 0) = false) by (apply Z.ltb_ge; exact Hreq).
    rewrite Hr. unfold connect_finish.
    rewrite (connect_wait_sleep sk flags _ sl sleeps _ _ Hs1);
      [| discriminate | exact Herr | exact Hnb].
    cbv zeta. fold w1.
    assert (Ht : schedule_timeout (30 * HZ) (remaining sl)
                 = Z.max 0 (Z.min (remaining sl) (30 * HZ))).
    { unfold schedule_timeout.
      destruct (30 * HZ =? MAX_SCHEDULE_TIMEOUT) eqn:E;
        [apply Z.eqb_eq in E; lia | reflexivity]. }
    destruct (signal_pending sl) eqn:Esig.
    + assert (Hi : sock_intr_errno (schedule_timeout (30 * HZ) (remaining sl))
                   = - EINTR).
      { unfold sock_intr_errno. rewrite Ht.
        destruct (_ =? MAX_SCHEDULE_TIMEOUT) eqn:E;
          [apply Z.eqb_eq in E; lia | reflexivity]. }
      rewrite Hi. reflexivity.
    + destruct Hwake as [Hw | Hw]; [discriminate |].
      rewrite Ht. replace (Z.max 0 (Z.min (remaining sl) (30 * HZ))) with 0
        by lia.
      reflexivity.
  - intros E. rewrite E. unfold connect_reset.
    split; [rewrite !lookup_upd_eq, Hs1; reflexivity |].
    split; [reflexivity |]. split; [reflexivity |].
    intros ch service_id alloc_ok open_ret Hfind.
    eapply open_rejects_idle_origin; [exact Hfind | |].
    + rewrite !lookup_upd_eq, Hs1. reflexivity.
    + discriminate.
Qed.

Lemma blocking_connect_gives_up_witness :
  let w1 :=
    meanwhile (Sample.quiet false)
      (connect_started 0%nat (hvsock_addr_init 9)
         {| socks := [Sample.bound_sock 5]; hvsock_bound_list := [0%nat];
            hvsock_connected_list := []; chan_calls := [] |}) in
  hvsock_connect 36 1000 0%nat (Some (hvsock_addr_init 9)) 36 0 0 []
    [Sample.quiet false]
    {| socks := [Sample.bound_sock 5]; hvsock_bound_list := [0%nat];
       hvsock_connected_list := []; chan_calls := [] |}
  = Returned
      (Build_connect_result (- ETIMEDOUT) (connect_reset 0%nat w1) []
         (Some (5, 9)) None).
Proof.
  apply (blocking_connect_gives_up 36 1000 0%nat (hvsock_addr_init 9) 36 0 0
           [] (Sample.quiet false) []
           {| socks := [Sample.bound_sock 5]; hvsock_bound_list := [0%nat];
              hvsock_connected_list := []; chan_calls := [] |}
           (Sample.bound_sock 5) (Sample.stream_socket SS_UNCONNECTED));
    try reflexivity; try lia; try discriminate.
  - left. reflexivity.
  - right. reflexivity.
Defined.




(** ** The byte stream *)

Lemma hvsock_send_data_packet ch hvsk n ret pkt hvsk' ch' :
  hvsock_send_data ch hvsk n = (ret, pkt, hvsk', ch') →
  (ret = 0
   ∧ pkt = Some (Build_outpkt {| pkt_type := 1; data_size := n mod 2 ^ 32 |}
                   (take (Z.to_nat n) (send_buf (send hvsk)))))
  ∨ (ret ≠ 0 ∧ pkt = None).
Proof.
  unfold hvsock_send_data, vmbus_sendpacket. intros H.
  destruct (sendpacket_status ch) as [| st rest].
  - injection H as <- <- <- <-. left. split; reflexivity.
  - destruct (st =? 0) eqn:E; injection H as <- <- <- <-.
    + left. split; reflexivity.
    + right. apply Z.eqb_neq in E. split; [exact E | reflexivity].
Qed.

Lemma memcpy_from_msg_data msg n ret bytes msg' :
  memcpy_from_msg msg n = (ret, bytes, msg') → 0 <= n →
  (ret = 0 ∧ length bytes = Z.to_nat n
   ∧ bytes ++ msg_data msg' = msg_data msg)
  ∨ (ret ≠ 0 ∧ msg' = msg).
Proof.
  unfold memcpy_from_msg. intros H Hn.
  destruct (n <=? Z.of_nat (length (msg_data msg))) eqn:E;
    injection H as <- <- <-.
  - left. split; [reflexivity |].
    apply Z.leb_le in E. split; [apply length_take_le; lia |].
    cbn [msg_data]. apply take_drop.
  - right. split; [discriminate | reflexivity].
Qed.

Lemma full_but_last_snoc SND out p :
  Forall (full_packet SND) out → full_but_last SND (out ++ [p]).
Proof.
  intros H pre q E. apply app_inj_tail in E. destruct E as [<- _]. exact H.
Qed.

Section SendData.
Variable HVSOCK_PKT_LEN : Z → Z.
Variables PAGE_SIZE HVSOCK_MIN_PKT_LEN HVSOCK_SND_BUF_SZ : Z.
Hypothesis snd_buf_range : 0 < HVSOCK_SND_BUF_SZ < 2 ^ 32.
Variable data : list Z.

Lemma send_data_inv_prefix st :
  send_data_inv HVSOCK_SND_BUF_SZ data st →
  sent_prefix HVSOCK_SND_BUF_SZ data st.
Proof.
  intros (Hd & Hok & Hlast & _). split; [eauto |]. split; assumption.
Qed.

Lemma send_chunks_data fuel : ∀ st,
  send_data_inv HVSOCK_SND_BUF_SZ data st → 0 < total_to_write st →
  match send_chunks HVSOCK_SND_BUF_SZ fuel st with
  | Returned (ret, st') =>
      sent_prefix HVSOCK_SND_BUF_SZ data st'
      ∧ (ret = 0 → send_data_inv HVSOCK_SND_BUF_SZ data st')
  | InProgress | OutOfFuel | Oops => True
  end.
Proof.
  induction fuel as [| fuel IH]; intros st Hinv Hpos; [exact I |].
  cbn [send_chunks].
  set (to_write := Z.min HVSOCK_SND_BUF_SZ (total_to_write st)).
  assert (Hw : 1 <= to_write <= total_to_write st) by (subst to_write; lia).
  destruct (memcpy_from_msg (s_msg st) to_write) as [[ret bytes] msg'] eqn:Em.
  destruct (memcpy_from_msg_data _ _ _ _ _ Em ltac:(lia))
    as [(-> & Hbytes & Hdata) | [Hret _]].
  2:{ pose proof Hret as Hret'. apply Z.eqb_neq in Hret. rewrite Hret.
      split; [apply send_data_inv_prefix, Hinv | contradiction]. }
  cbn [Z.eqb negb].
  match goal with
  | |- context [hvsock_send_data ?c ?h ?n] =>
      destruct (hvsock_send_data c h n) as [[[ret pkt] hvsk'] ch'] eqn:Es;
      destruct (hvsock_send_data_packet _ _ _ _ _ _ _ Es)
        as [[-> ->] | [Hret ->]]
  end.
  - cbn [Z.eqb negb option_list total_to_write total_written s_out].
    change (send_buf (send (set_send ?v _))) with (send_buf v).
    cbn [send_buf].
    rewrite <- Hbytes, take_app_length.
    destruct Hinv as (Hd & Hok & Hlast & Hfull).
    assert (Hinv' : ∀ hvsk0 ch0,
      send_data_inv HVSOCK_SND_BUF_SZ data
        (Build_send_st hvsk0 ch0 msg' (total_to_write st - to_write)
           (total_written st + to_write)
           (s_out st ++ [Build_outpkt
                           {| pkt_type := 1; data_size := to_write mod 2 ^ 32 |}
                           bytes]))).
    { intros hvsk0 ch0. unfold send_data_inv.
      cbn [s_out s_msg total_to_write].
      split.
      { rewrite map_app, concat_app. cbn [map concat out_payload].
        rewrite app_nil_r, <- app_assoc, Hdata. exact Hd. }
      split.
      { apply Forall_app. split; [exact Hok |].
        apply Forall_singleton. unfold packet_ok. cbn [out_hdr out_payload
          pkt_type data_size].
        rewrite Hbytes, Z2Nat.id by lia.
        rewrite Z.mod_small by (subst to_write; lia).
        split; [reflexivity |]. split; [reflexivity |]. subst to_write. lia. }
      split; [apply full_but_last_snoc, Hfull, Hpos |].
      intros Hmore. apply Forall_app. split; [apply Hfull, Hpos |].
      apply Forall_singleton. unfold full_packet. cbn [out_payload].
      rewrite Hbytes, Z2Nat.id by lia. subst to_write. lia. }
    destruct (0 <? total_to_write st - to_write) eqn:Emore.
    + apply Z.ltb_lt in Emore. apply IH; [apply Hinv' |].
      cbn [total_to_write]. exact Emore.
    + split; [apply send_data_inv_prefix |]; intros; apply Hinv'.
  - pose proof Hret as Hret'. apply Z.eqb_neq in Hret. rewrite Hret.
    cbn [negb option_list]. rewrite app_nil_r.
    split; [| contradiction].
    destruct Hinv as (Hd & Hok & Hlast & Hfull).
    unfold sent_prefix. cbn [s_out].
    split; [eauto |]. split; assumption.
Qed.

Lemma send_loop_data fuel : ∀ timeout sleeps ret st,
  send_data_inv HVSOCK_SND_BUF_SZ data st →
  match send_loop HVSOCK_PKT_LEN PAGE_SIZE HVSOCK_MIN_PKT_LEN
          HVSOCK_SND_BUF_SZ fuel timeout sleeps ret st with
  | Returned (_, st') => sent_prefix HVSOCK_SND_BUF_SZ data st'
  | InProgress | OutOfFuel | Oops => True
  end.
Proof.
  induction fuel as [| fuel IH]; intros timeout sleeps ret st Hinv;
    cbn [send_loop];
    (destruct (total_to_write st <=? 0) eqn:E;
       [apply send_data_inv_prefix, Hinv |]); [exact I |].
  apply Z.leb_gt in E.
  assert (Hkeep : ∀ sk' ch',
    send_data_inv HVSOCK_SND_BUF_SZ data
      (Build_send_st sk' ch' (s_msg st) (total_to_write st) (total_written st)
         (s_out st))).
  { intros sk' ch'. exact Hinv. }
  destruct (send_wait _ _ _ timeout sleeps (s_sk st) (s_ch st))
    as [[[[r | [timeout' sleeps']] sk'] ch'] | | |]; try exact I.
  - apply send_data_inv_prefix, Hkeep.
  - destruct (negb (sk_err sk' =? 0)); [apply send_data_inv_prefix, Hkeep |].
    destruct (send_stop sk'); [apply send_data_inv_prefix, Hkeep |].
    pose proof (send_chunks_data
                  (Z.to_nat (total_to_write st))
                  (Build_send_st sk' ch' (s_msg st) (total_to_write st)
                     (total_written st) (s_out st))
                  (Hkeep sk' ch') E) as Hchunks.
    cbn [total_to_write].
    destruct (send_chunks HVSOCK_SND_BUF_SZ _ _) as [[r st2] | | |];
      try exact I.
    destruct Hchunks as [Hpre Hstrong].
    destruct (r =? 0) eqn:Er; cbn [negb]; [| exact Hpre].
    apply Z.eqb_eq in Er. apply IH, Hstrong, Er.
Qed.
End SendData.

Lemma prefix_take {A} (l rest data : list A) :
  l ++ rest = data → l = take (length l) data.
Proof. intros <-. rewrite take_app_length. reflexivity. Qed.

Lemma sendmsg_outcome HVSOCK_PKT_LEN PAGE_SIZE HVSOCK_MIN_PKT_LEN
    HVSOCK_SND_BUF_SZ sk ch msg len sleeps ret st :
  0 < HVSOCK_SND_BUF_SZ < 2 ^ 32 → 0 <= len <= INT_MAX →
  hvsock_sendmsg HVSOCK_PKT_LEN PAGE_SIZE HVSOCK_MIN_PKT_LEN
    HVSOCK_SND_BUF_SZ sk ch msg len sleeps
  = Returned (ret, st) →
  send_inv len st
  ∧ sent_prefix HVSOCK_SND_BUF_SZ (msg_data msg) st
  ∧ (0 < total_written st → ret = total_written st).
Proof.
  intros Hsnd [Hlen0 Hlen]. unfold hvsock_sendmsg.
  assert (Hinv0 : send_inv len (Build_send_st sk ch msg len 0 [])).
  { unfold send_inv. cbn [s_out total_written total_to_write].
    change (bytes_transferred []) with 0. repeat split; lia. }
  assert (Hdata0 : send_data_inv HVSOCK_SND_BUF_SZ (msg_data msg)
                     (Build_send_st sk ch msg len 0 [])).
  { unfold send_data_inv. cbn [s_out s_msg map concat app].
    split; [reflexivity |]. split; [constructor |].
    split; [intros pre p E; destruct pre; discriminate |].
    intros _. constructor. }
  assert (Hearly : ∀ e : Z,
            Returned (e, Build_send_st sk ch msg len 0 []) = Returned (ret, st) →
            send_inv len st
            ∧ sent_prefix HVSOCK_SND_BUF_SZ (msg_data msg) st
            ∧ (0 < total_written st → ret = total_written st)).
  { intros e [= <- <-]. split; [exact Hinv0 |].
    split; [apply send_data_inv_prefix, Hdata0 |].
    cbn [total_written]. lia. }
  destruct (len =? 0) eqn:El; [apply Hearly |].
  destruct (negb (Z.land (msg_flags msg) (Z.lnot MSG_DONTWAIT) =? 0));
    [apply Hearly |].
  destruct (negb (msg_namelen msg =? 0)); [apply Hearly |].
  destruct (send_stop sk); [apply Hearly |].
  destruct (_ || _); [apply Hearly |].
  destruct (negb (hvsock_addr_bound (remote_addr sk))); [apply Hearly |].
  clear Hearly.
  pose proof (send_loop_inv HVSOCK_PKT_LEN PAGE_SIZE HVSOCK_MIN_PKT_LEN
                HVSOCK_SND_BUF_SZ (proj1 Hsnd) len 0
                (sock_sndtimeo sk (Z.land (msg_flags msg) MSG_DONTWAIT))
                sleeps 0 _ Hinv0) as Hloop.
  pose proof (send_loop_data HVSOCK_PKT_LEN PAGE_SIZE HVSOCK_MIN_PKT_LEN
                HVSOCK_SND_BUF_SZ Hsnd (msg_data msg) 2
                (sock_sndtimeo sk (Z.land (msg_flags msg) MSG_DONTWAIT))
                sleeps 0 _ Hdata0) as Hdata.
  destruct (send_loop _ _ _ _ 2 _ sleeps 0 _) as [[r st1] | | |];
    try discriminate.
  intros [= <- <-].
  split; [exact Hloop |]. split; [exact Hdata |].
  destruct Hloop as (Hb & Hw0 & Ht0 & Hsum).
  intros Hn.
  destruct (0 <? total_written st1) eqn:Ew; [| apply Z.ltb_ge in Ew; lia].
  rewrite sint32_small by (unfold INT_MAX in Hlen; lia).
  destruct (total_written st1 =? 0) eqn:E0; [apply Z.eqb_eq in E0; lia |].
  reflexivity.
Qed.

(** X24.  What a send hands to the ring.  For a request of at most INT_MAX
    bytes and a send cap between 1 byte and 2^32 - 1: when [hvsock_sendmsg]
    returns, the payloads of the packets the ring took are, in order, exactly
    the first [n] bytes of the message, [n] being the number of bytes handed
    over; every packet is a data packet (type 1) whose header announces the
    length of its payload, between 1 byte and the send cap; every packet but
    the last carries a full send buffer; [n] is at most the length asked
    for, and when it is positive it is the value returned. *)
Theorem sendmsg_hands_over_prefix (HVSOCK_PKT_LEN : Z → Z)
    (PAGE_SIZE HVSOCK_MIN_PKT_LEN HVSOCK_SND_BUF_SZ : Z)
    (sk : hvsock_sock) (ch : vmbus_channel) (msg : msghdr) (len : Z)
    (sleeps : list (sleep (hvsock_sock * vmbus_channel)))
    (ret : Z) (st : send_st) :
  0 < HVSOCK_SND_BUF_SZ < 2 ^ 32 → 0 <= len <= INT_MAX →
  hvsock_sendmsg HVSOCK_PKT_LEN PAGE_SIZE HVSOCK_MIN_PKT_LEN
    HVSOCK_SND_BUF_SZ sk ch msg len sleeps
  = Returned (ret, st) →
  let n := bytes_transferred (s_out st) in
  concat (map out_payload (s_out st)) = take (Z.to_nat n) (msg_data msg)
  ∧ Forall (packet_ok HVSOCK_SND_BUF_SZ) (s_out st)
  ∧ full_but_last HVSOCK_SND_BUF_SZ (s_out st)
  ∧ n <= len
  ∧ (0 < n → ret = n).
Proof.
  intros Hsnd Hlen Hrun.
  destruct (sendmsg_outcome _ _ _ _ _ _ _ _ _ _ _ Hsnd Hlen Hrun)
    as ((Hb & Hw0 & Ht0 & Hsum) & ([rest Hrest] & Hok & Hlast) & Hret).
  cbv zeta.
  split.
  { unfold bytes_transferred. rewrite Nat2Z.id.
    eapply prefix_take. exact Hrest. }
  split; [exact Hok |]. split; [exact Hlast |].
  split; [lia |].
  rewrite Hb. exact Hret.
Qed.

Lemma sendmsg_hands_over_prefix_witness :
  let st :=
    match hvsock_sendmsg Sample.pkt_len Sample.page Sample.min_pkt
            Sample.snd_buf (Sample.connected 5 9 3%nat) Sample.second_refused
            (Sample.data_msg 0 10000) 10000 [] with
    | Returned (_, st) => st
    | _ => Build_send_st (Sample.connected 5 9 3%nat) Sample.second_refused
             (Sample.data_msg 0 10000) 10000 0 []
    end in
  let n := bytes_transferred (s_out st) in
  concat (map out_payload (s_out st))
  = take (Z.to_nat n) (msg_data (Sample.data_msg 0 10000))
  ∧ Forall (packet_ok Sample.snd_buf) (s_out st)
  ∧ full_but_last Sample.snd_buf (s_out st)
  ∧ n <= 10000
  ∧ (0 < n → 4096 = n).
Proof.
  apply (sendmsg_hands_over_prefix Sample.pkt_len Sample.page Sample.min_pkt
           Sample.snd_buf (Sample.connected 5 9 3%nat) Sample.second_refused
           (Sample.data_msg 0 10000) 10000 [] 4096).
  - vm_compute. split; reflexivity.
  - vm_compute. split; discriminate.
  - vm_compute. reflexivity.
Defined.

Lemma stream_step (U0 X R : list Z) (cp len n : nat) :
  drop cp U0 = take len X ++ R → (len <= length X)%nat → (n <= len)%nat →
  take cp U0 ++ take n X = take (cp + n) U0
  ∧ take (len - n) (drop n X) ++ R = drop (cp + n) U0.
Proof.
  intros HU Hlen Hn.
  assert (Hl : length (take len X) = len) by (apply length_take_le; lia).
  split.
  - rewrite <- take_take_drop. f_equal.
    rewrite HU, take_app_le by lia.
    rewrite take_take. f_equal. lia.
  - rewrite <- drop_drop, HU, drop_app_le by lia.
    f_equal. symmetry. apply skipn_firstn_comm.
Qed.

Lemma avl_read_nonempty ch MIN :
  0 < MIN → MIN <= avl_read_bytes ch → inbound ch ≠ [].
Proof.
  intros Hmin Havl E. unfold avl_read_bytes in Havl. rewrite E in Havl.
  cbn in Havl. lia.
Qed.

Lemma hvsock_recv_data_ok RCV ch hvsk p rest :
  inbound ch = p :: rest → inpkt_ok RCV p →
  hvsock_recv_data ch hvsk
  = (0, Z.of_nat (length (in_payload p)),
     set_recv {| recv_hdr := in_hdr p; recv_buf := in_payload p;
                 data_len := data_len (recv hvsk);
                 data_offset := data_offset (recv hvsk) |} hvsk,
     Build_vmbus_channel rest (avl_write_bytes ch) (sendpacket_status ch)).
Proof.
  intros Hin (Hst & Hlen & Hsz & _).
  unfold hvsock_recv_data, vmbus_recvpacket. rewrite Hin, Hst.
  cbn [Z.eqb negb orb].
  destruct (in_actual_len p <=? sizeof_hdr) eqn:E;
    [apply Z.leb_le in E; lia |].
  change (recv_hdr (recv (set_recv ?v _))) with (recv_hdr v).
  cbn [recv_hdr]. rewrite Hsz. reflexivity.
Qed.

Lemma memcpy_to_msg_cases msg bytes n :
  (n <= msg_room msg
   ∧ memcpy_to_msg msg bytes n
     = (0, Build_msghdr (msg_flags msg) (msg_namelen msg)
             (msg_data msg ++ take (Z.to_nat n) bytes) (msg_room msg - n)))
  ∨ (msg_room msg < n ∧ memcpy_to_msg msg bytes n = (- EFAULT, msg)).
Proof.
  unfold memcpy_to_msg. destruct (n <=? msg_room msg) eqn:E.
  - left. apply Z.leb_le in E. auto.
  - right. apply Z.leb_gt in E. auto.
Qed.

Section RecvStream.
Variable HVSOCK_PKT_LEN : Z → Z.
Variables PAGE_SIZE HVSOCK_MIN_PKT_LEN HVSOCK_RCV_BUF_SZ : Z.
Hypothesis min_pkt_positive : 0 < HVSOCK_MIN_PKT_LEN.
Variable msg0 : msghdr.
Variable unread0 : list Z.
Variable ring0 : list inpkt.
Variable len : Z.

(** What one pass hands to the copy: a sock whose cursor holds unread
    bytes, with the same undelivered stream. *)
Lemma recv_refill st ret r1 pl hvsk0 ch1 :
  recv_inv HVSOCK_RCV_BUF_SZ msg0 unread0 ring0 len st →
  (if data_len (recv (r_sk st)) =? 0
   then fst (get_ringbuffer_rw_status HVSOCK_PKT_LEN PAGE_SIZE
               HVSOCK_MIN_PKT_LEN (r_ch st))
   else true) = true →
  (if data_len (recv (r_sk st)) =? 0
   then hvsock_recv_data (r_ch st) (r_sk st)
   else (ret, 0, r_sk st, r_ch st)) = (r1, pl, hvsk0, ch1) →
  let hvsk1 := if data_len (recv (r_sk st)) =? 0
               then set_cursor pl 0 hvsk0 else hvsk0 in
  (data_len (recv (r_sk st)) =? 0)
  && (negb (r1 =? 0) || (pl =? 0) || (pl >? HVSOCK_RCV_BUF_SZ)) = false
  ∧ cursor_ok hvsk1 ∧ 0 < data_len (recv hvsk1)
  ∧ unread hvsk1 ch1 = unread (r_sk st) (r_ch st)
  ∧ Forall (inpkt_ok HVSOCK_RCV_BUF_SZ) (inbound ch1)
  ∧ (∃ k, inbound ch1 = drop k ring0)
  ∧ same_flags (r_sk st) hvsk1.
Proof.
  intros (_ & _ & _ & _ & _ & _ & Hcur & Hring & [k Hk]) Hcan Htuple hvsk1.
  subst hvsk1.
  destruct (data_len (recv (r_sk st)) =? 0) eqn:Erefill.
  - apply Z.eqb_eq in Erefill.
    unfold get_ringbuffer_rw_status in Hcan. cbn [fst] in Hcan.
    apply Z.leb_le in Hcan.
    pose proof (avl_read_nonempty _ _ min_pkt_positive Hcan) as Hne.
    destruct (inbound (r_ch st)) as [| p rest] eqn:Ein; [contradiction |].
    apply Forall_cons in Hring. destruct Hring as [Hp Hrest].
    rewrite (hvsock_recv_data_ok HVSOCK_RCV_BUF_SZ _ _ p rest Ein Hp)
      in Htuple.
    injection Htuple as <- <- <- <-.
    destruct Hp as (Hst & Hal & Hsz & Hlo & Hhi).
    split.
    { cbn [Z.eqb negb orb andb].
      destruct (Z.of_nat (length (in_payload p)) =? 0) eqn:E0;
        [apply Z.eqb_eq in E0; lia |].
      rewrite Z.gtb_ltb.
      destruct (HVSOCK_RCV_BUF_SZ <? Z.of_nat (length (in_payload p))) eqn:E1;
        [apply Z.ltb_lt in E1; lia | reflexivity]. }
    split; [unfold cursor_ok; cbn; lia |].
    split; [cbn; lia |].
    split.
    { unfold unread, pending_bytes. cbn [inbound].
      change (recv (set_cursor ?l ?o ?h))
        with {| recv_hdr := recv_hdr (recv h); recv_buf := recv_buf (recv h);
                data_len := l; data_offset := o |}.
      cbn [data_len data_offset recv_buf Z.to_nat drop].
      change (recv_buf (recv (set_recv ?v _))) with (recv_buf v).
      cbn [recv_buf].
      rewrite Erefill. cbn [Z.to_nat take app].
      rewrite Nat2Z.id, firstn_all. rewrite Ein. reflexivity. }
    split; [exact Hrest |].
    split; [| repeat split].
    exists (S k). cbn [inbound].
    replace (S k) with (k + 1)%nat by lia.
    rewrite <- drop_drop, <- Hk. reflexivity.
  - injection Htuple as <- <- <- <-.
    apply Z.eqb_neq in Erefill. destruct Hcur as (H1 & H2 & H3).
    split; [reflexivity |]. split; [split; [| split]; assumption |].
    split; [lia |]. split; [reflexivity |].
    split; [exact Hring |]. split; [eauto | repeat split].
Qed.

Lemma recv_inv_keep st hvsk1 ch1 :
  recv_inv HVSOCK_RCV_BUF_SZ msg0 unread0 ring0 len st →
  cursor_ok hvsk1 →
  unread hvsk1 ch1 = unread (r_sk st) (r_ch st) →
  Forall (inpkt_ok HVSOCK_RCV_BUF_SZ) (inbound ch1) →
  (∃ k, inbound ch1 = drop k ring0) →
  recv_inv HVSOCK_RCV_BUF_SZ msg0 unread0 ring0 len
    (Build_recv_st hvsk1 ch1 (r_msg st) (total_to_read st) (copied st)).
Proof.
  intros (Hm & Hu & Hr & Hc & Ht & Hsum & _ & _ & _) Hcur Hun Hring Hk.
  unfold recv_inv. cbn [r_sk r_ch r_msg total_to_read copied].
  rewrite Hun. repeat split; try assumption; first [apply Hc | apply Hcur].
Qed.

Lemma recv_inv_copy st hvsk1 ch1 n l' o' :
  recv_inv HVSOCK_RCV_BUF_SZ msg0 unread0 ring0 len st →
  cursor_ok hvsk1 →
  unread hvsk1 ch1 = unread (r_sk st) (r_ch st) →
  Forall (inpkt_ok HVSOCK_RCV_BUF_SZ) (inbound ch1) →
  (∃ k, inbound ch1 = drop k ring0) →
  0 <= n <= data_len (recv hvsk1) → n <= total_to_read st →
  (l' = data_len (recv hvsk1) - n ∧ o' = data_offset (recv hvsk1) + n)
  ∨ (n = data_len (recv hvsk1) ∧ l' = 0 ∧ o' = 0) →
  recv_inv HVSOCK_RCV_BUF_SZ msg0 unread0 ring0 len
    (Build_recv_st (set_cursor l' o' hvsk1) ch1
       (Build_msghdr (msg_flags (r_msg st)) (msg_namelen (r_msg st))
          (msg_data (r_msg st) ++ take (Z.to_nat n) (pending_bytes hvsk1))
          (msg_room (r_msg st) - n))
       (total_to_read st - n) (copied st + n)).
Proof.
  intros (Hm & Hu & Hr & Hc & Ht & Hsum & _ & _ & _) (Hc1 & Hc2 & Hc3) Hun
    Hring Hk Hn Hnt Hcase.
  rewrite <- Hun in Hu. unfold unread in Hu.
  assert (Hlen : (Z.to_nat (data_len (recv hvsk1))
                  <= length (pending_bytes hvsk1))%nat).
  { unfold pending_bytes. rewrite length_drop. lia. }
  destruct (stream_step unread0 (pending_bytes hvsk1)
              (concat (map in_payload (inbound ch1)))
              (Z.to_nat (copied st)) (Z.to_nat (data_len (recv hvsk1)))
              (Z.to_nat n) (eq_sym Hu) Hlen ltac:(lia)) as [Htake Hdrop].
  assert (Hcp : Z.of_nat (Z.to_nat (copied st) + Z.to_nat n)
                <= Z.of_nat (length unread0)).
  { assert (Hd : length (drop (Z.to_nat (copied st)) unread0)
                 = (length (take (Z.to_nat (data_len (recv hvsk1)))
                              (pending_bytes hvsk1))
                    + length (concat (map in_payload (inbound ch1))))%nat)
      by (rewrite <- Hu, length_app; reflexivity).
    rewrite length_drop, length_take_le in Hd by exact Hlen. lia. }
  unfold recv_inv. cbn [r_sk r_ch r_msg total_to_read copied msg_data
    msg_room].
  rewrite Z2Nat.inj_add by lia.
  split; [rewrite Hm, <- app_assoc, Htake; reflexivity |].
  split.
  { rewrite <- Hdrop. unfold unread, pending_bytes.
    change (recv (set_cursor ?l ?o ?h))
      with {| recv_hdr := recv_hdr (recv h); recv_buf := recv_buf (recv h);
              data_len := l; data_offset := o |}.
    cbn [data_len data_offset recv_buf]. f_equal.
    destruct Hcase as [[-> ->] | (Hn' & -> & ->)].
    - rewrite Z2Nat.inj_sub, Z2Nat.inj_add, drop_drop by lia. reflexivity.
    - rewrite <- Hn', Nat.sub_diag. reflexivity. }
  split; [lia |]. split; [lia |]. split; [lia |]. split; [lia |].
  split.
  { unfold cursor_ok.
    change (recv (set_cursor ?l ?o ?h))
      with {| recv_hdr := recv_hdr (recv h); recv_buf := recv_buf (recv h);
              data_len := l; data_offset := o |}.
    cbn [data_len data_offset recv_buf].
    destruct Hcase as [[-> ->] | (Hn' & -> & ->)]; lia. }
  split; assumption.
Qed.

Lemma recv_loop_stream fuel : ∀ st ret timeout,
  recv_inv HVSOCK_RCV_BUF_SZ msg0 unread0 ring0 len st →
  0 < total_to_read st →
  (Z.to_nat (total_to_read st) < fuel)%nat →
  match recv_loop HVSOCK_PKT_LEN PAGE_SIZE HVSOCK_MIN_PKT_LEN
          HVSOCK_RCV_BUF_SZ fuel timeout [] ret st with
  | Returned (inl _, _) => False
  | Returned (inr r, st') =>
      recv_inv HVSOCK_RCV_BUF_SZ msg0 unread0 ring0 len st'
      ∧ recv_exit HVSOCK_PKT_LEN PAGE_SIZE HVSOCK_MIN_PKT_LEN st'
      ∧ recv_progress HVSOCK_PKT_LEN PAGE_SIZE HVSOCK_MIN_PKT_LEN timeout ret
          st r st'
  | InProgress => timeout ≠ 0
  | OutOfFuel | Oops => False
  end.
Proof.
  induction fuel as [| fuel IH]; intros st ret timeout Hinv Hpos Hfuel;
    [lia |].
  cbn [recv_loop]. cbv zeta. unfold recv_progress.
  fold (recv_can_read HVSOCK_PKT_LEN PAGE_SIZE HVSOCK_MIN_PKT_LEN st).
  destruct (recv_can_read HVSOCK_PKT_LEN PAGE_SIZE HVSOCK_MIN_PKT_LEN st)
    eqn:Hcan.
  - destruct (if data_len (recv (r_sk st)) =? 0
              then hvsock_recv_data (r_ch st) (r_sk st)
              else (ret, 0, r_sk st, r_ch st))
      as [[[r1 pl] hvsk0] ch1] eqn:Htuple.
    destruct (recv_refill st ret r1 pl hvsk0 ch1 Hinv Hcan Htuple)
      as (Heio & Hcur & Hlen & Hun & Hring & Hk & Hflags).
    rewrite Heio.
    set (hvsk1 := if data_len (recv (r_sk st)) =? 0
                  then set_cursor pl 0 hvsk0 else hvsk0) in *.
    clearbody hvsk1.
    destruct (data_len (recv hvsk1) <=? total_to_read st) eqn:Ewhole.
    + apply Z.leb_le in Ewhole.
      destruct (memcpy_to_msg_cases (r_msg st) (pending_bytes hvsk1)
                  (data_len (recv hvsk1))) as [[Hroom ->] | [Hroom ->]].
      * cbn [Z.eqb negb].
        pose proof (recv_inv_copy st hvsk1 ch1 (data_len (recv hvsk1)) 0 0
                      Hinv Hcur Hun Hring Hk ltac:(lia) Ewhole
                      ltac:(right; auto)) as Hinv'.
        cbn [total_to_read].
        destruct (total_to_read st - data_len (recv hvsk1) =? 0) eqn:Edone.
        -- apply Z.eqb_eq in Edone. split; [exact Hinv' |].
           split; [left; exact Edone |].
           cbn [copied r_sk]. split; [lia |].
           split; [exact Hflags | left; lia].
        -- apply Z.eqb_neq in Edone.
           match goal with
           | |- context [recv_loop _ _ _ _ fuel timeout [] ?r0 ?st1] =>
               pose proof (IH st1 r0 timeout Hinv'
                             ltac:(cbn [total_to_read]; lia)
                             ltac:(cbn [total_to_read]; lia)) as Hrec;
               destruct (recv_loop _ _ _ _ fuel timeout [] r0 st1)
                 as [[[e | r] st'] | | |]; try exact Hrec
           end.
           destruct Hrec as (Hinv2 & Hexit2 & Hmono & Hfl2 & _).
           cbn [copied r_sk] in Hmono, Hfl2.
           split; [exact Hinv2 |]. split; [exact Hexit2 |].
           split; [lia |]. split; [| left; lia].
           destruct Hflags as (F1 & F2 & F3), Hfl2 as (G1 & G2 & G3).
           split; [exact (eq_trans G1 F1) |].
           split; [exact (eq_trans G2 F2) | exact (eq_trans G3 F3)].
      * cbn [negb Z.eqb EFAULT Z.opp].
        split; [apply recv_inv_keep; assumption |].
        split; [right; right; cbn [r_msg total_to_read]; lia |].
        cbn [copied r_sk]. split; [lia |].
        split; [exact Hflags | right; reflexivity].
    + apply Z.leb_gt in Ewhole.
      destruct (memcpy_to_msg_cases (r_msg st) (pending_bytes hvsk1)
                  (total_to_read st)) as [[Hroom ->] | [Hroom ->]].
      * cbn [Z.eqb negb].
        pose proof (recv_inv_copy st hvsk1 ch1 (total_to_read st) _ _
                      Hinv Hcur Hun Hring Hk ltac:(lia) ltac:(lia)
                      ltac:(left; split; reflexivity)) as Hinv'.
        rewrite Z.sub_diag in Hinv'.
        split; [exact Hinv' |]. split; [left; reflexivity |].
        cbn [copied r_sk]. split; [lia |].
        split; [exact Hflags | left; lia].
      * cbn [negb Z.eqb EFAULT Z.opp].
        split; [apply recv_inv_keep; assumption |].
        split; [right; right; cbn [r_msg total_to_read]; lia |].
        cbn [copied r_sk]. split; [lia |].
        split; [exact Hflags | right; reflexivity].
  - assert (Hexit : recv_exit HVSOCK_PKT_LEN PAGE_SIZE HVSOCK_MIN_PKT_LEN st).
    { right. left. unfold recv_can_read in Hcan.
      destruct (data_len (recv (r_sk st)) =? 0) eqn:E; [| discriminate].
      apply Z.eqb_eq in E. auto. }
    assert (Hsame : same_flags (r_sk st) (r_sk st)) by (repeat split).
    destruct (recv_stop (r_sk st));
      [split; [exact Hinv |]; split; [exact Hexit |];
       split; [lia |]; split; [exact Hsame | split; reflexivity] |].
    destruct (timeout =? 0) eqn:Et;
      [split; [exact Hinv |]; split; [exact Hexit |];
       split; [lia |]; split; [exact Hsame | split; reflexivity] |].
    destruct (0 <? copied st);
      [split; [exact Hinv |]; split; [exact Hexit |];
       split; [lia |]; split; [exact Hsame | split; reflexivity] |].
    apply Z.eqb_neq in Et. exact Et.
Qed.

Lemma recv_finish_stream ret st :
  recv_inv HVSOCK_RCV_BUF_SZ msg0 unread0 ring0 len st →
  len <= INT_MAX →
  let '(ret', st') :=
    recv_finish HVSOCK_PKT_LEN PAGE_SIZE HVSOCK_MIN_PKT_LEN ret st in
  recv_inv HVSOCK_RCV_BUF_SZ msg0 unread0 ring0 len st'
  ∧ copied st' = copied st ∧ total_to_read st' = total_to_read st
  ∧ r_ch st' = r_ch st ∧ r_msg st' = r_msg st
  ∧ recv (r_sk st') = recv (r_sk st)
  ∧ (0 < copied st → ret' = copied st).
Proof.
  intros Hinv Hlen. unfold recv_finish.
  pose proof Hinv as (_ & _ & _ & Hc & Ht & Hsum & _).
  destruct (0 <? copied st) eqn:Ec.
  - apply Z.ltb_lt in Ec.
    rewrite sint32_small by (unfold INT_MAX in Hlen; lia).
    destruct (_ && _ && _); repeat split; try reflexivity; apply Hinv.
  - apply Z.ltb_ge in Ec. repeat split; try reflexivity; try apply Hinv. lia.
Qed.
End RecvStream.

Lemma recv_inv_init RCV sk ch msg len :
  0 <= len → cursor_ok sk → Forall (inpkt_ok RCV) (inbound ch) →
  recv_inv RCV msg (unread sk ch) (inbound ch) len
    (Build_recv_st sk ch msg len 0).
Proof.
  intros Hlen Hcur Hring. unfold recv_inv.
  cbn [r_sk r_ch r_msg total_to_read copied Z.to_nat take drop].
  rewrite app_nil_r.
  repeat split; try reflexivity; try lia; try apply Hcur; try assumption.
  exists 0%nat. reflexivity.
Qed.

Lemma recvmsg_outcome HVSOCK_PKT_LEN PAGE_SIZE HVSOCK_MIN_PKT_LEN
    HVSOCK_RCV_BUF_SZ sk ch msg len flags :
  0 < HVSOCK_MIN_PKT_LEN → 0 <= len <= INT_MAX →
  cursor_ok sk → Forall (inpkt_ok HVSOCK_RCV_BUF_SZ) (inbound ch) →
  match hvsock_recvmsg HVSOCK_PKT_LEN PAGE_SIZE HVSOCK_MIN_PKT_LEN
          HVSOCK_RCV_BUF_SZ sk ch msg len flags [] with
  | Returned (ret, st) =>
      recv_inv HVSOCK_RCV_BUF_SZ msg (unread sk ch) (inbound ch) len st
      ∧ (0 < copied st → ret = copied st)
      ∧ (sk_state sk = SS_CONNECTED →
         Z.land flags (Z.lnot MSG_DONTWAIT) = 0 →
         has_bits (sk_shutdown sk) RCV_SHUTDOWN = false → len ≠ 0 →
         recv_exit HVSOCK_PKT_LEN PAGE_SIZE HVSOCK_MIN_PKT_LEN st)
  | InProgress => sock_rcvtimeo sk (Z.land flags MSG_DONTWAIT) ≠ 0
  | OutOfFuel | Oops => False
  end.
Proof.
  intros Hmin [Hlen0 Hlen] Hcur Hring.
  pose proof (recv_inv_init HVSOCK_RCV_BUF_SZ sk ch msg len Hlen0 Hcur Hring)
    as Hinv0.
  unfold hvsock_recvmsg.
  destruct (socket_state_eqb (sk_state sk) SS_CONNECTED) eqn:Est; cbn [negb].
  2:{ apply socket_state_eqb_neq in Est.
      destruct (sock_done sk);
        (split; [exact Hinv0 |]; split; [cbn [copied]; lia |];
         intros H; contradiction). }
  destruct (Z.land flags (Z.lnot MSG_DONTWAIT) =? 0) eqn:Efl; cbn [negb].
  2:{ apply Z.eqb_neq in Efl.
      split; [exact Hinv0 |]. split; [cbn [copied]; lia |].
      intros _ H; contradiction. }
  destruct (has_bits (sk_shutdown sk) RCV_SHUTDOWN) eqn:Esd.
  { split; [exact Hinv0 |]. split; [cbn [copied]; lia |].
    intros _ _ H; discriminate. }
  destruct (len =? 0) eqn:El.
  { apply Z.eqb_eq in El.
    split; [exact Hinv0 |]. split; [cbn [copied]; lia |].
    intros _ _ _ H; contradiction. }
  apply Z.eqb_neq in El.
  pose proof (recv_loop_stream HVSOCK_PKT_LEN PAGE_SIZE HVSOCK_MIN_PKT_LEN
                HVSOCK_RCV_BUF_SZ Hmin msg (unread sk ch) (inbound ch) len
                (S (Z.to_nat len
                   + length (@nil (sleep (hvsock_sock * vmbus_channel)))))
                (Build_recv_st sk ch msg len 0) 0
                (sock_rcvtimeo sk (Z.land flags MSG_DONTWAIT)) Hinv0
                ltac:(cbn [total_to_read]; lia)
                ltac:(cbn [total_to_read length]; lia)) as Hloop.
  destruct (recv_loop _ _ _ _ _ _ [] 0 _) as [[[e | r] st1] | | |];
    try exact Hloop; try contradiction.
  destruct Hloop as (Hinv1 & Hexit & _).
  pose proof (recv_finish_stream HVSOCK_PKT_LEN PAGE_SIZE HVSOCK_MIN_PKT_LEN
                HVSOCK_RCV_BUF_SZ msg (unread sk ch) (inbound ch) len r st1
                Hinv1 Hlen) as Hfin.
  destruct (recv_finish _ _ _ r st1) as [ret' st'].
  destruct Hfin as (Hinv' & Hcp & Httr & Hch & Hmsg & Hrecv & Hret).
  split; [exact Hinv' |]. split; [rewrite Hcp; exact Hret |].
  intros _ _ _ _. unfold recv_exit. rewrite Httr, Hch, Hmsg, Hrecv.
  exact Hexit.
Qed.

(** X25.  What a receive delivers.  When the cursor points into the pending
    packet, the packets of the ring are as a sender builds them, a minimal
    packet takes room in the ring, and no other context runs meanwhile,
    [hvsock_recvmsg] of at most INT_MAX bytes returns or, if it may block,
    is still waiting for data.  It appends to the user buffer exactly the
    first [n] bytes of the undelivered stream - the rest of the pending
    packet, then the payloads in ring order - with [n] at most the length
    asked for; the other bytes of the stream are still undelivered in cursor
    and ring, none lost, duplicated or reordered; cursor and ring stay well
    formed; and [n], when positive, is the value returned. *)
Theorem recvmsg_delivers_stream (HVSOCK_PKT_LEN : Z → Z)
    (PAGE_SIZE HVSOCK_MIN_PKT_LEN HVSOCK_RCV_BUF_SZ : Z)
    (sk : hvsock_sock) (ch : vmbus_channel) (msg : msghdr) (len flags : Z) :
  0 < HVSOCK_MIN_PKT_LEN → 0 <= len <= INT_MAX →
  cursor_ok sk → Forall (inpkt_ok HVSOCK_RCV_BUF_SZ) (inbound ch) →
  match hvsock_recvmsg HVSOCK_PKT_LEN PAGE_SIZE HVSOCK_MIN_PKT_LEN
          HVSOCK_RCV_BUF_SZ sk ch msg len flags [] with
  | Returned (ret, st) =>
      let n := copied st in
      msg_data (r_msg st) = msg_data msg ++ take (Z.to_nat n) (unread sk ch)
      ∧ unread (r_sk st) (r_ch st) = drop (Z.to_nat n) (unread sk ch)
      ∧ 0 <= n <= len ∧ n <= Z.of_nat (length (unread sk ch))
      ∧ (0 < n → ret = n)
      ∧ cursor_ok (r_sk st)
      ∧ Forall (inpkt_ok HVSOCK_RCV_BUF_SZ) (inbound (r_ch st))
  | InProgress => sock_rcvtimeo sk (Z.land flags MSG_DONTWAIT) ≠ 0
  | OutOfFuel | Oops => False
  end.
Proof.
  intros Hmin Hlen Hcur Hring.
  pose proof (recvmsg_outcome HVSOCK_PKT_LEN PAGE_SIZE HVSOCK_MIN_PKT_LEN
                HVSOCK_RCV_BUF_SZ sk ch msg len flags Hmin Hlen Hcur Hring)
    as Hout.
  destruct (hvsock_recvmsg _ _ _ _ sk ch msg len flags [])
    as [[ret st] | | |]; try exact Hout.
  destruct Hout as ((Hm & Hu & _ & Hc & Ht & Hsum & Hcur' & Hring' & _)
                    & Hret & _).
  cbv zeta.
  split; [exact Hm |]. split; [exact Hu |]. split; [lia |].
  split; [lia |]. split; [exact Hret |]. split; assumption.
Qed.

Lemma recvmsg_delivers_stream_witness :
  match hvsock_recvmsg Sample.pkt_len Sample.page Sample.min_pkt
          Sample.rcv_buf (Sample.connected 5 9 3%nat) Sample.one_packet
          (Sample.room_msg 3) 3 0 [] with
  | Returned (ret, st) =>
      let n := copied st in
      msg_data (r_msg st)
      = msg_data (Sample.room_msg 3)
        ++ take (Z.to_nat n)
             (unread (Sample.connected 5 9 3%nat) Sample.one_packet)
      ∧ unread (r_sk st) (r_ch st)
        = drop (Z.to_nat n)
            (unread (Sample.connected 5 9 3%nat) Sample.one_packet)
      ∧ 0 <= n <= 3
      ∧ n <= Z.of_nat (length (unread (Sample.connected 5 9 3%nat)
                                 Sample.one_packet))
      ∧ (0 < n → ret = n)
      ∧ cursor_ok (r_sk st)
      ∧ Forall (inpkt_ok Sample.rcv_buf) (inbound (r_ch st))
  | InProgress =>
      sock_rcvtimeo (Sample.connected 5 9 3%nat) (Z.land 0 MSG_DONTWAIT) ≠ 0
  | OutOfFuel | Oops => False
  end.
Proof.
  apply (recvmsg_delivers_stream Sample.pkt_len Sample.page Sample.min_pkt
           Sample.rcv_buf (Sample.connected 5 9 3%nat) Sample.one_packet
           (Sample.room_msg 3) 3 0).
  - vm_compute. reflexivity.
  - vm_compute. split; discriminate.
  - unfold cursor_ok. cbn. lia.
  - apply Forall_singleton.
    repeat split; vm_compute; (reflexivity || discriminate).
Defined.

Lemma carried_payloads PKT out :
  map in_payload (carried PKT out) = map out_payload out.
Proof. unfold carried. rewrite map_map. reflexivity. Qed.

Lemma carried_ok PKT SND RCV out :
  SND <= RCV → Forall (packet_ok SND) out →
  Forall (inpkt_ok RCV) (carried PKT out).
Proof.
  intros Hle Hok. unfold carried. apply Forall_map.
  eapply Forall_impl; [exact Hok |].
  intros p (_ & Hsz & Hlo & Hhi). unfold inpkt_ok, sizeof_hdr.
  cbn [in_status in_actual_len in_hdr in_payload]. repeat split; lia.
Qed.

Lemma carried_ring PKT SND MIN out :
  (∀ n, 0 < n → MIN <= PKT n) → Forall (packet_ok SND) out →
  Forall (λ p, MIN <= in_ring_bytes p) (carried PKT out).
Proof.
  intros Hpkt Hok. unfold carried. apply Forall_map.
  eapply Forall_impl; [exact Hok |].
  intros p (_ & _ & Hlo & _). cbn [in_ring_bytes]. apply Hpkt, Hlo.
Qed.

Lemma ring_readable MIN l :
  0 < MIN → Forall (λ p, MIN <= in_ring_bytes p) l →
  0 <= fold_right (λ p acc, in_ring_bytes p + acc) 0 l
  ∧ (l ≠ [] → MIN <= fold_right (λ p acc, in_ring_bytes p + acc) 0 l).
Proof.
  intros Hmin Hl. induction Hl as [| p l Hp Hl [IH0 IH]]; cbn [fold_right].
  - split; [lia | intros H; contradiction].
  - split; [lia | intros _; lia].
Qed.

(** X26.  Send and receive round trip.  Let a send hand [n] > 0 bytes to
    the ring and let the transport deliver its packets intact to a CONNECTED
    peer whose receive side is open and whose cursor is empty (the receive
    buffer is at least as large as the send cap and every packet takes at
    least the room of a minimal one).  Then a non-blocking receive of
    [rlen] bytes, 1 to INT_MAX, into a buffer with room for them returns
    min([rlen], [n]) and appends exactly that many bytes, the first ones of
    the message sent; and the send returned [n]. *)
Theorem send_recv_round_trip (HVSOCK_PKT_LEN : Z → Z)
    (PAGE_SIZE HVSOCK_MIN_PKT_LEN HVSOCK_SND_BUF_SZ HVSOCK_RCV_BUF_SZ : Z)
    (sk : hvsock_sock) (ch : vmbus_channel) (msg : msghdr) (len : Z)
    (sleeps : list (sleep (hvsock_sock * vmbus_channel)))
    (ret : Z) (st : send_st)
    (rsk : hvsock_sock) (rch : vmbus_channel) (rmsg : msghdr) (rlen : Z) :
  0 < HVSOCK_SND_BUF_SZ < 2 ^ 32 → HVSOCK_SND_BUF_SZ <= HVSOCK_RCV_BUF_SZ →
  0 < HVSOCK_MIN_PKT_LEN →
  (∀ n, 0 < n → HVSOCK_MIN_PKT_LEN <= HVSOCK_PKT_LEN n) →
  0 <= len <= INT_MAX →
  hvsock_sendmsg HVSOCK_PKT_LEN PAGE_SIZE HVSOCK_MIN_PKT_LEN
    HVSOCK_SND_BUF_SZ sk ch msg len sleeps
  = Returned (ret, st) →
  0 < bytes_transferred (s_out st) →
  sk_state rsk = SS_CONNECTED →
  has_bits (sk_shutdown rsk) RCV_SHUTDOWN = false →
  data_len (recv rsk) = 0 → cursor_ok rsk →
  inbound rch = carried HVSOCK_PKT_LEN (s_out st) →
  0 < rlen <= INT_MAX → rlen <= msg_room rmsg →
  ∃ rst,
    hvsock_recvmsg HVSOCK_PKT_LEN PAGE_SIZE HVSOCK_MIN_PKT_LEN
      HVSOCK_RCV_BUF_SZ rsk rch rmsg rlen MSG_DONTWAIT []
    = Returned (Z.min rlen ret, rst)
    ∧ msg_data (r_msg rst)
      = msg_data rmsg ++ take (Z.to_nat (Z.min rlen ret)) (msg_data msg)
    ∧ ret = bytes_transferred (s_out st).
Proof.
  intros Hsnd Hcap Hmin Hpkt Hlen Hsend Hn Hst Hsd Hdl Hcur Hring Hrlen Hroom.
  destruct (sendmsg_outcome _ _ _ _ _ _ _ _ _ _ _ Hsnd Hlen Hsend)
    as ((Hb & Hw0 & Ht0 & Hsum) & ([rest Hrest] & Hok & Hlast) & Hret).
  rewrite Hb in Hn. specialize (Hret Hn). rewrite <- Hb in Hret.
  assert (Hun : unread rsk rch = concat (map out_payload (s_out st))).
  { unfold unread. rewrite Hdl, Hring, carried_payloads. reflexivity. }
  assert (HlenU : Z.of_nat (length (unread rsk rch)) = ret).
  { rewrite Hun, Hret. reflexivity. }
  assert (Hring_ok : Forall (inpkt_ok HVSOCK_RCV_BUF_SZ) (inbound rch)).
  { rewrite Hring. eapply carried_ok; eassumption. }
  pose proof (recvmsg_outcome HVSOCK_PKT_LEN PAGE_SIZE HVSOCK_MIN_PKT_LEN
                HVSOCK_RCV_BUF_SZ rsk rch rmsg rlen MSG_DONTWAIT Hmin
                ltac:(lia) Hcur Hring_ok) as Hout.
  destruct (hvsock_recvmsg _ _ _ _ rsk rch rmsg rlen MSG_DONTWAIT [])
    as [[r rst] | | |]; [| exfalso; apply Hout; reflexivity
                         | contradiction | contradiction].
  destruct Hout as ((Hm & Hu & Hrm & Hc & Ht & Hs & Hcur' & Hring' & [k Hk])
                    & Hr & Hexit).
  specialize (Hexit Hst eq_refl Hsd ltac:(lia)).
  assert (Hcp : copied rst = Z.min rlen ret).
  { destruct Hexit as [Hz | [[Hd Hcan] | Hfault]].
    - lia.
    - assert (Hempty : inbound (r_ch rst) = []).
      { assert (Hbytes : Forall (λ p, HVSOCK_MIN_PKT_LEN <= in_ring_bytes p)
                           (inbound (r_ch rst))).
        { rewrite Hk, Hring. apply Forall_drop.
          eapply carried_ring; eassumption. }
        destruct (ring_readable _ _ Hmin Hbytes) as [_ Hge].
        unfold get_ringbuffer_rw_status in Hcan. cbn [fst] in Hcan.
        apply Z.leb_gt in Hcan. unfold avl_read_bytes in Hcan.
        destruct (inbound (r_ch rst)) as [| p l]; [reflexivity |].
        specialize (Hge ltac:(discriminate)). lia. }
      assert (Hnil : drop (Z.to_nat (copied rst)) (unread rsk rch) = []).
      { rewrite <- Hu. unfold unread. rewrite Hd, Hempty. reflexivity. }
      apply (f_equal length) in Hnil. rewrite length_drop in Hnil.
      cbn [length] in Hnil. lia.
    - lia. }
  exists rst.
  assert (Hpos : 0 < copied rst) by lia.
  rewrite (Hr Hpos), Hcp. split; [reflexivity |].
  split; [| exact Hret].
  rewrite Hm, Hcp, Hun, <- Hrest. f_equal.
  rewrite take_app_le; [reflexivity |].
  rewrite Hret. unfold bytes_transferred. lia.
Qed.

Lemma send_recv_round_trip_witness :
  let st :=
    match hvsock_sendmsg Sample.pkt_len Sample.page Sample.min_pkt
            Sample.snd_buf (Sample.connected 5 9 3%nat) Sample.second_refused
            (Sample.data_msg 0 10000) 10000 [] with
    | Returned (_, st) => st
    | _ => Build_send_st (Sample.connected 5 9 3%nat) Sample.second_refused
             (Sample.data_msg 0 10000) 10000 0 []
    end in
  ∃ rst,
    hvsock_recvmsg Sample.pkt_len Sample.page Sample.min_pkt Sample.rcv_buf
      (Sample.connected 9 5 4%nat)
      {| inbound := carried Sample.pkt_len (s_out st); avl_write_bytes := 0;
         sendpacket_status := [] |}
      (Sample.room_msg 5000) 5000 MSG_DONTWAIT []
    = Returned (Z.min 5000 4096, rst)
    ∧ msg_data (r_msg rst)
      = msg_data (Sample.room_msg 5000)
        ++ take (Z.to_nat (Z.min 5000 4096))
             (msg_data (Sample.data_msg 0 10000))
    ∧ 4096 = bytes_transferred (s_out st).
Proof.
  apply (send_recv_round_trip Sample.pkt_len Sample.page Sample.min_pkt
           Sample.snd_buf Sample.rcv_buf
           (Sample.connected 5 9 3%nat) Sample.second_refused
           (Sample.data_msg 0 10000) 10000 [] 4096 _
           (Sample.connected 9 5 4%nat) _ (Sample.room_msg 5000) 5000).
  - vm_compute. split; reflexivity.
  - vm_compute. discriminate.
  - vm_compute. reflexivity.
  - intros n Hn. unfold Sample.min_pkt, Sample.pkt_len. lia.
  - vm_compute. split; discriminate.
  - vm_compute. reflexivity.
  - vm_compute. reflexivity.
  - reflexivity.
  - reflexivity.
  - reflexivity.
  - unfold cursor_ok. cbn. lia.
  - reflexivity.
  - vm_compute. split; [reflexivity | discriminate].
  - vm_compute. discriminate.
Defined.

(** ** shutdown, then the other calls *)

(** X23.  shutdown as the later calls see it.  After a successful
    [hvsock_shutdown] the socket is DISCONNECTING and the sock keeps its
    state.  If the mode closed the send side (SHUT_WR or SHUT_RDWR), every
    send of a non-zero length with valid flags and no destination fails with
    EPIPE, nothing handed to the ring, and poll never reports the socket
    writable.  If the mode closed the receive side (SHUT_RD or SHUT_RDWR),
    every receive with valid flags on the still CONNECTED sock returns 0
    without touching cursor or ring, and poll reports the socket readable
    and flags POLLRDHUP.  After SHUT_RDWR poll reports POLLHUP. *)
Theorem shutdown_then_io (HVSOCK_PKT_LEN : Z → Z)
    (PAGE_SIZE HVSOCK_MIN_PKT_LEN HVSOCK_SND_BUF_SZ HVSOCK_RCV_BUF_SZ : Z)
    (sock : socket) (sk : hvsock_sock) (mode : Z) :
  state sock ≠ SS_UNCONNECTED → 0 <= mode <= 2 →
  0 <= sk_shutdown sk <= 3 →
  ∃ sk',
    hvsock_shutdown sock sk mode = (0, set_state SS_DISCONNECTING sock, sk')
    ∧ sk_state sk' = sk_state sk
    ∧ (mode = 1 ∨ mode = 2 →
       (∀ ch msg len sleeps,
          len ≠ 0 → Z.land (msg_flags msg) (Z.lnot MSG_DONTWAIT) = 0 →
          msg_namelen msg = 0 →
          hvsock_sendmsg HVSOCK_PKT_LEN PAGE_SIZE HVSOCK_MIN_PKT_LEN
            HVSOCK_SND_BUF_SZ sk' ch msg len sleeps
          = Returned (- EPIPE, Build_send_st sk' ch msg len 0 []))
       ∧ ∀ ch,
           has_bits (hvsock_poll HVSOCK_PKT_LEN PAGE_SIZE HVSOCK_MIN_PKT_LEN
                       sk' ch) POLLOUT = false)
    ∧ (mode = 0 ∨ mode = 2 →
       (∀ ch msg len flags sleeps,
          sk_state sk = SS_CONNECTED →
          Z.land flags (Z.lnot MSG_DONTWAIT) = 0 →
          hvsock_recvmsg HVSOCK_PKT_LEN PAGE_SIZE HVSOCK_MIN_PKT_LEN
            HVSOCK_RCV_BUF_SZ sk' ch msg len flags sleeps
          = Returned (0, Build_recv_st sk' ch msg len 0))
       ∧ ∀ ch,
           has_bits (hvsock_poll HVSOCK_PKT_LEN PAGE_SIZE HVSOCK_MIN_PKT_LEN
                       sk' ch) POLLIN = true
           ∧ has_bits (hvsock_poll HVSOCK_PKT_LEN PAGE_SIZE
                         HVSOCK_MIN_PKT_LEN sk' ch) POLLRDHUP = true)
    ∧ (mode = 2 →
       ∀ ch,
         has_bits (hvsock_poll HVSOCK_PKT_LEN PAGE_SIZE HVSOCK_MIN_PKT_LEN
                     sk' ch) POLLHUP = true).
Proof.
  intros Hstate Hmode Hsd. unfold hvsock_shutdown, SHUT_RD, SHUT_RDWR.
  destruct (mode <? 0) eqn:E1; [apply Z.ltb_lt in E1; lia |].
  rewrite Z.gtb_ltb.
  destruct (2 <? mode) eqn:E2; [apply Z.ltb_lt in E2; lia |].
  cbn [orb]. apply socket_state_eqb_neq in Hstate. rewrite Hstate.
  eexists. split; [reflexivity |].
  set (sk' := wake StateChange _).
  assert (Hsd' : sk_shutdown sk' = Z.lor (sk_shutdown sk) (mode + 1))
    by reflexivity.
  split; [reflexivity |].
  assert (Hsend : mode = 1 ∨ mode = 2 →
                  has_bits (sk_shutdown sk') SEND_SHUTDOWN = true).
  { intros Hm. rewrite Hsd', has_bits_lor.
    destruct Hm as [-> | ->]; apply orb_true_r. }
  assert (Hrcv : mode = 0 ∨ mode = 2 →
                 has_bits (sk_shutdown sk') RCV_SHUTDOWN = true).
  { intros Hm. rewrite Hsd', has_bits_lor.
    destruct Hm as [-> | ->]; apply orb_true_r. }
  split; [| split].
  - intros Hm. specialize (Hsend Hm). split.
    + intros ch msg len sleeps Hlen Hflags Hname. unfold hvsock_sendmsg.
      apply Z.eqb_neq in Hlen. rewrite Hlen, Hflags, Hname.
      unfold send_stop. rewrite Hsend. reflexivity.
    + intros ch. poll_bit POLLOUT. rewrite Hsend. btauto.
  - intros Hm. specialize (Hrcv Hm). split.
    + intros ch msg len flags sleeps Hst Hflags. unfold hvsock_recvmsg.
      change (sk_state sk') with (sk_state sk). rewrite Hst, Hflags, Hrcv.
      reflexivity.
    + intros ch. split.
      * poll_bit POLLIN. unfold read_closed. rewrite Hrcv. btauto.
      * poll_bit POLLRDHUP. unfold read_closed. rewrite Hrcv. btauto.
  - intros -> ch. poll_bit POLLHUP.
    assert (Hfull : (sk_shutdown sk' =? SHUTDOWN_MASK) = true).
    { rewrite Hsd'. apply Z.eqb_eq.
      assert (Hcases : sk_shutdown sk = 0 ∨ sk_shutdown sk = 1
                       ∨ sk_shutdown sk = 2 ∨ sk_shutdown sk = 3) by lia.
      destruct Hcases as [-> | [-> | [-> | ->]]]; reflexivity. }
    rewrite Hfull. btauto.
Qed.

Lemma shutdown_then_io_witness :
  ∃ sk',
    hvsock_shutdown (Sample.stream_socket SS_CONNECTED)
      (Sample.connected 5 9 3%nat) 2
    = (0, set_state SS_DISCONNECTING (Sample.stream_socket SS_CONNECTED), sk')
    ∧ sk_state sk' = sk_state (Sample.connected 5 9 3%nat)
    ∧ (2 = 1 ∨ 2 = 2 →
       (∀ ch msg len sleeps,
          len ≠ 0 → Z.land (msg_flags msg) (Z.lnot MSG_DONTWAIT) = 0 →
          msg_namelen msg = 0 →
          hvsock_sendmsg Sample.pkt_len Sample.page Sample.min_pkt
            Sample.snd_buf sk' ch msg len sleeps
          = Returned (- EPIPE, Build_send_st sk' ch msg len 0 []))
       ∧ ∀ ch,
           has_bits (hvsock_poll Sample.pkt_len Sample.page Sample.min_pkt
                       sk' ch) POLLOUT = false)
    ∧ (2 = 0 ∨ 2 = 2 →
       (∀ ch msg len flags sleeps,
          sk_state (Sample.connected 5 9 3%nat) = SS_CONNECTED →
          Z.land flags (Z.lnot MSG_DONTWAIT) = 0 →
          hvsock_recvmsg Sample.pkt_len Sample.page Sample.min_pkt
            Sample.rcv_buf sk' ch msg len flags sleeps
          = Returned (0, Build_recv_st sk' ch msg len 0))
       ∧ ∀ ch,
           has_bits (hvsock_poll Sample.pkt_len Sample.page Sample.min_pkt
                       sk' ch) POLLIN = true
           ∧ has_bits (hvsock_poll Sample.pkt_len Sample.page
                         Sample.min_pkt sk' ch) POLLRDHUP = true)
    ∧ (2 = 2 →
       ∀ ch,
         has_bits (hvsock_poll Sample.pkt_len Sample.page Sample.min_pkt
                     sk' ch) POLLHUP = true).
Proof.
  apply (shutdown_then_io Sample.pkt_len Sample.page Sample.min_pkt
           Sample.snd_buf Sample.rcv_buf
           (Sample.stream_socket SS_CONNECTED) (Sample.connected 5 9 3%nat) 2).
  - discriminate.
  - lia.
  - vm_compute. split; discriminate.
Defined.

(** ** Readiness and the non-blocking receive *)

(** X27.  poll and a non-blocking receive agree.  On a CONNECTED sock with
    a channel, no pending error, a cursor that points into the pending
    packet and a ring of packets as a sender builds them, a non-blocking
    [hvsock_recvmsg] of 1 to INT_MAX bytes returns, and: if [hvsock_poll]
    reports POLLIN on that state, the receive does not fail with EAGAIN - it
    returns a positive number of bytes, 0 for the end of file, or EFAULT for
    a user buffer that is too small; if poll does not report POLLIN, the
    receive returns EAGAIN and has copied nothing.  A positive value
    returned is the number of bytes copied. *)
Theorem poll_agrees_with_nonblocking_recv (HVSOCK_PKT_LEN : Z → Z)
    (PAGE_SIZE HVSOCK_MIN_PKT_LEN HVSOCK_RCV_BUF_SZ : Z)
    (sk : hvsock_sock) (ch : vmbus_channel) (msg : msghdr) (len : Z) :
  0 < HVSOCK_MIN_PKT_LEN → 0 < len <= INT_MAX →
  cursor_ok sk → Forall (inpkt_ok HVSOCK_RCV_BUF_SZ) (inbound ch) →
  sk_state sk = SS_CONNECTED → sk_err sk = 0 → channel sk ≠ None →
  ∃ ret st,
    hvsock_recvmsg HVSOCK_PKT_LEN PAGE_SIZE HVSOCK_MIN_PKT_LEN
      HVSOCK_RCV_BUF_SZ sk ch msg len MSG_DONTWAIT []
    = Returned (ret, st)
    ∧ (has_bits (hvsock_poll HVSOCK_PKT_LEN PAGE_SIZE HVSOCK_MIN_PKT_LEN
                   sk ch) POLLIN = true →
       0 < ret ∨ ret = 0 ∨ ret = - EFAULT)
    ∧ (has_bits (hvsock_poll HVSOCK_PKT_LEN PAGE_SIZE HVSOCK_MIN_PKT_LEN
                   sk ch) POLLIN = false →
       ret = - EAGAIN ∧ copied st = 0)
    ∧ (0 < ret → ret = copied st).
Proof.
  intros Hmin [Hlen0 Hlen] Hcur Hring Hst Herr Hch.
  assert (Hpoll : has_bits (hvsock_poll HVSOCK_PKT_LEN PAGE_SIZE
                              HVSOCK_MIN_PKT_LEN sk ch) POLLIN
                  = recv_can_read HVSOCK_PKT_LEN PAGE_SIZE HVSOCK_MIN_PKT_LEN
                      (Build_recv_st sk ch msg len 0)
                    || read_closed sk).
  { assert (Hpc : poll_can_read HVSOCK_PKT_LEN PAGE_SIZE HVSOCK_MIN_PKT_LEN
                    sk ch
                  = recv_can_read HVSOCK_PKT_LEN PAGE_SIZE HVSOCK_MIN_PKT_LEN
                      (Build_recv_st sk ch msg len 0)).
    { unfold poll_can_read, recv_can_read. cbn [r_sk r_ch].
      destruct (channel sk); [| contradiction].
      destruct Hcur as (Hd & _).
      destruct (data_len (recv sk) =? 0) eqn:E.
      - apply Z.eqb_eq in E. rewrite E. apply orb_false_r.
      - apply Z.eqb_neq in E.
        destruct (0 <? data_len (recv sk)) eqn:E2;
          [apply orb_true_r | apply Z.ltb_ge in E2; lia]. }
    poll_bit POLLIN. rewrite Hst, Hpc. cbn [socket_state_eqb]. btauto. }
  rewrite Hpoll. unfold read_closed, hvsock_recvmsg.
  rewrite Hst. cbn [socket_state_eqb negb].
  change (Z.land MSG_DONTWAIT (Z.lnot MSG_DONTWAIT) =? 0) with true.
  cbn [negb].
  destruct (has_bits (sk_shutdown sk) RCV_SHUTDOWN) eqn:Esd.
  { eexists _, _. split; [reflexivity |].
    rewrite orb_true_r. split; [auto |]. split; [discriminate | lia]. }
  destruct (len =? 0) eqn:El; [apply Z.eqb_eq in El; lia |].
  change (sock_rcvtimeo sk (Z.land MSG_DONTWAIT MSG_DONTWAIT)) with 0.
  pose proof (recv_inv_init HVSOCK_RCV_BUF_SZ sk ch msg len ltac:(lia) Hcur
                Hring) as Hinv0.
  pose proof (recv_loop_stream HVSOCK_PKT_LEN PAGE_SIZE HVSOCK_MIN_PKT_LEN
                HVSOCK_RCV_BUF_SZ Hmin msg (unread sk ch) (inbound ch) len
                (S (Z.to_nat len
                   + length (@nil (sleep (hvsock_sock * vmbus_channel)))))
                (Build_recv_st sk ch msg len 0) 0 0 Hinv0
                ltac:(cbn [total_to_read]; lia)
                ltac:(cbn [total_to_read length]; lia)) as Hloop.
  destruct (recv_loop _ _ _ _ _ 0 [] 0 _) as [[[e | r] st1] | | |];
    try contradiction.
  destruct Hloop as (Hinv1 & _ & Hmono & (F1 & F2 & F3) & Hprog).
  cbn [copied r_sk] in Hmono, F1, F2, F3, Hprog.
  pose proof Hinv1 as (_ & _ & _ & Hc & Ht & Hsum & _).
  unfold recv_finish. rewrite F1, F2, Herr, Esd. cbn [Z.eqb negb].
  destruct (recv_can_read HVSOCK_PKT_LEN PAGE_SIZE HVSOCK_MIN_PKT_LEN
              (Build_recv_st sk ch msg len 0)) eqn:Ecan; cbn [orb].
  - destruct (0 <? copied st1) eqn:Ec.
    + apply Z.ltb_lt in Ec.
      rewrite sint32_small by (unfold INT_MAX in Hlen; lia).
      destruct (_ && _ && _); eexists _, _; (split; [reflexivity |]);
        (split; [auto |]); (split; [discriminate | reflexivity]).
    + apply Z.ltb_ge in Ec. destruct Hprog as [Hp | ->]; [lia |].
      eexists _, _. split; [reflexivity |]. split; [auto |].
      split; [discriminate |]. unfold EFAULT. lia.
  - destruct Hprog as [Hcp Hr]. rewrite Hcp. cbn [Z.ltb Z.compare].
    unfold recv_stop in Hr. rewrite Herr, Esd in Hr. cbn [Z.eqb negb orb] in Hr.
    destruct (has_bits (peer_shutdown sk) SEND_SHUTDOWN).
    + subst r. eexists _, _. split; [reflexivity |]. split; [auto |].
      split; [discriminate | lia].
    + cbn [Z.eqb] in Hr. subst r. eexists _, _. split; [reflexivity |].
      split; [discriminate |]. split; [auto |]. unfold EAGAIN. lia.
Qed.

Lemma poll_agrees_with_nonblocking_recv_witness :
  ∃ ret st,
    hvsock_recvmsg Sample.pkt_len Sample.page Sample.min_pkt Sample.rcv_buf
      (Sample.connected 5 9 3%nat) Sample.one_packet (Sample.room_msg 3) 3
      MSG_DONTWAIT []
    = Returned (ret, st)
    ∧ (has_bits (hvsock_poll Sample.pkt_len Sample.page Sample.min_pkt
                   (Sample.connected 5 9 3%nat) Sample.one_packet) POLLIN
       = true →
       0 < ret ∨ ret = 0 ∨ ret = - EFAULT)
    ∧ (has_bits (hvsock_poll Sample.pkt_len Sample.page Sample.min_pkt
                   (Sample.connected 5 9 3%nat) Sample.one_packet) POLLIN
       = false →
       ret = - EAGAIN ∧ copied st = 0)
    ∧ (0 < ret → ret = copied st).
Proof.
  apply (poll_agrees_with_nonblocking_recv Sample.pkt_len Sample.page
           Sample.min_pkt Sample.rcv_buf (Sample.connected 5 9 3%nat)
           Sample.one_packet (Sample.room_msg 3) 3).
  - vm_compute. reflexivity.
  - vm_compute. split; [reflexivity | discriminate].
  - unfold cursor_ok. cbn. lia.
  - apply Forall_singleton.
    repeat split; vm_compute; (reflexivity || discriminate).
  - reflexivity.
  - reflexivity.
  - discriminate.
Defined.

(** ** A socket fresh from creation *)

(** X28.  What the calls return on a socket fresh from [hvsock_create].  A
    successful creation yields a stream socket in state UNCONNECTED that
    owns a sock with one reference, no address, no channel and an empty
    queue.  On it, the peer name, shutdown with a valid mode, a send and a
    receive with valid arguments all fail with ENOTCONN; listen fails with
    EINVAL, whatever the backlog, because the socket is not bound; and poll
    reports no event at all, not even that the socket is writable. *)
Theorem fresh_socket_calls (SHV_PROTO_RAW : Z) (HVSOCK_PKT_LEN : Z → Z)
    (PAGE_SIZE HVSOCK_MIN_PKT_LEN HVSOCK_SND_BUF_SZ HVSOCK_RCV_BUF_SZ : Z)
    (sock : socket) (protocol : Z) (cap_sys_admin cap_net_admin alloc_ok : bool)
    (sock' : socket) (sk : hvsock_sock) :
  hvsock_create SHV_PROTO_RAW sock protocol cap_sys_admin cap_net_admin alloc_ok
  = (0, Some (sock', sk)) →
  type sock' = SOCK_STREAM ∧ state sock' = SS_UNCONNECTED
  ∧ sk_socket sk = Some sock' ∧ sk_refcnt sk = 1
  ∧ hvsock_addr_bound (local_addr sk) = false
  ∧ channel sk = None ∧ accept_queue sk = []
  ∧ hvsock_getname sock' sk 1 = (- ENOTCONN, None)
  ∧ (∀ mode, 0 <= mode <= 2 →
       hvsock_shutdown sock' sk mode = (- ENOTCONN, sock', sk))
  ∧ (∀ backlog, hvsock_listen sock' sk backlog = (- EINVAL, sk))
  ∧ (∀ ch msg len sleeps,
       len ≠ 0 → Z.land (msg_flags msg) (Z.lnot MSG_DONTWAIT) = 0 →
       msg_namelen msg = 0 →
       hvsock_sendmsg HVSOCK_PKT_LEN PAGE_SIZE HVSOCK_MIN_PKT_LEN
         HVSOCK_SND_BUF_SZ sk ch msg len sleeps
       = Returned (- ENOTCONN, Build_send_st sk ch msg len 0 []))
  ∧ (∀ ch msg len flags sleeps,
       hvsock_recvmsg HVSOCK_PKT_LEN PAGE_SIZE HVSOCK_MIN_PKT_LEN
         HVSOCK_RCV_BUF_SZ sk ch msg len flags sleeps
       = Returned (- ENOTCONN, Build_recv_st sk ch msg len 0))
  ∧ (∀ ch, hvsock_poll HVSOCK_PKT_LEN PAGE_SIZE HVSOCK_MIN_PKT_LEN sk ch = 0).
Proof.
  unfold hvsock_create.
  destruct (negb cap_sys_admin && negb cap_net_admin); [discriminate |].
  destruct (negb (protocol =? 0) && negb (protocol =? SHV_PROTO_RAW));
    [discriminate |].
  destruct (type sock =? SOCK_STREAM) eqn:Ety; [| discriminate].
  destruct alloc_ok; [| discriminate].
  intros [= <- <-]. apply Z.eqb_eq in Ety.
  split; [exact Ety |]. split; [reflexivity |]. split; [reflexivity |].
  split; [reflexivity |]. split; [reflexivity |]. split; [reflexivity |].
  split; [reflexivity |]. split; [reflexivity |].
  split.
  { intros mode Hmode. unfold hvsock_shutdown, SHUT_RD, SHUT_RDWR.
    destruct (mode <? 0) eqn:E1; [apply Z.ltb_lt in E1; lia |].
    rewrite Z.gtb_ltb.
    destruct (2 <? mode) eqn:E2; [apply Z.ltb_lt in E2; lia |].
    reflexivity. }
  split.
  { intros backlog. unfold hvsock_listen. cbn [type set_state state].
    rewrite Ety. cbn [Z.eqb SOCK_STREAM Pos.eqb negb socket_state_eqb].
    destruct (backlog <=? 0); reflexivity. }
  split.
  { intros ch msg len sleeps Hlen Hflags Hname. unfold hvsock_sendmsg.
    apply Z.eqb_neq in Hlen. rewrite Hlen, Hflags, Hname. reflexivity. }
  split; [intros; reflexivity |].
  intros ch. reflexivity.
Qed.

Lemma fresh_socket_calls_witness :
  type (set_state SS_UNCONNECTED (Sample.stream_socket SS_FREE)) = SOCK_STREAM
  ∧ state (set_state SS_UNCONNECTED (Sample.stream_socket SS_FREE))
    = SS_UNCONNECTED
  ∧ sk_socket
      (__hvsock_create
         (Some (set_state SS_UNCONNECTED (Sample.stream_socket SS_FREE))) 0)
    = Some (set_state SS_UNCONNECTED (Sample.stream_socket SS_FREE))
  ∧ sk_refcnt
      (__hvsock_create
         (Some (set_state SS_UNCONNECTED (Sample.stream_socket SS_FREE))) 0)
    = 1.
Proof.
  destruct (fresh_socket_calls 1 Sample.pkt_len Sample.page Sample.min_pkt
              Sample.snd_buf Sample.rcv_buf (Sample.stream_socket SS_FREE) 0
              true false true
              (set_state SS_UNCONNECTED (Sample.stream_socket SS_FREE))
              (__hvsock_create
                 (Some (set_state SS_UNCONNECTED
                          (Sample.stream_socket SS_FREE))) 0)
              eq_refl)
    as (H1 & H2 & H3 & H4 & _).
  auto.
Defined.

(** ** shutdown, then connect *)

(** A connect that follows a successful shutdown is refused with EINVAL: the
    sock sees its socket DISCONNECTING. *)
Lemma connect_after_shutdown (sizeof_sockaddr_hv HZ : Z) (sk : sk_id)
    (w : world) (s s' : hvsock_sock) (sock sock' : socket) (mode : Z)
    (addr : option sockaddr_hv) (addr_len flags request_ret : Z)
    (gens : list uuid_le) (sleeps : list (sleep world)) :
  socks w !! sk = Some s →
  hvsock_shutdown sock s mode = (0, sock', s') →
  hvsock_connect sizeof_sockaddr_hv HZ sk addr addr_len flags request_ret
    gens sleeps (set_socks (<[sk := s']> (socks w)) w)
  = Returned
      (Build_connect_result (- EINVAL) (set_socks (<[sk := s']> (socks w)) w)
         gens None None).
Proof.
  intros Hs Hrun. unfold hvsock_shutdown in Hrun.
  destruct ((mode <? SHUT_RD) || (mode >? SHUT_RDWR)); [discriminate |].
  destruct (socket_state_eqb (state sock) SS_UNCONNECTED); [discriminate |].
  injection Hrun as <- <-.
  unfold hvsock_connect. rewrite socks_set_socks.
  rewrite list_lookup_insert_eq by (eapply lookup_lt_Some; exact Hs).
  reflexivity.
Qed.
